(** * pybuilder/_vendor: pkg_resources and importlib_metadata

    A shallow embedding of the parts of the two vendored modules that the
    specification talks about, followed by the properties proved of them.

    Text is modelled by Rocq strings, read as sequences of code points
    below 256.  Exceptions are values of a result type.  The [packaging]
    library (versions, specifier sets, markers, the requirement parser), the
    operating system and the interpreter configuration are not part of the
    two modules; they enter as type-class parameters, and a small instance of
    each is given so that every statement can be run on concrete data. *)

From Stdlib Require Import List String Ascii Bool ZArith Lia Arith PeanoNat.
From Stdlib Require Import Permutation Sorted OrdersEx.
Import ListNotations.

Local Open Scope list_scope.
Local Open Scope string_scope.

Set Implicit Arguments.

(* ================================================================== *)
(** * Part I: definitions *)
(* ================================================================== *)

(** ** Exceptions as results *)

Inductive result (E A : Type) : Type :=
| Ok (a : A)
| Raise (e : E).

Arguments Ok {E A} a.
Arguments Raise {E A} e.

Definition bind {E A B} (m : result E A) (f : A -> result E B) : result E B :=
  match m with
  | Ok a => f a
  | Raise e => Raise e
  end.

Notation "x <- m ;; k" := (bind m (fun x => k))
  (at level 61, m at next level, right associativity).
Notation "' p <- m ;; k" := (bind m (fun x => match x with p => k end))
  (at level 61, p pattern, m at next level, right associativity).

(** ** Exceptions raised by the library code and by what it calls *)

Inductive builtin_exn : Type :=
| ValueError (args : list string)
| TypeError (msg : string)
| AttributeError (msg : string)
| KeyError (key : string)
| InvalidVersion (version : string)
| InvalidRequirement (text : string)
| OSError (msg : string)
| FileExistsError (path : string)
| FileNotFoundError (path : string)
| NotImplementedError (msg : string)
| AssertionError (msg : string)
| UnboundLocalError (name : string).

(** ** Python's [str] methods used by the two modules *)

Module PyStr.

Definition code (c : ascii) : nat := nat_of_ascii c.

Definition between (lo hi : nat) (c : ascii) : bool :=
  (lo <=? code c)%nat && (code c <=? hi)%nat.

(** The character [34], written by its code to keep string literals plain. *)
Definition dquote_char : ascii := ascii_of_nat 34.
Definition dquote : string := String dquote_char EmptyString.

(** [str.isspace] on one character. *)
Definition isspace (c : ascii) : bool :=
  between 9 13 c || between 28 32 c
  || Nat.eqb (code c) 133 || Nat.eqb (code c) 160.

(** [str.lower] on one character: A-Z, and the Latin-1 capitals. *)
Definition lower_char (c : ascii) : ascii :=
  if between 65 90 c
     || (between 192 222 c && negb (Nat.eqb (code c) 215))
  then ascii_of_nat (code c + 32)
  else c.

Fixpoint lower (s : string) : string :=
  match s with
  | EmptyString => EmptyString
  | String c s' => String (lower_char c) (lower s')
  end.

Definition bool_of_str (s : string) : bool :=
  match s with EmptyString => false | _ => true end.

Fixpoint contains_char (c : ascii) (s : string) : bool :=
  match s with
  | EmptyString => false
  | String d s' => Ascii.eqb c d || contains_char c s'
  end.

Fixpoint rev_acc (s acc : string) : string :=
  match s with
  | EmptyString => acc
  | String c s' => rev_acc s' (String c acc)
  end.

Definition rev (s : string) : string := rev_acc s EmptyString.

Fixpoint lstrip_by (p : ascii -> bool) (s : string) : string :=
  match s with
  | EmptyString => EmptyString
  | String c s' => if p c then lstrip_by p s' else s
  end.

Definition rstrip_by (p : ascii -> bool) (s : string) : string :=
  rev (lstrip_by p (rev s)).

Definition strip_by (p : ascii -> bool) (s : string) : string :=
  rstrip_by p (lstrip_by p s).

(** [s.strip()] *)
Definition strip (s : string) : string := strip_by isspace s.

(** [s.strip(chars)] *)
Definition strip_chars (chars s : string) : string :=
  strip_by (fun c => contains_char c chars) s.

(** [s.startswith(p)] *)
Definition startswith (p s : string) : bool := String.prefix p s.

(** [s.endswith(p)] *)
Definition endswith (p s : string) : bool := String.prefix (rev p) (rev s).

(** [s.partition(sep)] for a one-character separator. *)
Fixpoint partition (sep : ascii) (s : string) : string * string * string :=
  match s with
  | EmptyString => (EmptyString, EmptyString, EmptyString)
  | String c s' =>
      if Ascii.eqb c sep then (EmptyString, String sep EmptyString, s')
      else let '(a, m, b) := partition sep s' in (String c a, m, b)
  end.

(** [s.split(sep)] for a one-character separator. *)
Fixpoint split_acc (sep : ascii) (s : string) (cur : string) : list string :=
  match s with
  | EmptyString => [rev cur]
  | String c s' =>
      if Ascii.eqb c sep then rev cur :: split_acc sep s' EmptyString
      else split_acc sep s' (String c cur)
  end.

Definition split (sep : ascii) (s : string) : list string :=
  split_acc sep s EmptyString.

(** Line boundaries of [str.splitlines]. *)
Definition is_linebreak (c : ascii) : bool :=
  between 10 13 c || between 28 30 c || Nat.eqb (code c) 133.

(** [s.splitlines()]: a carriage return followed by a line feed is one
    boundary, and a final boundary opens no empty last line. *)
Fixpoint splitlines_acc (s : string) (cur : string) : list string :=
  match s with
  | EmptyString =>
      match cur with EmptyString => [] | _ => [rev cur] end
  | String c s' =>
      if is_linebreak c then
        match s' with
        | String d s'' =>
            if Nat.eqb (code c) 13 && Nat.eqb (code d) 10
            then rev cur :: splitlines_acc s'' EmptyString
            else rev cur :: splitlines_acc s' EmptyString
        | EmptyString => [rev cur]
        end
      else splitlines_acc s' (String c cur)
  end.

Definition splitlines (s : string) : list string :=
  splitlines_acc s EmptyString.

(** [sep.join(parts)] *)
Definition join (sep : string) (parts : list string) : string :=
  String.concat sep parts.

End PyStr.

(** ** Regular expressions

    The patterns of the two modules are written as terms of [regex] and run
    by a backtracking matcher that tries alternatives in the order Python's
    [re] does: a greedy repetition first tries one more round, a lazy one
    first tries to stop.  Named groups record the text they matched. *)

Module Re.

Inductive regex : Type :=
| Eps
| Chr (p : ascii -> bool)
| Cat (r1 r2 : regex)
| Alt (r1 r2 : regex)
| Star (r : regex)
| LazyStar (r : regex)
| Group (name : string) (r : regex)
| Dollar.

Definition Plus (r : regex) : regex := Cat r (Star r).
Definition LazyPlus (r : regex) : regex := Cat r (LazyStar r).
Definition Opt (r : regex) : regex := Alt r Eps.

Fixpoint Lit (s : string) : regex :=
  match s with
  | EmptyString => Eps
  | String c s' => Cat (Chr (Ascii.eqb c)) (Lit s')
  end.

(** Character classes. *)
Definition digit (c : ascii) : bool := PyStr.between 48 57 c.
Definition ascii_alnum (c : ascii) : bool :=
  digit c || PyStr.between 65 90 c || PyStr.between 97 122 c.
(** [\w] on code points below 256: letters, numeric characters and [_]. *)
Definition word (c : ascii) : bool :=
  ascii_alnum c || Nat.eqb (PyStr.code c) 95
  || Nat.eqb (PyStr.code c) 170 || Nat.eqb (PyStr.code c) 181
  || Nat.eqb (PyStr.code c) 186
  || PyStr.between 178 179 c || Nat.eqb (PyStr.code c) 185
  || PyStr.between 188 190 c
  || (PyStr.between 192 255 c
      && negb (Nat.eqb (PyStr.code c) 215)
      && negb (Nat.eqb (PyStr.code c) 247)).
(** [\s] *)
Definition space (c : ascii) : bool := PyStr.isspace c.
(** [.] without DOTALL: anything but a line feed. *)
Definition dot (c : ascii) : bool := negb (Nat.eqb (PyStr.code c) 10).

Definition groups : Type := list (string * string).

Fixpoint group (name : string) (g : groups) : option string :=
  match g with
  | [] => None
  | (n, v) :: g' => if String.eqb n name then Some v else group name g'
  end.

Definition consumed (s rest : string) : string :=
  String.substring 0 (String.length s - String.length rest) s.

Definition orelse {A} (a b : option A) : option A :=
  match a with Some _ => a | None => b end.

(** [run r s g k]: match [r] at the start of [s], then continue with [k]
    on what is left. *)
Fixpoint run (r : regex) (s : string) (g : groups)
         (k : string -> groups -> option (string * groups))
  : option (string * groups) :=
  match r with
  | Eps => k s g
  | Chr p =>
      match s with
      | String c s' => if p c then k s' g else None
      | EmptyString => None
      end
  | Cat r1 r2 => run r1 s g (fun s' g' => run r2 s' g' k)
  | Alt r1 r2 => orelse (run r1 s g k) (run r2 s g k)
  | Star r' =>
      (fix loop (n : nat) (s : string) (g : groups) {struct n} :=
         match n with
         | O => k s g
         | S n' =>
             orelse
               (run r' s g
                    (fun s' g' =>
                       if (String.length s' <? String.length s)%nat
                       then loop n' s' g' else None))
               (k s g)
         end) (S (String.length s)) s g
  | LazyStar r' =>
      (fix loop (n : nat) (s : string) (g : groups) {struct n} :=
         match n with
         | O => k s g
         | S n' =>
             orelse
               (k s g)
               (run r' s g
                    (fun s' g' =>
                       if (String.length s' <? String.length s)%nat
                       then loop n' s' g' else None))
         end) (S (String.length s)) s g
  | Group name r' =>
      run r' s g (fun s' g' => k s' ((name, consumed s s') :: g'))
  | Dollar =>
      match s with
      | EmptyString => k s g
      | String c EmptyString =>
          if Nat.eqb (PyStr.code c) 10 then k s g else None
      | _ => None
      end
  end.

(** [pattern.match(s)]: the rest of the text and the groups that took
    part in the match ([groupdict] gives [None] for the others). *)
Definition match_ (r : regex) (s : string) : option (string * groups) :=
  run r s [] (fun s' g' => Some (s', g')).

(** [pattern.sub(repl, s)] for patterns that match no empty text. *)
Fixpoint sub_loop (n : nat) (r : regex) (repl s : string) : string :=
  match n with
  | O => s
  | S n' =>
      match s with
      | EmptyString => EmptyString
      | String c s' =>
          match match_ r s with
          | Some (rest, _) =>
              if (String.length rest <? String.length s)%nat
              then repl ++ sub_loop n' r repl rest
              else String c (sub_loop n' r repl s')
          | None => String c (sub_loop n' r repl s')
          end
      end
  end.

Definition sub (r : regex) (repl s : string) : string :=
  sub_loop (S (String.length s)) r repl s.

End Re.

(** ** importlib_metadata *)

Module importlib_metadata.

(** [Pair(name, value)] as produced by [Sectioned.read]: the name is the
    current section, [None] before the first header. *)
Record Pair : Type := mkPair { name : option string; value : string }.

(** [Sectioned.valid] *)
Definition Sectioned_valid (line : string) : bool :=
  PyStr.bool_of_str line && negb (PyStr.startswith "#" line).

(** The generator loop of [Sectioned.read], over the filtered lines. *)
Fixpoint Sectioned_read_loop (name : option string) (lines : list string)
  : list Pair :=
  match lines with
  | [] => []
  | value :: rest =>
      let section_match :=
        PyStr.startswith "[" value && PyStr.endswith "]" value in
      if section_match
      then Sectioned_read_loop (Some (PyStr.strip_chars "[]" value)) rest
      else mkPair name value :: Sectioned_read_loop name rest
  end.

(** [Sectioned.read(text, filter_)]; [filter(None, ...)] keeps the
    non-empty lines. *)
Definition Sectioned_read (text : string) (filter_ : option (string -> bool))
  : list Pair :=
  let keep := match filter_ with
              | Some f => f
              | None => PyStr.bool_of_str
              end in
  let lines := filter keep (map PyStr.strip (PyStr.splitlines text)) in
  Sectioned_read_loop None lines.

(** The lines [Sectioned.read] works on, and the test it makes of each:
    whether it is a section header. *)
Definition Sectioned_lines (text : string) (filter_ : option (string -> bool))
  : list string :=
  filter (match filter_ with
          | Some f => f
          | None => PyStr.bool_of_str
          end)
         (map PyStr.strip (PyStr.splitlines text)).

Definition Sectioned_is_header (value : string) : bool :=
  PyStr.startswith "[" value && PyStr.endswith "]" value.

(** [make_condition(name)]: [name and f'extra == "{name}"'] *)
Definition make_condition (name : string) : string :=
  if PyStr.bool_of_str name
  then "extra == " ++ PyStr.dquote ++ name ++ PyStr.dquote
  else name.

(** [quoted_marker(section)] *)
Definition quoted_marker (section : option string) : string :=
  let section := match section with
                 | Some s => if PyStr.bool_of_str s then s else ""
                 | None => ""
                 end in
  let '(extra, _, markers) := PyStr.partition ":" section in
  let markers :=
    if PyStr.bool_of_str extra && PyStr.bool_of_str markers
    then "(" ++ markers ++ ")" else markers in
  let conditions :=
    filter PyStr.bool_of_str [markers; make_condition extra] in
  match conditions with
  | [] => ""
  | _ => "; " ++ PyStr.join " and " conditions
  end.

(** [url_req_space(req)]: [' ' * ('@' in req)] *)
Definition url_req_space (req : string) : string :=
  if PyStr.contains_char "@" req then " " else "".

(** [Distribution._convert_egg_info_reqs_to_simple_reqs] *)
Definition _convert_egg_info_reqs_to_simple_reqs (sections : list Pair)
  : list string :=
  map (fun section =>
         let space := url_req_space (value section) in
         value section ++ space ++ quoted_marker (name section))
      sections.

(** [Distribution._deps_from_requires_text] *)
Definition _deps_from_requires_text (source : string) : list string :=
  _convert_egg_info_reqs_to_simple_reqs (Sectioned_read source None).

(** [EntryPoint.pattern]: the group [module] of [[\w.]+] and blanks;
    optionally a colon, blanks, the group [attr] of [[\w.]+] and blanks;
    optionally the group [extras], a bracketed text, and blanks; then the
    end of the text. *)
Definition EntryPoint_pattern : Re.regex :=
  let word_or_dot c := Re.word c || Ascii.eqb c "." in
  Re.Cat (Re.Group "module" (Re.Plus (Re.Chr word_or_dot)))
    (Re.Cat (Re.Star (Re.Chr Re.space))
       (Re.Cat
          (Re.Opt
             (Re.Cat (Re.Chr (Ascii.eqb ":"))
                (Re.Cat (Re.Star (Re.Chr Re.space))
                   (Re.Cat (Re.Group "attr" (Re.Plus (Re.Chr word_or_dot)))
                           (Re.Star (Re.Chr Re.space))))))
          (Re.Cat
             (Re.Opt
                (Re.Cat
                   (Re.Group "extras"
                      (Re.Cat (Re.Chr (Ascii.eqb "["))
                         (Re.Cat (Re.Star (Re.Chr Re.dot))
                                 (Re.Chr (Ascii.eqb "]")))))
                   (Re.Star (Re.Chr Re.space))))
             Re.Dollar))).

Section EntryPoint.

(** The distributions an entry point may be bound to by [_for]. *)
Variable Dist : Type.

(** An entry point: what [vars(self)] holds. *)
Record EntryPoint : Type := mkEntryPoint {
  EntryPoint_name : string;
  EntryPoint_value : string;
  EntryPoint_group : string;
  EntryPoint_dist : option Dist
}.

(** [EntryPoint._match] *)
Definition EntryPoint__match (self : EntryPoint)
  : result builtin_exn Re.groups :=
  match Re.match_ EntryPoint_pattern (EntryPoint_value self) with
  | Some (_, g) => Ok g
  | None =>
      Raise (ValueError ["Invalid object reference."; EntryPoint_value self])
  end.

(** [EntryPoint.module] *)
Definition EntryPoint_module (self : EntryPoint)
  : result builtin_exn string :=
  g <- EntryPoint__match self ;;
  Ok match Re.group "module" g with Some m => m | None => "" end.

(** [EntryPoint.__init__]: the attributes are stored through
    [vars(self)], then [self.module] validates the value. *)
Definition EntryPoint___init__ (name value group : string)
  : result builtin_exn EntryPoint :=
  let self := {| EntryPoint_name := name; EntryPoint_value := value;
                 EntryPoint_group := group; EntryPoint_dist := None |} in
  _ <- EntryPoint_module self ;;
  Ok self.

(** [EntryPoint._for] *)
Definition EntryPoint__for (self : EntryPoint) (dist : Dist) : EntryPoint :=
  {| EntryPoint_name := EntryPoint_name self;
     EntryPoint_value := EntryPoint_value self;
     EntryPoint_group := EntryPoint_group self;
     EntryPoint_dist := Some dist |}.

(** [EntryPoint.__setattr__], for a value of any type. *)
Definition EntryPoint___setattr__ {V : Type} (self : EntryPoint)
           (name : string) (value : V) : result builtin_exn EntryPoint :=
  Raise (AttributeError "EntryPoint objects are immutable.").

End EntryPoint.

End importlib_metadata.

(** ** Python dictionaries

    A [dict] keeps its keys in insertion order; it is modelled by an
    association list without repeated keys, compared by the key's [==]. *)

Module PyDict.
Section Dict.
Variables K V : Type.
Variable eqb : K -> K -> bool.

Definition dict : Type := list (K * V).

(** [d.get(k)] *)
Fixpoint get (k : K) (d : dict) : option V :=
  match d with
  | [] => None
  | (k', v) :: d' => if eqb k' k then Some v else get k d'
  end.

(** [d[k] = v]: an existing key keeps its place. *)
Fixpoint set (k : K) (v : V) (d : dict) : dict :=
  match d with
  | [] => [(k, v)]
  | (k', v') :: d' =>
      if eqb k' k then (k', v) :: d' else (k', v') :: set k v d'
  end.

(** [d.setdefault(k, v)]: the value now stored and the updated dict. *)
Definition setdefault (k : K) (v : V) (d : dict) : V * dict :=
  match get k d with
  | Some v' => (v', d)
  | None => (v, set k v d)
  end.

Definition keys (d : dict) : list K := map fst d.
End Dict.
End PyDict.

(** ** The [packaging] library, as far as [pkg_resources] uses it *)

(** What [packaging.requirements.Requirement(text)] holds once parsed;
    [extras] lists the set of extras in the order it is iterated. *)
Record PackagingRequirement (S M : Type) : Type := mkPackagingRequirement {
  pr_name : string;
  pr_url : option string;
  pr_extras : list string;
  pr_specifier : S;
  pr_marker : option M
}.

Class Packaging : Type := {
  (** [packaging.version.Version] *)
  Version : Type;
  (** [Version(text)]; [None] stands for [InvalidVersion]. *)
  parse_version : string -> option Version;
  (** [str(version)] *)
  version_str : Version -> string;
  (** The order [==] and [<] of versions read off. *)
  version_compare : Version -> Version -> comparison;
  (** [packaging.specifiers.SpecifierSet] *)
  SpecifierSet : Type;
  (** [specifier.contains(version_text, prereleases=flag)] *)
  specifier_contains : SpecifierSet -> string -> bool -> result builtin_exn bool;
  (** [==] of specifier sets *)
  specifier_eqb : SpecifierSet -> SpecifierSet -> bool;
  (** [[(spec.operator, spec.version) for spec in specifier]] *)
  specifier_specs : SpecifierSet -> list (string * string);
  (** [packaging.markers.Marker] *)
  Marker : Type;
  (** [marker.evaluate({'extra': extra})] *)
  marker_evaluate : Marker -> string -> bool;
  (** [str(marker)] *)
  marker_str : Marker -> string;
  (** [packaging.requirements.Requirement(text)]; [None] stands for
      [InvalidRequirement]. *)
  packaging_Requirement :
    string -> option (PackagingRequirement SpecifierSet Marker);
  (** [join_continuation(map(drop_comment, yield_lines(text)))] of
      [jaraco.text]: the logical requirement lines of a text. *)
  requirement_lines : string -> list string
}.

(** The laws of a total order, which [packaging] versions obey. *)
Record TotalCmp {A : Type} (cmp : A -> A -> comparison) : Prop := {
  cmp_antisym : forall a b, cmp b a = CompOpp (cmp a b);
  cmp_trans : forall o a b c, cmp a b = o -> cmp b c = o -> cmp a c = o;
  cmp_eq_l : forall a b c, cmp a b = Eq -> cmp a c = cmp b c
}.

(** Orders built from orders. *)
Module Order.

(** The order of pairs that compares the first components first. *)
Definition lex {A B} (c1 : A -> A -> comparison) (c2 : B -> B -> comparison)
           (x y : A * B) : comparison :=
  match c1 (fst x) (fst y) with
  | Eq => c2 (snd x) (snd y)
  | o => o
  end.

(** [None] before every value. *)
Definition option_compare {A} (c : A -> A -> comparison)
           (x y : option A) : comparison :=
  match x, y with
  | None, None => Eq
  | None, Some _ => Lt
  | Some _, None => Gt
  | Some a, Some b => c a b
  end.

Definition is_lt (o : comparison) : bool :=
  match o with Lt => true | _ => false end.

End Order.

(** [packaging.utils.canonicalize_name]:
    [re.sub(r"[-_.]+", "-", name).lower()]. *)
Module packaging_utils.

(** [re.sub] of a pattern [[class]+]: every maximal run of characters of
    the class is replaced by [repl]. *)
Fixpoint sub_runs (p : ascii -> bool) (repl : string) (in_run : bool)
         (s : string) : string :=
  match s with
  | EmptyString => EmptyString
  | String c s' =>
      if p c
      then (if in_run then sub_runs p repl true s'
            else repl ++ sub_runs p repl true s')
      else String c (sub_runs p repl false s')
  end.

Definition is_sep (c : ascii) : bool :=
  Ascii.eqb c "-" || Ascii.eqb c "_" || Ascii.eqb c ".".

Definition canonicalize_name (name : string) : string :=
  PyStr.lower (sub_runs is_sep "-" false name).

End packaging_utils.

(** ** pkg_resources *)

Module pkg_resources.

Import packaging_utils.

(** *** Name and version normalisation *)

Definition not_alnum_dot (c : ascii) : bool :=
  negb (Re.ascii_alnum c || Ascii.eqb c ".").

Definition not_alnum_dot_dash (c : ascii) : bool :=
  negb (Re.ascii_alnum c || Ascii.eqb c "." || Ascii.eqb c "-").

Definition not_alnum (c : ascii) : bool := negb (Re.ascii_alnum c).

(** [s.replace(a, b)] for single characters. *)
Fixpoint replace_char (a b : ascii) (s : string) : string :=
  match s with
  | EmptyString => EmptyString
  | String c s' =>
      String (if Ascii.eqb c a then b else c) (replace_char a b s')
  end.

(** [safe_name]: [re.sub('[^A-Za-z0-9.]+', '-', name)] *)
Definition safe_name (name : string) : string :=
  sub_runs not_alnum_dot "-" false name.

(** [safe_extra]: [re.sub('[^A-Za-z0-9.-]+', '_', extra).lower()] *)
Definition safe_extra (extra : string) : string :=
  PyStr.lower (sub_runs not_alnum_dot_dash "_" false extra).

(** [_safe_segment] *)
Definition _safe_segment (segment : string) : string :=
  let segment := sub_runs not_alnum_dot "-" false segment in
  let segment :=
    Re.sub (Re.Cat (Re.Chr (Ascii.eqb "-")) (Re.Plus (Re.Chr not_alnum)))
           "-" segment in
  PyStr.strip_chars ".-"
    (Re.sub (Re.Cat (Re.Chr (Ascii.eqb ".")) (Re.Plus (Re.Chr not_alnum)))
            "." segment).

(** [_PEP440_FALLBACK], compiled ignoring case: at the start an optional
    [v], then the group [safe]: an optional epoch [[0-9]+!], digits, and
    any number of [\.[0-9]+]. *)
Definition _PEP440_FALLBACK : Re.regex :=
  Re.Cat
    (Re.Opt (Re.Chr (fun c => Ascii.eqb c "v" || Ascii.eqb c "V")))
    (Re.Group "safe"
       (Re.Cat
          (Re.Opt (Re.Cat (Re.Plus (Re.Chr Re.digit))
                          (Re.Chr (Ascii.eqb "!"))))
          (Re.Cat (Re.Plus (Re.Chr Re.digit))
                  (Re.Star (Re.Cat (Re.Chr (Ascii.eqb "."))
                                   (Re.Plus (Re.Chr Re.digit))))))).

(** [_forgiving_version] *)
Definition _forgiving_version (version : string) : string :=
  let version := replace_char " " "." version in
  let '(safe, rest) :=
    match Re.match_ _PEP440_FALLBACK version with
    | Some (_, g) =>
        match Re.group "safe" g with
        | Some safe =>
            (safe,
             String.substring (String.length safe)
               (String.length version - String.length safe) version)
        | None => ("0", version)
        end
    | None => ("0", version)
    end in
  let local := PyStr.strip_chars "." ("sanitized." ++ _safe_segment rest) in
  safe ++ ".dev0+" ++ local.

(** [split_sections], over the lines that [yield_lines] gives.  The
    generator yields its segments one by one and may end with an
    exception: the result is the segments yielded and the exception, if
    any. *)
Definition section_truthy (section : option string) : bool :=
  match section with
  | Some s => PyStr.bool_of_str s
  | None => false
  end.

(** [line[1:-1]] *)
Definition strip_brackets (line : string) : string :=
  String.substring 1 (String.length line - 2) line.

Fixpoint split_sections_loop (lines : list string) (section : option string)
         (content : list string)
  : list (option string * list string) * option builtin_exn :=
  match lines with
  | [] => ([(section, content)], None)
  | line :: rest =>
      if PyStr.startswith "[" line then
        if PyStr.endswith "]" line then
          let '(segments, e) :=
            split_sections_loop rest
              (Some (PyStr.strip (strip_brackets line))) [] in
          if section_truthy section
             || match content with [] => false | _ => true end
          then ((section, content) :: segments, e)
          else (segments, e)
        else ([], Some (ValueError ["Invalid section heading"; line]))
      else split_sections_loop rest section (content ++ [line])%list
  end.

Definition split_sections (lines : list string)
  : list (option string * list string) * option builtin_exn :=
  split_sections_loop lines None [].

Section WithPackaging.

Context {P : Packaging}.

(** [safe_version] *)
Definition safe_version (version : string) : string :=
  match parse_version version with
  | Some v => version_str v
  | None => sub_runs not_alnum_dot "-" false (replace_char " " "." version)
  end.

(** *** Requirement *)

(** The tuple [hashCmp]: key, url, specifier, the extras as a set, and
    the marker's text. *)
Definition ReqHashCmp : Type :=
  (string * option string * SpecifierSet * list string * option string)%type.

Record Requirement : Type := mkRequirement {
  Requirement_unsafe_name : string;
  Requirement_project_name : string;
  Requirement_key : string;
  Requirement_url : option string;
  Requirement_specifier : SpecifierSet;
  Requirement_specs : list (string * string);
  Requirement_extras : list string;
  Requirement_marker : option Marker;
  Requirement_hashCmp : ReqHashCmp
}.

(** [Requirement.__init__], also [Requirement(text)]. *)
Definition Requirement___init__ (requirement_string : string)
  : result builtin_exn Requirement :=
  match packaging_Requirement requirement_string with
  | None => Raise (InvalidRequirement requirement_string)
  | Some p =>
      let project_name := safe_name (pr_name p) in
      let key := PyStr.lower project_name in
      let extras := map safe_extra (pr_extras p) in
      Ok {| Requirement_unsafe_name := pr_name p;
            Requirement_project_name := project_name;
            Requirement_key := key;
            Requirement_url := pr_url p;
            Requirement_specifier := pr_specifier p;
            Requirement_specs := specifier_specs (pr_specifier p);
            Requirement_extras := extras;
            Requirement_marker := pr_marker p;
            Requirement_hashCmp :=
              (key, pr_url p, pr_specifier p, extras,
               option_map marker_str (pr_marker p)) |}
  end.

Definition option_eqb {A} (eqb : A -> A -> bool) (a b : option A) : bool :=
  match a, b with
  | Some x, Some y => eqb x y
  | None, None => true
  | _, _ => false
  end.

Definition str_in (x : string) (l : list string) : bool :=
  existsb (String.eqb x) l.

(** [==] of two [frozenset]s of strings. *)
Definition frozenset_eqb (a b : list string) : bool :=
  forallb (fun x => str_in x b) a && forallb (fun x => str_in x a) b.

Definition ReqHashCmp_eqb (a b : ReqHashCmp) : bool :=
  let '(k1, u1, s1, e1, m1) := a in
  let '(k2, u2, s2, e2, m2) := b in
  String.eqb k1 k2 && option_eqb String.eqb u1 u2 && specifier_eqb s1 s2
  && frozenset_eqb e1 e2 && option_eqb String.eqb m1 m2.

(** [Requirement.__eq__] *)
Definition Requirement___eq__ (a b : Requirement) : bool :=
  ReqHashCmp_eqb (Requirement_hashCmp a) (Requirement_hashCmp b).

(** [parse_requirements] *)
Fixpoint map_result {E A B} (f : A -> result E B) (l : list A)
  : result E (list B) :=
  match l with
  | [] => Ok []
  | x :: l' => y <- f x ;; ys <- map_result f l' ;; Ok (y :: ys)
  end.

Definition parse_requirements (strs : string)
  : result builtin_exn (list Requirement) :=
  map_result Requirement___init__ (requirement_lines strs).

(** [Requirement.parse]: [(req,) = parse_requirements(s)] *)
Definition Requirement_parse (s : string) : result builtin_exn Requirement :=
  reqs <- parse_requirements s ;;
  match reqs with
  | [req] => Ok req
  | _ => Raise (ValueError ["unpack"])
  end.

(** *** Distribution *)

Definition EGG_DIST : Z := 3.
Definition BINARY_DIST : Z := 2.
Definition SOURCE_DIST : Z := 1.
Definition CHECKOUT_DIST : Z := 0.
Definition DEVELOP_DIST : Z := -1.

(** The classes of distributions: [Distribution] and its subclasses
    [EggInfoDistribution] and [DistInfoDistribution], as in
    [_distributionImpl]. *)
Inductive DistributionType : Type :=
| class_Distribution
| class_EggInfoDistribution
| class_DistInfoDistribution.

Definition class_eqb (c1 c2 : DistributionType) : bool :=
  match c1, c2 with
  | class_Distribution, class_Distribution
  | class_EggInfoDistribution, class_EggInfoDistribution
  | class_DistInfoDistribution, class_DistInfoDistribution => true
  | _, _ => false
  end.

(** [issubclass(c1, c2)]: each subclass derives from [Distribution]
    alone. *)
Definition issubclass (c1 c2 : DistributionType) : bool :=
  class_eqb c1 c2 || class_eqb c2 class_Distribution.

(** A distribution.  [Distribution___class__] is the class of the
    object.  [Distribution__version] is what the [version]
    property finds, from the constructor or from the metadata; [None]
    when neither gives one.  [Distribution__dep_map] is the [_dep_map]
    property, the requirements per extra read from the metadata. *)
Record Distribution : Type := mkDistribution {
  Distribution___class__ : DistributionType;
  Distribution_project_name : string;
  Distribution__version : option string;
  Distribution_py_version : option string;
  Distribution_platform : option string;
  Distribution_location : option string;
  Distribution_precedence : Z;
  Distribution__dep_map : list (option string * list Requirement)
}.

(** [Distribution.__init__], for the class [cls] that is instantiated;
    [metadata_version] is what [_get_version] reads from the metadata
    provider. *)
Definition Distribution___init__ (cls : DistributionType)
           (location : option string) (metadata_version : option string)
           (dep_map : list (option string * list Requirement))
           (project_name version py_version platform : option string)
           (precedence : Z) : Distribution :=
  {| Distribution___class__ := cls;
     Distribution_project_name :=
       safe_name (match project_name with
                  | Some n => if PyStr.bool_of_str n then n else "Unknown"
                  | None => "Unknown"
                  end);
     Distribution__version :=
       match version with
       | Some v => Some (safe_version v)
       | None => metadata_version
       end;
     Distribution_py_version := py_version;
     Distribution_platform := platform;
     Distribution_location := location;
     Distribution_precedence := precedence;
     Distribution__dep_map := dep_map |}.

(** The resolution errors, and the built-in ones. *)
Inductive exn : Type :=
| Builtin (e : builtin_exn)
| VersionConflict (dist : Distribution) (req : Requirement)
| ContextualVersionConflict (dist : Distribution) (req : Requirement)
                            (required_by : list string)
| DistributionNotFound (req : Requirement)
                       (requirers : option (list string))
| UnknownExtra (msg : string).

Definition Res (A : Type) : Type := result exn A.

Definition lift {A} (m : result builtin_exn A) : Res A :=
  match m with
  | Ok a => Ok a
  | Raise e => Raise (Builtin e)
  end.

(** [VersionConflict.with_context] *)
Definition with_context (dist : Distribution) (req : Requirement)
           (required_by : list string) : exn :=
  match required_by with
  | [] => VersionConflict dist req
  | _ => ContextualVersionConflict dist req required_by
  end.

(** [Distribution.key] *)
Definition Distribution_key (d : Distribution) : string :=
  PyStr.lower (Distribution_project_name d).

(** [Distribution.version] *)
Definition Distribution_version (d : Distribution) : Res string :=
  match Distribution__version d with
  | Some v => Ok v
  | None => Raise (Builtin (ValueError ["Missing 'Version:' header"]))
  end.

(** [Distribution.has_version] *)
Definition Distribution_has_version (d : Distribution) : bool :=
  match Distribution_version d with
  | Ok _ => true
  | Raise _ => false
  end.

(** [Distribution.parsed_version] *)
Definition Distribution_parsed_version (d : Distribution) : Res Version :=
  v <- Distribution_version d ;;
  match parse_version v with
  | Some pv => Ok pv
  | None => Raise (Builtin (InvalidVersion v))
  end.

(** [Distribution._forgiving_parsed_version] *)
Definition Distribution__forgiving_parsed_version (d : Distribution)
  : Res Version :=
  v <- Distribution_version d ;;
  match parse_version v with
  | Some pv => Ok pv
  | None =>
      match parse_version (_forgiving_version v) with
      | Some pv => Ok pv
      | None => Raise (Builtin (InvalidVersion (_forgiving_version v)))
      end
  end.

(** The tuple [hashcmp]. *)
Definition HashCmp : Type :=
  (Version * Z * string * option string * string * string)%type.

Definition or_empty (s : option string) : string :=
  match s with
  | Some v => v
  | None => ""
  end.

(** [Distribution.hashcmp] *)
Definition Distribution_hashcmp (d : Distribution) : Res HashCmp :=
  pv <- Distribution__forgiving_parsed_version d ;;
  Ok (pv, Distribution_precedence d, Distribution_key d,
      Distribution_location d,
      or_empty (Distribution_py_version d),
      or_empty (Distribution_platform d)).

Definition version_eqb (a b : Version) : bool :=
  match version_compare a b with Eq => true | _ => false end.

Definition version_ltb (a b : Version) : bool :=
  match version_compare a b with Lt => true | _ => false end.

Definition str_ltb (a b : string) : bool :=
  match String_as_OT.compare a b with Lt => true | _ => false end.

(** [==] of two [hashcmp] tuples; [None == 'text'] is [False]. *)
Definition HashCmp_eqb (a b : HashCmp) : bool :=
  let '(v1, p1, k1, l1, y1, f1) := a in
  let '(v2, p2, k2, l2, y2, f2) := b in
  version_eqb v1 v2 && Z.eqb p1 p2 && String.eqb k1 k2
  && option_eqb String.eqb l1 l2 && String.eqb y1 y2 && String.eqb f1 f2.

Definition type_error : exn :=
  Builtin (TypeError "'<' not supported between str and None").

(** [<] of two [hashcmp] tuples: the first pair of unequal components
    decides, and ordering [None] against a string is a [TypeError]. *)
Definition HashCmp_lt (a b : HashCmp) : Res bool :=
  let '(v1, p1, k1, l1, y1, f1) := a in
  let '(v2, p2, k2, l2, y2, f2) := b in
  if negb (version_eqb v1 v2) then Ok (version_ltb v1 v2)
  else if negb (Z.eqb p1 p2) then Ok (Z.ltb p1 p2)
  else if negb (String.eqb k1 k2) then Ok (str_ltb k1 k2)
  else if negb (option_eqb String.eqb l1 l2) then
    match l1, l2 with
    | Some x, Some y => Ok (str_ltb x y)
    | _, _ => Raise type_error
    end
  else if negb (String.eqb y1 y2) then Ok (str_ltb y1 y2)
  else if negb (String.eqb f1 f2) then Ok (str_ltb f1 f2)
  else Ok false.

(** The same order read as one comparison: the total order of the
    tuples, in which [None] is put before every location, and the pairs
    of tuples that Python can order, namely all but those that agree up
    to the key and have a location on one side only. *)
Definition HashCmp_compare : HashCmp -> HashCmp -> comparison :=
  Order.lex
    (Order.lex
       (Order.lex
          (Order.lex (Order.lex version_compare Z.compare)
                     String_as_OT.compare)
          (Order.option_compare String_as_OT.compare))
       String_as_OT.compare)
    String_as_OT.compare.

Definition HashCmp_prefix (a : HashCmp) : Version * Z * string :=
  let '(v, p, k, _, _, _) := a in (v, p, k).

Definition HashCmp_location (a : HashCmp) : option string :=
  let '(_, _, _, l, _, _) := a in l.

Definition prefix_compare : Version * Z * string ->
                            Version * Z * string -> comparison :=
  Order.lex (Order.lex version_compare Z.compare) String_as_OT.compare.

Definition same_kind (x y : option string) : bool :=
  match x, y with
  | Some _, Some _ | None, None => true
  | _, _ => false
  end.

Definition HashCmp_comparable (a b : HashCmp) : bool :=
  match prefix_compare (HashCmp_prefix a) (HashCmp_prefix b) with
  | Eq => same_kind (HashCmp_location a) (HashCmp_location b)
  | _ => true
  end.

(** [isinstance(other, cls)] for a distribution [other] *)
Definition isinstance (other : Distribution) (cls : DistributionType)
  : bool :=
  issubclass (Distribution___class__ other) cls.

(** [Distribution.__eq__]: a distribution that is no instance of the
    class of [self] is not equal to it, whatever its [hashcmp]. *)
Definition Distribution___eq__ (self other : Distribution) : Res bool :=
  if negb (isinstance other (Distribution___class__ self)) then Ok false
  else
    ha <- Distribution_hashcmp self ;;
    hb <- Distribution_hashcmp other ;;
    Ok (HashCmp_eqb ha hb).

(** The binary operators on two distributions.  When the class of the
    right operand is a proper subclass of the class of the left one,
    Python tries the reflected method of the right operand first; no
    method of [Distribution] returns [NotImplemented], so what the
    method tried first answers is the value of the expression. *)
Definition reflected_first (a b : Distribution) : bool :=
  negb (class_eqb (Distribution___class__ a) (Distribution___class__ b))
  && issubclass (Distribution___class__ b) (Distribution___class__ a).

(** [a == b] *)
Definition Distribution_eq (a b : Distribution) : Res bool :=
  if reflected_first a b then Distribution___eq__ b a
  else Distribution___eq__ a b.

(** [Distribution.__lt__] *)
Definition Distribution___lt__ (a b : Distribution) : Res bool :=
  ha <- Distribution_hashcmp a ;;
  hb <- Distribution_hashcmp b ;;
  HashCmp_lt ha hb.

(** [a <= b], [a > b] and [a >= b] for two [hashcmp] tuples: as for
    [<], the first pair of unequal components decides, by the operator
    applied to them; tuples equal throughout are ordered as the operator
    orders equal things.  [holds] says of the comparison of two
    components whether the operator holds. *)
Definition HashCmp_order (holds : comparison -> bool) (a b : HashCmp)
  : Res bool :=
  let '(v1, p1, k1, l1, y1, f1) := a in
  let '(v2, p2, k2, l2, y2, f2) := b in
  if negb (version_eqb v1 v2) then Ok (holds (version_compare v1 v2))
  else if negb (Z.eqb p1 p2) then Ok (holds (Z.compare p1 p2))
  else if negb (String.eqb k1 k2) then Ok (holds (String_as_OT.compare k1 k2))
  else if negb (option_eqb String.eqb l1 l2) then
    match l1, l2 with
    | Some x, Some y => Ok (holds (String_as_OT.compare x y))
    | _, _ => Raise type_error
    end
  else if negb (String.eqb y1 y2) then Ok (holds (String_as_OT.compare y1 y2))
  else if negb (String.eqb f1 f2) then Ok (holds (String_as_OT.compare f1 f2))
  else Ok (holds Eq).

Definition holds_le (c : comparison) : bool :=
  match c with Gt => false | _ => true end.
Definition holds_gt (c : comparison) : bool :=
  match c with Gt => true | _ => false end.
Definition holds_ge (c : comparison) : bool :=
  match c with Lt => false | _ => true end.

(** [Distribution.__le__], [__gt__], [__ge__] *)
Definition Distribution___le__ (a b : Distribution) : Res bool :=
  ha <- Distribution_hashcmp a ;;
  hb <- Distribution_hashcmp b ;;
  HashCmp_order holds_le ha hb.

Definition Distribution___gt__ (a b : Distribution) : Res bool :=
  ha <- Distribution_hashcmp a ;;
  hb <- Distribution_hashcmp b ;;
  HashCmp_order holds_gt ha hb.

Definition Distribution___ge__ (a b : Distribution) : Res bool :=
  ha <- Distribution_hashcmp a ;;
  hb <- Distribution_hashcmp b ;;
  HashCmp_order holds_ge ha hb.

(** [Distribution.__ne__]: [not self == other] *)
Definition Distribution___ne__ (self other : Distribution) : Res bool :=
  e <- Distribution_eq self other ;; Ok (negb e).

(** [a != b], [a < b], [a <= b], [a > b] and [a >= b] *)
Definition Distribution_ne (a b : Distribution) : Res bool :=
  if reflected_first a b then Distribution___ne__ b a
  else Distribution___ne__ a b.

Definition Distribution_lt (a b : Distribution) : Res bool :=
  if reflected_first a b then Distribution___gt__ b a
  else Distribution___lt__ a b.

Definition Distribution_le (a b : Distribution) : Res bool :=
  if reflected_first a b then Distribution___ge__ b a
  else Distribution___le__ a b.

Definition Distribution_gt (a b : Distribution) : Res bool :=
  if reflected_first a b then Distribution___lt__ b a
  else Distribution___gt__ a b.

Definition Distribution_ge (a b : Distribution) : Res bool :=
  if reflected_first a b then Distribution___le__ b a
  else Distribution___ge__ a b.

Definition opt_str_eqb : option string -> option string -> bool :=
  option_eqb String.eqb.

(** [Distribution.requires] *)
Fixpoint requires_extras (dm : list (option string * list Requirement))
         (extras : list string) : Res (list Requirement) :=
  match extras with
  | [] => Ok []
  | ext :: rest =>
      match PyDict.get opt_str_eqb (Some (safe_extra ext)) dm with
      | Some reqs =>
          more <- requires_extras dm rest ;; Ok (reqs ++ more)%list
      | None => Raise (UnknownExtra ext)
      end
  end.

Definition Distribution_requires (d : Distribution) (extras : list string)
  : Res (list Requirement) :=
  let dm := Distribution__dep_map d in
  let deps := match PyDict.get opt_str_eqb None dm with
              | Some reqs => reqs
              | None => []
              end in
  more <- requires_extras dm extras ;;
  Ok (deps ++ more)%list.

(** [Requirement.__contains__] for a distribution. *)
Definition Requirement___contains__ (self : Requirement)
           (item : Distribution) : Res bool :=
  if negb (String.eqb (Distribution_key item) (Requirement_key self))
  then Ok false
  else
    version <- Distribution_version item ;;
    lift (specifier_contains (Requirement_specifier self) version true).

(** [Requirement.__contains__] for a version text. *)
Definition Requirement_contains_version (self : Requirement)
           (version : string) : Res bool :=
  lift (specifier_contains (Requirement_specifier self) version true).

(** *** _ReqExtras *)

Definition _ReqExtras : Type := list (Requirement * list string).

(** [self.get(req, ())] *)
Definition _ReqExtras_get (self : _ReqExtras) (req : Requirement)
  : list string :=
  match PyDict.get Requirement___eq__ req self with
  | Some es => es
  | None => []
  end.

(** [extras or ("",)] *)
Definition extras_or_default (extras : option (list string)) : list string :=
  match extras with
  | Some (e :: es) => e :: es
  | _ => [""]
  end.

(** [_ReqExtras.markers_pass] *)
Definition markers_pass (self : _ReqExtras) (req : Requirement)
           (extras : option (list string)) : bool :=
  match Requirement_marker req with
  | None => true
  | Some marker =>
      existsb (marker_evaluate marker)
              (_ReqExtras_get self req ++ extras_or_default extras)%list
  end.

(** *** Platform compatibility *)

(** [macosVersionString]: [macosx-(\d+)\.(\d+)-( .* )]; the groups are
    named by their numbers. *)
Definition macosVersionString : Re.regex :=
  Re.Cat (Re.Lit "macosx-")
    (Re.Cat (Re.Group "1" (Re.Plus (Re.Chr Re.digit)))
       (Re.Cat (Re.Chr (Ascii.eqb "."))
          (Re.Cat (Re.Group "2" (Re.Plus (Re.Chr Re.digit)))
             (Re.Cat (Re.Chr (Ascii.eqb "-"))
                (Re.Group "3" (Re.Star (Re.Chr Re.dot))))))).

(** [darwinVersionString]: [darwin-(\d+)\.(\d+)\.(\d+)-( .* )] *)
Definition darwinVersionString : Re.regex :=
  Re.Cat (Re.Lit "darwin-")
    (Re.Cat (Re.Group "1" (Re.Plus (Re.Chr Re.digit)))
       (Re.Cat (Re.Chr (Ascii.eqb "."))
          (Re.Cat (Re.Group "2" (Re.Plus (Re.Chr Re.digit)))
             (Re.Cat (Re.Chr (Ascii.eqb "."))
                (Re.Cat (Re.Group "3" (Re.Plus (Re.Chr Re.digit)))
                   (Re.Cat (Re.Chr (Ascii.eqb "-"))
                      (Re.Group "4" (Re.Star (Re.Chr Re.dot))))))))).

(** [int(text)] for a run of decimal digits. *)
Fixpoint int_acc (s : string) (acc : Z) : Z :=
  match s with
  | EmptyString => acc
  | String c s' => int_acc s' (10 * acc + Z.of_nat (PyStr.code c - 48))
  end.

Definition int (s : string) : Z := int_acc s 0.

Definition str_geb (a b : string) : bool := negb (str_ltb a b).

Definition group_text (name : string) (g : Re.groups) : string :=
  or_empty (Re.group name g).

(** [compatible_platforms] *)
Definition compatible_platforms (provided required : option string) : bool :=
  match provided, required with
  | None, _ => true
  | _, None => true
  | Some provided, Some required =>
      if String.eqb provided required then true
      else
        match Re.match_ macosVersionString required with
        | Some (_, reqMac) =>
            match Re.match_ macosVersionString provided with
            | None =>
                match Re.match_ darwinVersionString provided with
                | Some (_, provDarwin) =>
                    let dversion := int (group_text "1" provDarwin) in
                    let macosversion :=
                      group_text "1" reqMac ++ "." ++ group_text "2" reqMac in
                    (Z.eqb dversion 7 && str_geb macosversion "10.3")
                    || (Z.eqb dversion 8 && str_geb macosversion "10.4")
                | None => false
                end
            | Some (_, provMac) =>
                if negb (String.eqb (group_text "1" provMac)
                                    (group_text "1" reqMac))
                   || negb (String.eqb (group_text "3" provMac)
                                       (group_text "3" reqMac))
                then false
                else if Z.gtb (int (group_text "2" provMac))
                              (int (group_text "2" reqMac))
                then false
                else true
            end
        | None => false
        end
  end.

(** *** Sorting by key, as [list.sort(key=..., reverse=True)] does

    The keys are computed first.  The result is the stable descending
    order; only [<] of keys is used, and an exception of [<] ends the
    sort.  The model compares as an insertion from the back does. *)

Section Sort.
Variables K A : Type.
Variable lt : K -> K -> Res bool.

Fixpoint insert_desc (x : K * A) (l : list (K * A))
  : Res (list (K * A)) :=
  match l with
  | [] => Ok [x]
  | y :: l' =>
      b <- lt (fst x) (fst y) ;;
      if b then (r <- insert_desc x l' ;; Ok (y :: r))
      else Ok (x :: y :: l')
  end.

Fixpoint sort_keyed_desc (l : list (K * A)) : Res (list (K * A)) :=
  match l with
  | [] => Ok []
  | x :: l' => s <- sort_keyed_desc l' ;; insert_desc x s
  end.

(** A keyed element not below another. *)
Definition key_not_below (x y : K * A) : Prop :=
  lt (fst x) (fst y) = Ok false.

Definition sort_desc_by (key : A -> Res K) (l : list A) : Res (list A) :=
  keyed <- map_result (fun a => k <- key a ;; Ok (k, a)) l ;;
  sorted <- sort_keyed_desc keyed ;;
  Ok (map snd sorted).
End Sort.

(** *** Environment *)

Record Environment : Type := mkEnvironment {
  Environment__distmap : list (string * list Distribution);
  Environment_platform : option string;
  Environment_python : option string
}.

(** [Environment.can_add] *)
Definition Environment_can_add (self : Environment) (dist : Distribution)
  : bool :=
  let py_compat :=
    match Environment_python self, Distribution_py_version dist with
    | None, _ => true
    | _, None => true
    | Some python, Some py_version => String.eqb py_version python
    end in
  py_compat
  && compatible_platforms (Distribution_platform dist)
                          (Environment_platform self).

(** [Environment.__getitem__] *)
Definition Environment___getitem__ (self : Environment)
           (project_name : string) : list Distribution :=
  let distribution_key := PyStr.lower project_name in
  match PyDict.get String.eqb distribution_key (Environment__distmap self)
  with
  | Some dists => dists
  | None => []
  end.

(** [dist in dists] for a list of distributions: the first item with
    [item == dist] ends the search. *)
Fixpoint list_contains (dist : Distribution) (dists : list Distribution)
  : Res bool :=
  match dists with
  | [] => Ok false
  | x :: rest =>
      b <- Distribution_eq x dist ;;
      if b then Ok true else list_contains dist rest
  end.

Definition with_distmap (self : Environment)
           (dm : list (string * list Distribution)) : Environment :=
  {| Environment__distmap := dm;
     Environment_platform := Environment_platform self;
     Environment_python := Environment_python self |}.

(** [Environment.add] *)
Definition Environment_add (self : Environment) (dist : Distribution)
  : Res Environment :=
  if Environment_can_add self dist && Distribution_has_version dist then
    let '(dists, dm) :=
      PyDict.setdefault String.eqb (Distribution_key dist) []
                        (Environment__distmap self) in
    present <- list_contains dist dists ;;
    if negb present then
      sorted <- sort_desc_by HashCmp_lt Distribution_hashcmp
                             (dists ++ [dist])%list ;;
      Ok (with_distmap self
            (PyDict.set String.eqb (Distribution_key dist) sorted dm))
    else Ok (with_distmap self dm)
  else Ok self.

(** [dists.remove(dist)]: the first item with [item == dist] is
    removed. *)
Fixpoint remove_first (dist : Distribution) (dists : list Distribution)
  : Res (list Distribution) :=
  match dists with
  | [] => Raise (Builtin (ValueError ["list.remove(x): x not in list"]))
  | x :: rest =>
      b <- Distribution_eq x dist ;;
      if b then Ok rest
      else (r <- remove_first dist rest ;; Ok (x :: r))
  end.

(** [Environment.remove] *)
Definition Environment_remove (self : Environment) (dist : Distribution)
  : Res Environment :=
  match PyDict.get String.eqb (Distribution_key dist)
                   (Environment__distmap self) with
  | None => Raise (Builtin (KeyError (Distribution_key dist)))
  | Some dists =>
      dists' <- remove_first dist dists ;;
      Ok (with_distmap self
            (PyDict.set String.eqb (Distribution_key dist) dists'
                        (Environment__distmap self)))
  end.

(** [Environment.__iter__] *)
Definition Environment___iter__ (self : Environment) : list string :=
  filter (fun key =>
            match Environment___getitem__ self key with
            | [] => false
            | _ => true
            end)
         (PyDict.keys (Environment__distmap self)).

Fixpoint add_all (self : Environment) (dists : list Distribution)
  : Res Environment :=
  match dists with
  | [] => Ok self
  | d :: rest => self' <- Environment_add self d ;; add_all self' rest
  end.


(** The invariant of an environment: under every key, the list holds
    only distributions of that key that [can_add] accepts and that have
    a version; no two of them are equal by [==]; and none is below a
    later one in the order of [hashcmp].  Two distributions of different
    classes with the same [hashcmp] are not equal, and both can be in a
    list. *)
Definition never_equal (a b : Distribution) : Prop :=
  Distribution_eq a b = Ok false.

Definition not_below (a b : Distribution) : Prop :=
  Distribution___lt__ a b = Ok false.

Definition Environment_invariant (self : Environment) : Prop :=
  forall key dists,
    PyDict.get String.eqb key (Environment__distmap self) = Some dists ->
    Forall (fun d => Environment_can_add self d = true
                     /\ Distribution_has_version d = true
                     /\ Distribution_key d = key) dists
    /\ StronglySorted never_equal dists
    /\ StronglySorted not_below dists.







(** *** What the interpreter and the file system supply *)

(** [find_distributions(path_item, only)] *)
Variable find_distributions : string -> bool -> list Distribution.
(** [sys.path] *)
Variable sys_path : list string.
(** [get_supported_platform()] *)
Variable supported_platform : option string.
(** [PY_MAJOR] *)
Variable PY_MAJOR : string.
(** [dist.insert_on(path, loc, replace)]: where the location is spliced
    into a path list. *)
Variable insert_on :
  Distribution -> list string -> option string -> bool -> list string.

(** [Environment.scan] *)
Definition Environment_scan (self : Environment)
           (search_path : option (list string)) : Res Environment :=
  let search_path := match search_path with
                     | Some sp => sp
                     | None => sys_path
                     end in
  add_all self
    (flat_map (fun item => find_distributions item false) search_path).

(** [Environment.__init__] *)
Definition Environment___init__ (search_path : option (list string))
           (platform python : option string) : Res Environment :=
  Environment_scan
    {| Environment__distmap := [];
       Environment_platform := platform;
       Environment_python := python |}
    search_path.


(** [Environment.obtain] *)
Definition Environment_obtain (self : Environment) (requirement : Requirement)
           (installer : option (Requirement -> option Distribution))
  : option Distribution :=
  match installer with
  | Some f => f requirement
  | None => None
  end.

(** *** WorkingSet

    The callbacks of [subscribe] are left out: they are run for their
    effects elsewhere and return nothing to the working set. *)

Record WorkingSet : Type := mkWorkingSet {
  WorkingSet_entries : list string;
  WorkingSet_entry_keys : list (option string * list string);
  WorkingSet_by_key : list (string * Distribution);
  WorkingSet_normalized_to_canonical_keys : list (string * string)
}.

Definition append_if_absent (k : string) (l : list string) : list string :=
  if str_in k l then l else (l ++ [k])%list.

(** [WorkingSet.add] *)
Definition WorkingSet_add (self : WorkingSet) (dist : Distribution)
           (entry : option string) (insert replace : bool) : WorkingSet :=
  let entries :=
    if insert then insert_on dist (WorkingSet_entries self) entry replace
    else WorkingSet_entries self in
  let entry := match entry with
               | Some e => Some e
               | None => Distribution_location dist
               end in
  let ek :=
    snd (PyDict.setdefault opt_str_eqb entry [] (WorkingSet_entry_keys self)) in
  let ek :=
    snd (PyDict.setdefault opt_str_eqb (Distribution_location dist) [] ek) in
  let key := Distribution_key dist in
  if negb replace
     && match PyDict.get String.eqb key (WorkingSet_by_key self) with
        | Some _ => true
        | None => false
        end
  then {| WorkingSet_entries := entries;
          WorkingSet_entry_keys := ek;
          WorkingSet_by_key := WorkingSet_by_key self;
          WorkingSet_normalized_to_canonical_keys :=
            WorkingSet_normalized_to_canonical_keys self |}
  else
    let keys := match PyDict.get opt_str_eqb entry ek with
                | Some l => l
                | None => []
                end in
    let ek := PyDict.set opt_str_eqb entry (append_if_absent key keys) ek in
    let keys2 :=
      match PyDict.get opt_str_eqb (Distribution_location dist) ek with
      | Some l => l
      | None => []
      end in
    let ek := PyDict.set opt_str_eqb (Distribution_location dist)
                         (append_if_absent key keys2) ek in
    {| WorkingSet_entries := entries;
       WorkingSet_entry_keys := ek;
       WorkingSet_by_key :=
         PyDict.set String.eqb key dist (WorkingSet_by_key self);
       WorkingSet_normalized_to_canonical_keys :=
         PyDict.set String.eqb (canonicalize_name key) key
           (WorkingSet_normalized_to_canonical_keys self) |}.

(** [WorkingSet.add_entry] *)
Definition WorkingSet_add_entry (self : WorkingSet) (entry : string)
  : WorkingSet :=
  let ek :=
    snd (PyDict.setdefault opt_str_eqb (Some entry) []
                           (WorkingSet_entry_keys self)) in
  let self :=
    {| WorkingSet_entries := (WorkingSet_entries self ++ [entry])%list;
       WorkingSet_entry_keys := ek;
       WorkingSet_by_key := WorkingSet_by_key self;
       WorkingSet_normalized_to_canonical_keys :=
         WorkingSet_normalized_to_canonical_keys self |} in
  fold_left (fun ws dist => WorkingSet_add ws dist (Some entry) false false)
            (find_distributions entry true) self.

(** [WorkingSet.__init__] *)
Definition WorkingSet___init__ (entries : option (list string)) : WorkingSet :=
  let entries := match entries with
                 | Some es => es
                 | None => sys_path
                 end in
  fold_left WorkingSet_add_entry entries
    {| WorkingSet_entries := [];
       WorkingSet_entry_keys := [];
       WorkingSet_by_key := [];
       WorkingSet_normalized_to_canonical_keys := [] |}.

(** [WorkingSet.__contains__]: [self.by_key.get(dist.key) == dist] *)
Definition WorkingSet___contains__ (self : WorkingSet) (dist : Distribution)
  : Res bool :=
  match PyDict.get String.eqb (Distribution_key dist) (WorkingSet_by_key self)
  with
  | Some active => Distribution_eq active dist
  | None => Ok false
  end.

(** The inner loop of [WorkingSet.__iter__] over the keys of one entry:
    the distributions yielded and the keys seen so far. *)
Fixpoint iter_keys (by_key : list (string * Distribution))
         (keys seen : list string) : Res (list Distribution * list string) :=
  match keys with
  | [] => Ok ([], seen)
  | key :: rest =>
      if str_in key seen then iter_keys by_key rest seen
      else
        match PyDict.get String.eqb key by_key with
        | None => Raise (Builtin (KeyError key))
        | Some dist =>
            '(dists, seen) <- iter_keys by_key rest (key :: seen) ;;
            Ok (dist :: dists, seen)
        end
  end.

Fixpoint iter_entries (self : WorkingSet) (entries seen : list string)
  : Res (list Distribution) :=
  match entries with
  | [] => Ok []
  | item :: rest =>
      match PyDict.get opt_str_eqb (Some item) (WorkingSet_entry_keys self)
      with
      | None => iter_entries self rest seen
      | Some keys =>
          '(dists, seen) <- iter_keys (WorkingSet_by_key self) keys seen ;;
          more <- iter_entries self rest seen ;;
          Ok (dists ++ more)%list
      end
  end.

(** [WorkingSet.__iter__], run to its end: the distributions it yields. *)
Definition WorkingSet___iter__ (self : WorkingSet) : Res (list Distribution) :=
  iter_entries self (WorkingSet_entries self) [].

(** What [add] maintains of [entry_keys] and [by_key]: every key listed
    for an entry has an active distribution, and the active distribution
    of a key has that key. *)
Definition WorkingSet_consistent (self : WorkingSet) : Prop :=
  (forall entry keys key,
      PyDict.get opt_str_eqb entry (WorkingSet_entry_keys self) = Some keys ->
      In key keys ->
      exists dist,
        PyDict.get String.eqb key (WorkingSet_by_key self) = Some dist)
  /\ (forall key dist,
         PyDict.get String.eqb key (WorkingSet_by_key self) = Some dist ->
         Distribution_key dist = key).

(** What [add] maintains of [normalized_to_canonical_keys]: a
    normalised name leads to a key of which it is the normal form, and
    keys are in lower case. *)
Definition WorkingSet_wf (self : WorkingSet) : Prop :=
  forall name key,
    PyDict.get String.eqb name
               (WorkingSet_normalized_to_canonical_keys self) = Some key ->
    canonicalize_name key = name /\ PyStr.lower key = key.

Definition set_key (req : Requirement) (key : string) : Requirement :=
  {| Requirement_unsafe_name := Requirement_unsafe_name req;
     Requirement_project_name := Requirement_project_name req;
     Requirement_key := key;
     Requirement_url := Requirement_url req;
     Requirement_specifier := Requirement_specifier req;
     Requirement_specs := Requirement_specs req;
     Requirement_extras := Requirement_extras req;
     Requirement_marker := Requirement_marker req;
     Requirement_hashCmp := Requirement_hashCmp req |}.

(** The loop of [WorkingSet.find] over the candidate keys: the
    distribution found last, and the key it was found under. *)
Fixpoint find_candidate (by_key : list (string * Distribution))
         (candidates : list string) : option (string * Distribution) :=
  match candidates with
  | [] => None
  | candidate :: rest =>
      match PyDict.get String.eqb candidate by_key with
      | Some dist => Some (candidate, dist)
      | None => find_candidate by_key rest
      end
  end.

Definition find_candidates (self : WorkingSet) (req : Requirement)
  : list string :=
  filter PyStr.bool_of_str
    ([Requirement_key req]
     ++ match PyDict.get String.eqb (Requirement_key req)
                         (WorkingSet_normalized_to_canonical_keys self) with
        | Some k => [k]
        | None => []
        end
     ++ [replace_char "." "-" (safe_name (Requirement_key req))])%list.

(** [WorkingSet.find]; the requirement comes back because [find] may
    assign its [key], also when it raises. *)
Definition WorkingSet_find (self : WorkingSet) (req : Requirement)
  : Requirement * Res (option Distribution) :=
  match find_candidate (WorkingSet_by_key self) (find_candidates self req)
  with
  | Some (candidate, dist) =>
      let req := set_key req candidate in
      (req,
       inside <- Requirement___contains__ req dist ;;
       if negb inside then Raise (VersionConflict dist req)
       else Ok (Some dist))
  | None => (req, Ok None)
  end.

Fixpoint first_match (req : Requirement) (dists : list Distribution)
  : Res (option Distribution) :=
  match dists with
  | [] => Ok None
  | dist :: rest =>
      inside <- Requirement___contains__ req dist ;;
      if inside then Ok (Some dist) else first_match req rest
  end.

(** [Environment.best_match] *)
Definition Environment_best_match (self : Environment) (req : Requirement)
           (working_set : WorkingSet)
           (installer : option (Requirement -> option Distribution))
           (replace_conflicting : bool)
  : Requirement * Res (option Distribution) :=
  let '(req, found) := WorkingSet_find working_set req in
  (req,
   dist <- match found with
           | Raise (VersionConflict d r) =>
               if negb replace_conflicting
               then Raise (VersionConflict d r) else Ok None
           | other => other
           end ;;
   match dist with
   | Some d => Ok (Some d)
   | None =>
       candidate <- first_match req
                      (Environment___getitem__ self (Requirement_key req)) ;;
       match candidate with
       | Some d => Ok (Some d)
       | None => Ok (Environment_obtain self req installer)
       end
   end).

(** The state of one [resolve] call. *)
Record ResolveState : Type := mkResolveState {
  rs_requirements : list Requirement;
  rs_processed : list Requirement;
  rs_best : list (string * Distribution);
  rs_to_activate : list Distribution;
  rs_req_extras : _ReqExtras;
  rs_required_by : list (Requirement * list string)
}.

Definition req_in (req : Requirement) (l : list Requirement) : bool :=
  existsb (fun r => Requirement___eq__ r req) l.

(** [required_by[req]] of the [defaultdict]. *)
Definition required_by_get (required_by : list (Requirement * list string))
           (req : Requirement) : list string :=
  match PyDict.get Requirement___eq__ req required_by with
  | Some names => names
  | None => []
  end.

(** [WorkingSet._resolve_dist]: the distribution, and [best],
    [to_activate] and the requirement as the call leaves them. *)
Definition WorkingSet__resolve_dist (self : WorkingSet) (req : Requirement)
           (best : list (string * Distribution))
           (replace_conflicting : bool) (env : option Environment)
           (installer : option (Requirement -> option Distribution))
           (required_by : list (Requirement * list string))
           (to_activate : list Distribution)
  : Res (Distribution * list (string * Distribution)
         * list Distribution * Requirement) :=
  let search (active : option Distribution) :=
    '(env, ws) <-
      match env, active with
      | Some env, _ => Ok (env, self)
      | None, None =>
          env <- Environment___init__
                   (Some (WorkingSet_entries self))
                   supported_platform (Some PY_MAJOR) ;;
          Ok (env, self)
      | None, Some _ =>
          env <- Environment___init__
                   (Some []) supported_platform (Some PY_MAJOR) ;;
          Ok (env, WorkingSet___init__ (Some []))
      end ;;
    let '(req, found) :=
      Environment_best_match env req ws installer replace_conflicting in
    found <- found ;;
    match found with
    | None =>
        Raise (DistributionNotFound req
                 (PyDict.get Requirement___eq__ req required_by))
    | Some dist =>
        Ok (dist, PyDict.set String.eqb (Requirement_key req) dist best,
            (to_activate ++ [dist])%list, req)
    end in
  '(dist, best, to_activate, req) <-
    match PyDict.get String.eqb (Requirement_key req) best with
    | Some dist => Ok (dist, best, to_activate, req)
    | None =>
        match PyDict.get String.eqb (Requirement_key req)
                         (WorkingSet_by_key self) with
        | None => search None
        | Some dist =>
            inside <- Requirement___contains__ req dist ;;
            if negb inside && replace_conflicting
            then search (Some dist)
            else Ok (dist, best, (to_activate ++ [dist])%list, req)
        end
    end ;;
  inside <- Requirement___contains__ req dist ;;
  if negb inside
  then Raise (with_context dist req (required_by_get required_by req))
  else Ok (dist, best, to_activate, req).

(** The registration loop at the end of one round of [resolve]. *)
Fixpoint register (new_requirements : list Requirement) (req : Requirement)
         (required_by : list (Requirement * list string))
         (req_extras : _ReqExtras)
  : list (Requirement * list string) * _ReqExtras :=
  match new_requirements with
  | [] => (required_by, req_extras)
  | new_requirement :: rest =>
      let names := required_by_get required_by new_requirement in
      let required_by :=
        PyDict.set Requirement___eq__ new_requirement
          (append_if_absent (Requirement_project_name req) names)
          required_by in
      let req_extras :=
        PyDict.set Requirement___eq__ new_requirement
                   (Requirement_extras req) req_extras in
      register rest req required_by req_extras
  end.

(** The [while requirements:] loop of [WorkingSet.resolve]; [None] when
    the rounds allowed run out. *)
Fixpoint resolve_loop (fuel : nat) (self : WorkingSet)
         (env : option Environment)
         (installer : option (Requirement -> option Distribution))
         (replace_conflicting : bool) (extras : option (list string))
         (st : ResolveState) : option (Res (list Distribution)) :=
  match rs_requirements st with
  | [] => Some (Ok (rs_to_activate st))
  | req :: requirements =>
      match fuel with
      | O => None
      | S fuel' =>
          let continue st' :=
            resolve_loop fuel' self env installer replace_conflicting
                         extras st' in
          let skip :=
            {| rs_requirements := requirements;
               rs_processed := rs_processed st;
               rs_best := rs_best st;
               rs_to_activate := rs_to_activate st;
               rs_req_extras := rs_req_extras st;
               rs_required_by := rs_required_by st |} in
          if req_in req (rs_processed st) then continue skip
          else if negb (markers_pass (rs_req_extras st) req extras)
          then continue skip
          else
            match
              '(dist, best, to_activate, req) <-
                WorkingSet__resolve_dist self req (rs_best st)
                  replace_conflicting env installer (rs_required_by st)
                  (rs_to_activate st) ;;
              deps <- Distribution_requires dist (Requirement_extras req) ;;
              let new_requirements := List.rev deps in
              let '(required_by, req_extras) :=
                register new_requirements req (rs_required_by st)
                         (rs_req_extras st) in
              Ok {| rs_requirements :=
                      (requirements ++ new_requirements)%list;
                    rs_processed :=
                      if req_in req (rs_processed st)
                      then rs_processed st
                      else (rs_processed st ++ [req])%list;
                    rs_best := best;
                    rs_to_activate := to_activate;
                    rs_req_extras := req_extras;
                    rs_required_by := required_by |}
            with
            | Raise e => Some (Raise e)
            | Ok st' => continue st'
            end
      end
  end.

(** [WorkingSet.resolve] *)
Definition WorkingSet_resolve (fuel : nat) (self : WorkingSet)
           (requirements : list Requirement) (env : option Environment)
           (installer : option (Requirement -> option Distribution))
           (replace_conflicting : bool) (extras : option (list string))
  : option (Res (list Distribution)) :=
  resolve_loop fuel self env installer replace_conflicting extras
    {| rs_requirements := List.rev requirements;
       rs_processed := [];
       rs_best := [];
       rs_to_activate := [];
       rs_req_extras := [];
       rs_required_by := [] |}.

(** What [resolve] has done for a requirement: it is taken up when it
    still waits in [pending] or a requirement equal to it has been
    processed; a processed requirement is met when one of the
    distributions to activate satisfies it and the dependencies of that
    distribution for the extras of the requirement, those without a marker,
    are taken up in turn. *)
Definition taken_up (processed pending : list Requirement)
           (req : Requirement) : Prop :=
  In req pending
  \/ exists r, In r processed /\ Requirement___eq__ r req = true.

Definition requirement_met (processed pending : list Requirement)
           (to_activate : list Distribution) (req : Requirement) : Prop :=
  exists dist deps,
    In dist to_activate
    /\ Requirement___contains__ req dist = Ok true
    /\ Distribution_requires dist (Requirement_extras req) = Ok deps
    /\ forall dep, In dep deps -> Requirement_marker dep = None ->
                   taken_up processed pending dep.

(** The invariant of the loop of [resolve], for the requirements
    [roots] it was called with. *)
Definition resolve_invariant (roots : list Requirement) (st : ResolveState)
  : Prop :=
  (forall key dist,
      PyDict.get String.eqb key (rs_best st) = Some dist ->
      In dist (rs_to_activate st))
  /\ (forall req, In req (rs_processed st) ->
                  requirement_met (rs_processed st) (rs_requirements st)
                                  (rs_to_activate st) req)
  /\ (forall req, In req roots -> Requirement_marker req = None ->
                  taken_up (rs_processed st) (rs_requirements st) req).

(** *** EntryPoint *)

(** [MODULE]: [\w+(\.\w+)*$] *)
Definition MODULE : Re.regex :=
  Re.Cat (Re.Plus (Re.Chr Re.word))
    (Re.Cat (Re.Star (Re.Cat (Re.Chr (Ascii.eqb "."))
                             (Re.Plus (Re.Chr Re.word))))
            Re.Dollar).

Record EntryPoint : Type := mkEntryPoint {
  EntryPoint_name : string;
  EntryPoint_module_name : string;
  EntryPoint_attrs : list string;
  EntryPoint_extras : list string;
  EntryPoint_dist : option Distribution
}.

(** [EntryPoint.__init__] *)
Definition EntryPoint___init__ (name module_name : string)
           (attrs extras : list string) (dist : option Distribution)
  : Res EntryPoint :=
  match Re.match_ MODULE module_name with
  | None => Raise (Builtin (ValueError ["Invalid module name"; module_name]))
  | Some _ =>
      Ok {| EntryPoint_name := name;
            EntryPoint_module_name := module_name;
            EntryPoint_attrs := attrs;
            EntryPoint_extras := extras;
            EntryPoint_dist := dist |}
  end.

Definition word_or_dot (c : ascii) : bool := Re.word c || Ascii.eqb c ".".

(** [EntryPoint.pattern]:
    [\s*(?P<name>.+?)\s*=\s*(?P<module>[\w.]+)\s*]
    [(:\s*(?P<attr>[\w.]+))?\s*(?P<extras>\[.*\])?\s*$] *)
Definition EntryPoint_pattern : Re.regex :=
  Re.Cat (Re.Star (Re.Chr Re.space))
    (Re.Cat (Re.Group "name" (Re.LazyPlus (Re.Chr Re.dot)))
       (Re.Cat (Re.Star (Re.Chr Re.space))
          (Re.Cat (Re.Chr (Ascii.eqb "="))
             (Re.Cat (Re.Star (Re.Chr Re.space))
                (Re.Cat (Re.Group "module" (Re.Plus (Re.Chr word_or_dot)))
                   (Re.Cat (Re.Star (Re.Chr Re.space))
                      (Re.Cat
                         (Re.Opt
                            (Re.Cat (Re.Chr (Ascii.eqb ":"))
                               (Re.Cat (Re.Star (Re.Chr Re.space))
                                  (Re.Group "attr"
                                     (Re.Plus (Re.Chr word_or_dot))))))
                         (Re.Cat (Re.Star (Re.Chr Re.space))
                            (Re.Cat
                               (Re.Opt
                                  (Re.Group "extras"
                                     (Re.Cat (Re.Chr (Ascii.eqb "["))
                                        (Re.Cat (Re.Star (Re.Chr Re.dot))
                                           (Re.Chr (Ascii.eqb "]"))))))
                               (Re.Cat (Re.Star (Re.Chr Re.space))
                                       Re.Dollar)))))))))).

(** [EntryPoint._parse_extras] *)
Definition EntryPoint__parse_extras (extras_spec : option string)
  : Res (list string) :=
  match extras_spec with
  | None => Ok []
  | Some spec =>
      if negb (PyStr.bool_of_str spec) then Ok []
      else
        req <- lift (Requirement_parse ("x" ++ spec)) ;;
        match Requirement_specs req with
        | [] => Ok (Requirement_extras req)
        | _ => Raise (Builtin (ValueError []))
        end
  end.

(** [EntryPoint.parse] *)
Definition EntryPoint_parse (src : string) (dist : option Distribution)
  : Res EntryPoint :=
  match Re.match_ EntryPoint_pattern src with
  | None =>
      Raise (Builtin
               (ValueError
                  ["EntryPoint must be in 'name=module:attrs [extras]' format";
                   src]))
  | Some (_, res) =>
      extras <- EntryPoint__parse_extras (Re.group "extras" res) ;;
      let attrs :=
        match Re.group "attr" res with
        | Some attr =>
            if PyStr.bool_of_str attr then PyStr.split "." attr else []
        | None => []
        end in
      EntryPoint___init__ (group_text "name" res) (group_text "module" res)
                          attrs extras dist
  end.

(** The loop of [EntryPoint.parse_group] over the lines that
    [yield_lines] gives. *)
Fixpoint parse_group_loop (group : string) (lines : list string)
         (dist : option Distribution) (this : list (string * EntryPoint))
  : Res (list (string * EntryPoint)) :=
  match lines with
  | [] => Ok this
  | line :: rest =>
      ep <- EntryPoint_parse line dist ;;
      match PyDict.get String.eqb (EntryPoint_name ep) this with
      | Some _ =>
          Raise (Builtin (ValueError ["Duplicate entry point"; group;
                                      EntryPoint_name ep]))
      | None =>
          parse_group_loop group rest dist
            (PyDict.set String.eqb (EntryPoint_name ep) ep this)
      end
  end.

(** [EntryPoint.parse_group] *)
Definition EntryPoint_parse_group (group : string) (lines : list string)
           (dist : option Distribution) : Res (list (string * EntryPoint)) :=
  match Re.match_ MODULE group with
  | None => Raise (Builtin (ValueError ["Invalid group name"; group]))
  | Some _ => parse_group_loop group lines dist []
  end.

(** The values an attribute of an entry point may be given. *)
Inductive pyvalue : Type :=
| PyNone
| PyText (s : string)
| PyTuple (items : list string)
| PyDist (d : Distribution).

(** [setattr(entry_point, name, value)].  The class defines neither
    [__setattr__] nor [__slots__], so the assignment is the default one
    of Python objects and stores the value; the record holds the five
    attributes the constructor sets, and an assignment that does not
    fit one of them is kept in [vars] beside the record. *)
Definition EntryPoint_setattr (self : EntryPoint * list (string * pyvalue))
           (name : string) (value : pyvalue)
  : Res (EntryPoint * list (string * pyvalue)) :=
  let '(ep, vars) := self in
  let upd n m a e d :=
    {| EntryPoint_name := n; EntryPoint_module_name := m;
       EntryPoint_attrs := a; EntryPoint_extras := e;
       EntryPoint_dist := d |} in
  let n := EntryPoint_name ep in
  let m := EntryPoint_module_name ep in
  let a := EntryPoint_attrs ep in
  let e := EntryPoint_extras ep in
  let d := EntryPoint_dist ep in
  match name, value with
  | "name", PyText v => Ok (upd v m a e d, vars)
  | "module_name", PyText v => Ok (upd n v a e d, vars)
  | "attrs", PyTuple v => Ok (upd n m v e d, vars)
  | "extras", PyTuple v => Ok (upd n m a v d, vars)
  | "dist", PyDist v => Ok (upd n m a e (Some v), vars)
  | "dist", PyNone => Ok (upd n m a e None, vars)
  | _, _ => Ok (ep, PyDict.set String.eqb name value vars)
  end.

(** *** NullProvider._validate_resource_path *)

(** [ntpath.isabs], which differs between Python releases. *)
Variable ntpath_isabs : string -> bool.

(** [posixpath.isabs] *)
Definition posixpath_isabs (s : string) : bool := PyStr.startswith "/" s.

Inductive Warning : Type :=
| DeprecationWarning (msg : string)
| UserWarning (msg : string).

Definition backslash : string := String (ascii_of_nat 92) EmptyString.

(** [s[:-1]] *)
Definition drop_last (s : string) : string :=
  String.substring 0 (String.length s - 1) s.

Definition resource_path_msg : string :=
  "Use of .. or absolute path in a resource path is not allowed.".

(** Whether the path is judged invalid. *)
Definition resource_path_invalid (path : string) : bool :=
  str_in ".." (PyStr.split "/" path)
  || posixpath_isabs path
  || ntpath_isabs path
  || PyStr.startswith backslash path.

(** [NullProvider._validate_resource_path]: the warning issued, if
    any. *)
Definition _validate_resource_path (path : string)
  : result builtin_exn (option Warning) :=
  if negb (resource_path_invalid path) then Ok None
  else
    if (PyStr.startswith backslash path || ntpath_isabs path)
       && negb (posixpath_isabs path)
    then Raise (ValueError [resource_path_msg])
    else
      Ok (Some (DeprecationWarning
                  (drop_last resource_path_msg
                   ++ " and will raise exceptions in a future release."))).

End WithPackaging.

(** *** Zip-backed resources

    The file system is a table of files with their contents, modification
    time and mode, and a list of directories.  Times are whole seconds.
    The calls into [os] fail where the table says they must: a missing
    file, an existing name, and on Windows a rename onto an existing
    file. *)

Definition append_if_absent_str (k : string) (l : list string) : list string :=
  if existsb (String.eqb k) l then l else (l ++ [k])%list.

Record File : Type := mkFile {
  File_contents : string;
  File_mtime : Z;
  File_mode : Z
}.

Record FileSystem : Type := mkFileSystem {
  fs_files : list (string * File);
  fs_dirs : list string;
  fs_clock : Z
}.

Record ResourceManager : Type := mkResourceManager {
  ResourceManager_extraction_path : option string;
  ResourceManager_cached_files : list string
}.

Record ZipInfo : Type := mkZipInfo {
  ZipInfo_file_size : Z;
  ZipInfo_date_time : list Z
}.

(** A zip provider: the archive of its loader, the egg it found, the
    manifest of the archive, as loaded from an archive that is there and
    does not change, and the data of its members. *)
Record ZipProvider : Type := mkZipProvider {
  ZipProvider_archive : string;
  ZipProvider_egg_name : option string;
  ZipProvider_egg_root : string;
  ZipProvider_zipinfo : list (string * ZipInfo);
  ZipProvider_get_data : string -> result builtin_exn string
}.

Inductive zip_exn : Type :=
| ZBuiltin (e : builtin_exn)
| ExtractionError (cache_path : string) (original_error : builtin_exn).

Definition is_OSError (e : builtin_exn) : bool :=
  match e with
  | OSError _ | FileExistsError _ | FileNotFoundError _ => true
  | _ => false
  end.

Section Zip.

(** [os.name], [os.sep] and the functions of [os.path] *)
Variable os_name : string.
Variable os_sep : ascii.
Variable os_path_join : string -> list string -> string.
Variable os_path_split : string -> string * string.
(** [time.mktime] *)
Variable time_mktime : list Z -> Z.
Variable WRITE_SUPPORT : bool.
(** [get_default_cache()] *)
Variable default_cache : string.
(** The name [tempfile.mkstemp(suffix, dir=dir)] picks. *)
Variable mkstemp_name : FileSystem -> string -> string -> string.
(** [ResourceManager._warn_unsafe_extraction_path] *)
Variable _warn_unsafe_extraction_path :
  FileSystem -> string -> result builtin_exn unit.

Definition os_path_dirname (p : string) : string := fst (os_path_split p).

Definition sep : string := String os_sep EmptyString.

Definition files_get (p : string) (fs : FileSystem) : option File :=
  PyDict.get String.eqb p (fs_files fs).

Definition with_files (fs : FileSystem) (files : list (string * File))
  : FileSystem :=
  {| fs_files := files; fs_dirs := fs_dirs fs; fs_clock := fs_clock fs |}.

(** [os.path.isfile], [os.path.isdir] *)
Definition isfile (fs : FileSystem) (p : string) : bool :=
  match files_get p fs with Some _ => true | None => false end.

Definition isdir (fs : FileSystem) (p : string) : bool :=
  existsb (String.eqb p) (fs_dirs fs).

(** [os.mkdir] *)
Definition mkdir (fs : FileSystem) (p : string)
  : result builtin_exn FileSystem :=
  if isdir fs p || isfile fs p then Raise (FileExistsError p)
  else Ok {| fs_files := fs_files fs;
             fs_dirs := (fs_dirs fs ++ [p])%list;
             fs_clock := fs_clock fs |}.

Fixpoint remove_key (p : string) (files : list (string * File))
  : list (string * File) :=
  match files with
  | [] => []
  | (q, f) :: rest =>
      if String.eqb q p then rest else (q, f) :: remove_key p rest
  end.

(** [os.rename] *)
Definition rename (fs : FileSystem) (src dst : string)
  : result builtin_exn FileSystem :=
  match files_get src fs with
  | None => Raise (FileNotFoundError src)
  | Some f =>
      if String.eqb os_name "nt" && isfile fs dst
      then Raise (FileExistsError dst)
      else Ok (with_files fs
                 (PyDict.set String.eqb dst f
                             (remove_key src (fs_files fs))))
  end.

(** [os.unlink] *)
Definition unlink (fs : FileSystem) (p : string)
  : result builtin_exn FileSystem :=
  match files_get p fs with
  | None => Raise (FileNotFoundError p)
  | Some _ => Ok (with_files fs (remove_key p (fs_files fs)))
  end.

Definition update_file (fs : FileSystem) (p : string) (g : File -> File)
  : result builtin_exn FileSystem :=
  match files_get p fs with
  | None => Raise (FileNotFoundError p)
  | Some f => Ok (with_files fs (PyDict.set String.eqb p (g f) (fs_files fs)))
  end.

(** [_mkstemp(suffix, dir=dir)], then [os.write] and [os.close] *)
Definition mkstemp_write (fs : FileSystem) (suffix dir data : string)
  : string * FileSystem :=
  let tmpnam := mkstemp_name fs suffix dir in
  (tmpnam,
   with_files fs
     (PyDict.set String.eqb tmpnam
        {| File_contents := data; File_mtime := fs_clock fs;
           File_mode := 384 |}
        (fs_files fs))).

(** [utime(path, (t, t))] *)
Definition utime (fs : FileSystem) (p : string) (t : Z)
  : result builtin_exn FileSystem :=
  update_file fs p
    (fun f => {| File_contents := File_contents f; File_mtime := t;
                 File_mode := File_mode f |}).

(** [ResourceManager.postprocess] *)
Definition postprocess (fs : FileSystem) (tempname filename : string)
  : result builtin_exn FileSystem :=
  if String.eqb os_name "posix" then
    update_file fs tempname
      (fun f => {| File_contents := File_contents f;
                   File_mtime := File_mtime f;
                   File_mode := Z.land (Z.lor (File_mode f) 365) 4095 |})
  else Ok fs.

(** [_bypass_ensure_directory]; the recursion follows the parents of
    the path, at most [fuel] of them. *)
Fixpoint _bypass_ensure_directory (fuel : nat) (fs : FileSystem)
         (path : string) : result builtin_exn FileSystem :=
  if negb WRITE_SUPPORT
  then Raise (OSError "os.mkdir not supported on this platform.")
  else
    let '(dirname, filename) := os_path_split path in
    if PyStr.bool_of_str dirname && PyStr.bool_of_str filename
       && negb (isdir fs dirname)
    then
      match fuel with
      | O => Raise (OSError "path too deep")
      | S fuel' =>
          fs <- _bypass_ensure_directory fuel' fs dirname ;;
          match mkdir fs dirname with
          | Ok fs' => Ok fs'
          | Raise (FileExistsError _) => Ok fs
          | Raise e => Raise e
          end
      end
    else Ok fs.

Definition World : Type := (FileSystem * ResourceManager)%type.

(** [ResourceManager.extraction_error] *)
Definition extraction_error (mgr : ResourceManager) (old_exc : builtin_exn)
  : zip_exn :=
  let cache_path :=
    match ResourceManager_extraction_path mgr with
    | Some p => if PyStr.bool_of_str p then p else default_cache
    | None => default_cache
    end in
  ExtractionError cache_path old_exc.

(** The path [ResourceManager.get_cache_path] computes. *)
Definition target_path (mgr : ResourceManager) (archive_name : string)
           (names : list string) : string :=
  let extract_path :=
    match ResourceManager_extraction_path mgr with
    | Some p => if PyStr.bool_of_str p then p else default_cache
    | None => default_cache
    end in
  os_path_join extract_path ((archive_name ++ "-tmp") :: names).

(** [ResourceManager.get_cache_path] *)
Definition get_cache_path (w : World) (archive_name : string)
           (names : list string) : result zip_exn string * World :=
  let '(fs, mgr) := w in
  let extract_path :=
    match ResourceManager_extraction_path mgr with
    | Some p => if PyStr.bool_of_str p then p else default_cache
    | None => default_cache
    end in
  let target := target_path mgr archive_name names in
  match _bypass_ensure_directory (String.length target) fs target with
  | Raise e => (Raise (extraction_error mgr e), w)
  | Ok fs =>
      match _warn_unsafe_extraction_path fs extract_path with
      | Raise e => (Raise (ZBuiltin e), (fs, mgr))
      | Ok _ =>
          (Ok target,
           (fs,
            {| ResourceManager_extraction_path :=
                 ResourceManager_extraction_path mgr;
               ResourceManager_cached_files :=
                 append_if_absent_str target
                   (ResourceManager_cached_files mgr) |}))
      end
  end.

(** [ZipProvider.zip_pre] *)
Definition zip_pre (self : ZipProvider) : string :=
  ZipProvider_archive self ++ sep.

(** One round of the loop of [ZipProvider._index] for a member, over
    its path parts in reverse. *)
Fixpoint index_add (parts_rev : list string)
         (ind : list (string * list string)) : list (string * list string) :=
  match parts_rev with
  | [] => ind
  | last :: init_rev =>
      let parent := PyStr.join sep (List.rev init_rev) in
      match PyDict.get String.eqb parent ind with
      | Some children =>
          PyDict.set String.eqb parent (children ++ [last])%list ind
      | None => index_add init_rev (PyDict.set String.eqb parent [last] ind)
      end
  end.

(** [ZipProvider._index] *)
Definition _index (self : ZipProvider) : list (string * list string) :=
  fold_left
    (fun ind path => index_add (List.rev (PyStr.split os_sep path)) ind)
    (PyDict.keys (ZipProvider_zipinfo self)) [].

(** [ZipProvider._parts] *)
Definition _parts (self : ZipProvider) (zip_path : string)
  : result builtin_exn (list string) :=
  let fspath := zip_pre self ++ zip_path in
  let root := ZipProvider_egg_root self in
  if PyStr.startswith (root ++ sep) fspath
  then Ok (PyStr.split os_sep
             (String.substring (String.length root + 1)
                (String.length fspath - (String.length root + 1)) fspath))
  else Raise (AssertionError (fspath ++ " is not a subpath"))%string.

(** [ZipProvider._get_date_and_size] *)
Definition _get_date_and_size (zip_stat : ZipInfo) : Z * Z :=
  let size := ZipInfo_file_size zip_stat in
  let date_time := (ZipInfo_date_time zip_stat ++ [0; 0; -1])%list%Z in
  let timestamp := time_mktime date_time in
  (timestamp, size).

(** [self.zipinfo[zip_path]].  [ZipProvider_zipinfo] is the manifest that
    the property [zipinfo] returns for an archive that is there and does
    not change: loading the manifest ([os.stat] and [zipfile.ZipFile] in
    [MemoizedZipManifests.load]) is taken to succeed, so the only error
    here is the [KeyError] of the lookup.  What the program does when the
    archive cannot be read is outside this model. *)
Definition zipinfo_get (self : ZipProvider) (zip_path : string)
  : result builtin_exn ZipInfo :=
  match PyDict.get String.eqb zip_path (ZipProvider_zipinfo self) with
  | Some zi => Ok zi
  | None => Raise (KeyError zip_path)
  end.

(** [ZipProvider._is_current] *)
Definition _is_current (self : ZipProvider) (fs : FileSystem)
           (file_path zip_path : string) : result builtin_exn bool :=
  zi <- zipinfo_get self zip_path ;;
  let '(timestamp, size) := _get_date_and_size zi in
  match files_get file_path fs with
  | None => Ok false
  | Some f =>
      if negb (Z.eqb (Z.of_nat (String.length (File_contents f))) size)
         || negb (Z.eqb (File_mtime f) timestamp)
      then Ok false
      else
        zip_contents <- ZipProvider_get_data self zip_path ;;
        Ok (String.eqb zip_contents (File_contents f))
  end.

(** What the [try] block of [_extract_resource] does once it has the
    cache path: write a temporary file and rename it into place.  Its
    [OSError]s are turned into an extraction error by the caller. *)
Definition extract_file (self : ZipProvider) (fs : FileSystem)
           (real_path zip_path : string) (timestamp : Z)
  : result builtin_exn string * FileSystem :=
  match ZipProvider_get_data self zip_path with
  | Raise e => (Raise e, fs)
  | Ok data =>
      let '(tmpnam, fs) :=
        mkstemp_write fs ".$extract" (os_path_dirname real_path) data in
      match utime fs tmpnam timestamp with
      | Raise e => (Raise e, fs)
      | Ok fs =>
          match postprocess fs tmpnam real_path with
          | Raise e => (Raise e, fs)
          | Ok fs =>
              match rename fs tmpnam real_path with
              | Ok fs => (Ok real_path, fs)
              | Raise e =>
                  if is_OSError e && isfile fs real_path then
                    match _is_current self fs real_path zip_path with
                    | Raise e' => (Raise e', fs)
                    | Ok true => (Ok real_path, fs)
                    | Ok false =>
                        if String.eqb os_name "nt" then
                          match unlink fs real_path with
                          | Raise e' => (Raise e', fs)
                          | Ok fs =>
                              match rename fs tmpnam real_path with
                              | Raise e' => (Raise e', fs)
                              | Ok fs => (Ok real_path, fs)
                              end
                          end
                        else (Raise e, fs)
                    end
                  else (Raise e, fs)
              end
          end
      end
  end.

Definition on_OSError (mgr : ResourceManager) (e : builtin_exn) : zip_exn :=
  if is_OSError e then extraction_error mgr e else ZBuiltin e.

(** The loop of [_extract_resource] over the members of a directory:
    [last] is the path the latest extraction returned. *)
Fixpoint extract_each
         (extract : World -> string -> option (result zip_exn string * World))
         (zip_path : string) (names : list string) (last : option string)
         (w : World) : option (result zip_exn string * World) :=
  match names with
  | [] =>
      match last with
      | Some l => Some (Ok (os_path_dirname l), w)
      | None => Some (Raise (ZBuiltin (UnboundLocalError "last")), w)
      end
  | name :: rest =>
      match extract w (os_path_join zip_path [name]) with
      | None => None
      | Some (Raise e, w) => Some (Raise e, w)
      | Some (Ok l, w) => extract_each extract zip_path rest (Some l) w
      end
  end.

(** The part of [_extract_resource] for a member that is a file. *)
Definition extract_member (self : ZipProvider) (w : World)
           (zip_path : string) : result zip_exn string * World :=
  match zipinfo_get self zip_path with
  | Raise e => (Raise (ZBuiltin e), w)
  | Ok zi =>
      let '(timestamp, _) := _get_date_and_size zi in
      if negb WRITE_SUPPORT
      then (Raise (ZBuiltin (OSError "no write support")), w)
      else
        match ZipProvider_egg_name self with
        | None =>
            (Raise (extraction_error (snd w)
                      (OSError "egg_name is empty")), w)
        | Some egg_name =>
            if negb (PyStr.bool_of_str egg_name)
            then (Raise (extraction_error (snd w)
                           (OSError "egg_name is empty")), w)
            else
              match _parts self zip_path with
              | Raise e => (Raise (on_OSError (snd w) e), w)
              | Ok parts =>
                  match get_cache_path w egg_name parts with
                  | (Raise e, w) =>
                      (Raise match e with
                             | ZBuiltin b => on_OSError (snd w) b
                             | other => other
                             end, w)
                  | (Ok real_path, (fs, mgr)) =>
                      match _is_current self fs real_path zip_path with
                      | Raise e => (Raise (on_OSError mgr e), (fs, mgr))
                      | Ok true => (Ok real_path, (fs, mgr))
                      | Ok false =>
                          match extract_file self fs real_path zip_path
                                             timestamp with
                          | (Ok p, fs) => (Ok p, (fs, mgr))
                          | (Raise e, fs) =>
                              (Raise (on_OSError mgr e), (fs, mgr))
                          end
                      end
                  end
              end
        end
  end.

(** [ZipProvider._extract_resource]; [None] when the nesting of
    directories exceeds [fuel]. *)
Fixpoint _extract_resource (fuel : nat) (self : ZipProvider) (w : World)
         (zip_path : string) : option (result zip_exn string * World) :=
  match fuel with
  | O => None
  | S fuel' =>
      match PyDict.get String.eqb zip_path (_index self) with
      | Some names =>
          extract_each (_extract_resource fuel' self) zip_path names None w
      | None => Some (extract_member self w zip_path)
      end
  end.

(** Whether the size and the time of a file are those the archive
    records for a member. *)
Definition size_and_time_match (self : ZipProvider) (fs : FileSystem)
           (file_path zip_path : string) : bool :=
  match zipinfo_get self zip_path, files_get file_path fs with
  | Ok zi, Some f =>
      let '(timestamp, size) := _get_date_and_size zi in
      Z.eqb (Z.of_nat (String.length (File_contents f))) size
      && Z.eqb (File_mtime f) timestamp
  | _, _ => false
  end.

End Zip.

End pkg_resources.

(** ** importlib_metadata: prepared names and file hashes *)

Module Prepared.



End Prepared.

Module FileHash.

Record FileHash : Type := mkFileHash { mode : string; value : string }.

(** [FileHash.__init__]: [self.mode, _, self.value = spec.partition('=')] *)
Definition __init__ (spec : string) : FileHash :=
  let '(mode, _, value) := PyStr.partition "=" spec in
  {| mode := mode; value := value |}.

(** [FileHash.__repr__] *)
Definition __repr__ (self : FileHash) : string :=
  "<FileHash mode: " ++ mode self ++ " value: " ++ value self ++ ">".

End FileHash.

(** ** A small instance of what the modules are given

    Versions are dotted runs of digits compared as release numbers, a
    specifier set is a list of comparison clauses, and a marker asks for one
    extra by name.  Paths are handled as [posixpath] does. *)

Module Small.

(** [int] of a run of digits, [None] for anything else. *)
Fixpoint nat_of_digits (s : string) (acc : nat) : option nat :=
  match s with
  | EmptyString => Some acc
  | String c s' =>
      if Re.digit c then nat_of_digits s' (10 * acc + (PyStr.code c - 48))
      else None
  end.

Definition segment (s : string) : option nat :=
  match s with
  | EmptyString => None
  | _ => nat_of_digits s 0
  end.

Fixpoint all_some {A} (l : list (option A)) : option (list A) :=
  match l with
  | [] => Some []
  | Some x :: l' =>
      match all_some l' with Some r => Some (x :: r) | None => None end
  | None :: _ => None
  end.

Definition parse_version (s : string) : option (list nat) :=
  all_some (map segment (PyStr.split "." s)).

(** Release numbers compare segment by segment once trailing zeros are
    dropped, so that [1.0] and [1] are the same version. *)
Fixpoint strip_zeros (l : list nat) : list nat :=
  match l with
  | [] => []
  | x :: l' =>
      match strip_zeros l' with
      | [] => if Nat.eqb x 0 then [] else [x]
      | r => x :: r
      end
  end.

Fixpoint list_compare (a b : list nat) : comparison :=
  match a, b with
  | [], [] => Eq
  | [], _ :: _ => Lt
  | _ :: _, [] => Gt
  | x :: a', y :: b' =>
      match Nat.compare x y with Eq => list_compare a' b' | c => c end
  end.

Definition release_compare (a b : list nat) : comparison :=
  list_compare (strip_zeros a) (strip_zeros b).

Definition digit_string (n : nat) : string :=
  String (ascii_of_nat (48 + n)) EmptyString.

Fixpoint nat_str_fuel (fuel n : nat) : string :=
  match fuel with
  | O => ""
  | S fuel' =>
      if (n <? 10)%nat then digit_string n
      else nat_str_fuel fuel' (n / 10) ++ digit_string (n mod 10)
  end.

Definition nat_str (n : nat) : string := nat_str_fuel (S n) n.

Definition version_str (v : list nat) : string :=
  PyStr.join "." (map nat_str v).

Definition Clause : Type := (string * string)%type.

Definition clause_holds (v : list nat) (c : Clause) : option bool :=
  match parse_version (snd c) with
  | None => None
  | Some w =>
      let o := release_compare v w in
      let cmp_is c' := match o, c' with
                   | Eq, Eq | Lt, Lt | Gt, Gt => true
                   | _, _ => false
                   end in
      if String.eqb (fst c) ">=" then Some (negb (cmp_is Lt))
      else if String.eqb (fst c) "<=" then Some (negb (cmp_is Gt))
      else if String.eqb (fst c) "==" then Some (cmp_is Eq)
      else if String.eqb (fst c) "!=" then Some (negb (cmp_is Eq))
      else if String.eqb (fst c) ">" then Some (cmp_is Gt)
      else if String.eqb (fst c) "<" then Some (cmp_is Lt)
      else None
  end.

Definition specifier_contains (s : list Clause) (version : string)
           (prereleases : bool) : result builtin_exn bool :=
  match parse_version version with
  | None => Raise (InvalidVersion version)
  | Some v =>
      match all_some (map (clause_holds v) s) with
      | Some bs => Ok (forallb (fun b => b) bs)
      | None => Raise (InvalidVersion version)
      end
  end.

Definition clause_eqb (a b : Clause) : bool :=
  String.eqb (fst a) (fst b) && String.eqb (snd a) (snd b).

Fixpoint specifier_eqb (a b : list Clause) : bool :=
  match a, b with
  | [], [] => true
  | x :: a', y :: b' => clause_eqb x y && specifier_eqb a' b'
  | _, _ => false
  end.

Definition marker_str (m : string) : string :=
  "extra == " ++ PyStr.dquote ++ m ++ PyStr.dquote.

(** A requirement text: a name, optional bracketed extras, and comparison
    clauses separated by commas. *)
Definition name_char (c : ascii) : bool :=
  Re.ascii_alnum c || Ascii.eqb c "." || Ascii.eqb c "_" || Ascii.eqb c "-".

Definition requirement_pattern : Re.regex :=
  Re.Cat (Re.Star (Re.Chr Re.space))
    (Re.Cat (Re.Group "name" (Re.Plus (Re.Chr name_char)))
       (Re.Cat (Re.Star (Re.Chr Re.space))
          (Re.Cat
             (Re.Opt
                (Re.Cat (Re.Chr (Ascii.eqb "["))
                   (Re.Cat
                      (Re.Group "extras"
                         (Re.Star (Re.Chr (fun c => negb (Ascii.eqb c "]")))))
                      (Re.Chr (Ascii.eqb "]")))))
             (Re.Cat (Re.Group "spec" (Re.Star (Re.Chr Re.dot))) Re.Dollar)))).

Definition op_char (c : ascii) : bool :=
  Ascii.eqb c "<" || Ascii.eqb c ">" || Ascii.eqb c "=" || Ascii.eqb c "!".

Definition clause_pattern : Re.regex :=
  Re.Cat (Re.Group "op" (Re.Plus (Re.Chr op_char)))
    (Re.Cat (Re.Star (Re.Chr Re.space))
       (Re.Cat (Re.Group "version"
                  (Re.Plus (Re.Chr (fun c => Re.digit c || Ascii.eqb c "."))))
               Re.Dollar)).

Definition parse_clause (s : string) : option Clause :=
  match Re.match_ clause_pattern s with
  | Some (_, g) =>
      match Re.group "op" g, Re.group "version" g with
      | Some op, Some v => Some (op, v)
      | _, _ => None
      end
  | None => None
  end.

Definition nonblank (s : string) : bool := PyStr.bool_of_str s.

Definition packaging_Requirement (text : string)
  : option (PackagingRequirement (list Clause) string) :=
  match Re.match_ requirement_pattern text with
  | None => None
  | Some (_, g) =>
      match Re.group "name" g with
      | None => None
      | Some name =>
          let extras :=
            match Re.group "extras" g with
            | Some e => filter nonblank (map PyStr.strip (PyStr.split "," e))
            | None => []
            end in
          let clauses :=
            match Re.group "spec" g with
            | Some sp => filter nonblank (map PyStr.strip (PyStr.split "," sp))
            | None => []
            end in
          match all_some (map parse_clause clauses) with
          | Some spec =>
              Some {| pr_name := name; pr_url := None; pr_extras := extras;
                      pr_specifier := spec; pr_marker := None |}
          | None => None
          end
      end
  end.

Definition requirement_lines (text : string) : list string :=
  filter (fun l => nonblank l && negb (PyStr.startswith "#" l))
         (map PyStr.strip (PyStr.splitlines text)).

#[export] Instance packaging : Packaging :=
  @Build_Packaging
    (list nat) parse_version version_str release_compare
    (list Clause) specifier_contains specifier_eqb (fun s => s)
    string (fun m extra => String.eqb extra m) marker_str
    packaging_Requirement requirement_lines.

(** [posixpath.join(a, *p)] *)
Definition posix_join (a : string) (p : list string) : string :=
  fold_left
    (fun path b =>
       if PyStr.startswith "/" b then b
       else if negb (PyStr.bool_of_str path) || PyStr.endswith "/" path
            then path ++ b
            else path ++ "/" ++ b)
    p a.

(** [posixpath.split] *)
Definition posix_split (p : string) : string * string :=
  let is_slash c := Ascii.eqb c "/" in
  let tail := PyStr.rev (fst (fst (PyStr.partition "/" (PyStr.rev p)))) in
  let head := String.substring 0 (String.length p - String.length tail) p in
  let stripped := PyStr.rstrip_by is_slash head in
  (if PyStr.bool_of_str stripped then stripped else head, tail).

(** [ntpath.isabs] as of Python 3.13. *)
Definition ntpath_isabs (s : string) : bool :=
  let s3 := pkg_resources.replace_char "/" (ascii_of_nat 92)
              (String.substring 0 3 s) in
  PyStr.startswith (":" ++ pkg_resources.backslash)
                   (String.substring 1 2 s3)
  || PyStr.startswith (pkg_resources.backslash ++ pkg_resources.backslash) s3.

End Small.

(** ** Concrete data used in the examples below *)

Module Inputs.

Import pkg_resources.

Definition nl : string := String (ascii_of_nat 10) EmptyString.
Definition dq : string := PyStr.dquote.

(** A legacy [requires.txt] with one section, whose header has a blank
    after the colon, and the same with no blank. *)
Definition requires_text : string :=
  "[test: sys_platform==" ++ dq ++ "win32" ++ dq ++ "]" ++ nl ++ "foo".

Definition requires_text_tight : string :=
  "[test:sys_platform==" ++ dq ++ "win32" ++ dq ++ "]" ++ nl ++ "foo".

Definition simple_req_tight : string :=
  "foo; (sys_platform==" ++ dq ++ "win32" ++ dq ++ ") and extra == "
  ++ dq ++ "test" ++ dq.

Definition simple_req_blank : string :=
  "foo; ( sys_platform==" ++ dq ++ "win32" ++ dq ++ ") and extra == "
  ++ dq ++ "test" ++ dq.

Definition entry_point_text : string := "foo = pkg.mod:attr [x,y]".

Definition parsed_entry_point (dist : option (@Distribution Small.packaging))
  : @EntryPoint Small.packaging :=
  @mkEntryPoint Small.packaging "foo" "pkg.mod" ["attr"] ["x"; "y"] dist.

(** The warning [_validate_resource_path] issues. *)
Definition deprecation_warning : Warning :=
  DeprecationWarning
    "Use of .. or absolute path in a resource path is not allowed and will raise exceptions in a future release.".

(** A resource path with a leading backslash. *)
Definition backslash_path : string := backslash ++ "foo/bar.txt".

(** What the interpreter supplies in the examples: nothing is installed. *)
Definition no_distributions (path_item : string) (only : bool)
  : list (@Distribution Small.packaging) := [].
Definition keep_path (d : @Distribution Small.packaging) (path : list string)
           (loc : option string) (replace : bool) : list string := path.

Definition resolve :=
  @WorkingSet_resolve Small.packaging no_distributions [] None "3.12"
                      keep_path.

Definition empty_working_set : @WorkingSet Small.packaging :=
  @mkWorkingSet Small.packaging [] [] [] [].

Definition empty_environment : @Environment Small.packaging :=
  @mkEnvironment Small.packaging [] None None.

(** The requirement [pkg>=1.0] and the distribution [pkg 0.9]. *)
Definition mk_req (key : string) (spec : list Small.Clause)
           (extras : list string) (marker : option string)
  : @Requirement Small.packaging :=
  @mkRequirement Small.packaging key key key None spec spec extras marker
    (key, None, spec, extras, option_map Small.marker_str marker).

Definition mk_dist (name version : string) (location : option string)
  : @Distribution Small.packaging :=
  @mkDistribution Small.packaging class_Distribution name (Some version)
                  None None location EGG_DIST [].

Definition pkg_ge_1_0 : @Requirement Small.packaging :=
  mk_req "pkg" [(">=", "1.0")] [] None.

(** A requirement whose marker holds for the empty extra only. *)
Definition pkg_only_without_extra : @Requirement Small.packaging :=
  mk_req "pkg" [] [] (Some "").

Definition pkg_0_9 : @Distribution Small.packaging :=
  mk_dist "pkg" "0.9" (Some "/site/pkg-0.9.egg").

Definition pkg_0_5 : @Distribution Small.packaging :=
  mk_dist "pkg" "0.5" (Some "/site/pkg-0.5.egg").

Definition pkg_1_2 : @Distribution Small.packaging :=
  mk_dist "pkg" "1.2" (Some "/site/pkg-1.2.egg").

(** Environments holding [pkg 0.9], then also [pkg 1.2]. *)
Definition env_with_0_9 : @Environment Small.packaging :=
  @mkEnvironment Small.packaging [("pkg", [pkg_0_9])] None None.

Definition env_with_both : @Environment Small.packaging :=
  @mkEnvironment Small.packaging [("pkg", [pkg_1_2; pkg_0_9])] None None.




(** A zipped egg with one member, and a cache that already holds a file
    of the recorded size and time under the member's cache path, with
    other contents. *)
Definition mktime (t : list Z) : Z :=
  fold_left (fun acc x => acc * 100 + x)%Z (firstn 6 t) 0%Z.

Definition member_info : ZipInfo := mkZipInfo 5 [2020; 1; 2; 3; 4; 6]%Z.

Definition member_time : Z :=
  mktime ([2020; 1; 2; 3; 4; 6]%Z ++ [0; 0; -1]%Z)%list.

Definition egg : ZipProvider :=
  {| ZipProvider_archive := "/eggs/foo.egg";
     ZipProvider_egg_name := Some "foo.egg";
     ZipProvider_egg_root := "/eggs/foo.egg";
     ZipProvider_zipinfo := [("data/x.txt", member_info)];
     ZipProvider_get_data :=
       fun zip_path =>
         if String.eqb zip_path "data/x.txt" then Ok "hello"
         else Raise (OSError zip_path) |}.

Definition cached_path : string := "/cache/foo.egg-tmp/data/x.txt".

Definition stale_fs : FileSystem :=
  {| fs_files := [(cached_path, mkFile "HELLO" member_time 493)];
     fs_dirs := ["/cache"; "/cache/foo.egg-tmp"; "/cache/foo.egg-tmp/data"];
     fs_clock := 77 |}.

Definition current_fs : FileSystem :=
  {| fs_files := [(cached_path, mkFile "hello" member_time 493)];
     fs_dirs := ["/cache"; "/cache/foo.egg-tmp"; "/cache/foo.egg-tmp/data"];
     fs_clock := 77 |}.

Definition manager : ResourceManager := mkResourceManager None [].

Definition temp_name (fs : FileSystem) (suffix dir : string) : string :=
  dir ++ "/tmp0" ++ suffix.

Definition extract :=
  _extract_resource "posix" "/" Small.posix_join Small.posix_split mktime
                    true "/cache" temp_name (fun _ _ => Ok tt).

Definition is_current :=
  _is_current mktime.

(** The world after the stale cache has been refreshed. *)
Definition refreshed : World :=
  (current_fs, mkResourceManager None [cached_path]).

(** A working set in which [pkg 0.5] is active. *)
Definition working_set_with_0_5 : @WorkingSet Small.packaging :=
  @WorkingSet_add Small.packaging keep_path empty_working_set pkg_0_5
                  None true false.

(** Two distributions found in one directory, one from [foo-1.0.egg-info]
    and one from [foo-1.0.dist-info]: they have the same [hashcmp] and
    different classes.  Then the environments that hold the first and
    both. *)
Definition foo_egg_info : @Distribution Small.packaging :=
  @mkDistribution Small.packaging class_EggInfoDistribution "foo"
                  (Some "1.0") None None (Some "/site") DEVELOP_DIST [].

Definition foo_dist_info : @Distribution Small.packaging :=
  @mkDistribution Small.packaging class_DistInfoDistribution "foo"
                  (Some "1.0") None None (Some "/site") DEVELOP_DIST [].

Definition env_with_egg_info : @Environment Small.packaging :=
  @mkEnvironment Small.packaging [("foo", [foo_egg_info])] None None.

Definition env_with_both_infos : @Environment Small.packaging :=
  @mkEnvironment Small.packaging
                 [("foo", [foo_egg_info; foo_dist_info])] None None.

(** A distribution whose key has an underscore, and a requirement that
    names the project by its canonical name. *)
Definition foo_bar_1_0 : @Distribution Small.packaging :=
  mk_dist "foo_bar" "1.0" (Some "/site/foo_bar-1.0.egg").

Definition foo_dash_bar : @Requirement Small.packaging :=
  mk_req "foo-bar" [] [] None.

(** A temporary name outside the cache of the egg. *)
Definition temp_outside (fs : FileSystem) (suffix dir : string) : string :=
  "/cache/tmp0".

End Inputs.

(* ================================================================== *)
(** * Part II: properties *)
(* ================================================================== *)

(** ** Facts about strings *)

Lemma append_assoc (a b c : string) : (a ++ b) ++ c = a ++ (b ++ c).
Proof. induction a; simpl; congruence. Qed.

Lemma bool_of_str_cons_append (c : ascii) (s t : string) :
  PyStr.bool_of_str (String c s ++ t) = true.
Proof. reflexivity. Qed.

Lemma lower_char_idempotent (c : ascii) :
  PyStr.lower_char (PyStr.lower_char c) = PyStr.lower_char c.
Proof.
  destruct c as [[|] [|] [|] [|] [|] [|] [|] [|]]; reflexivity.
Qed.

Lemma lower_idempotent (s : string) :
  PyStr.lower (PyStr.lower s) = PyStr.lower s.
Proof.
  induction s as [|c s IH]; cbn [PyStr.lower]; [reflexivity|].
  rewrite lower_char_idempotent, IH. reflexivity.
Qed.

(** A name whose canonical form has no dash has no run of separators, so
    a lower-case key with such a canonical form is that form. *)
Lemma sub_runs_without_dash (k : string) :
  PyStr.contains_char "-"
    (PyStr.lower (packaging_utils.sub_runs packaging_utils.is_sep "-" false k))
  = false ->
  packaging_utils.sub_runs packaging_utils.is_sep "-" false k = k.
Proof.
  induction k as [|c k IH]; cbn [packaging_utils.sub_runs]; [reflexivity|].
  destruct (packaging_utils.is_sep c) eqn:Hsep.
  - cbn. discriminate.
  - cbn [PyStr.lower PyStr.contains_char]. intros H.
    apply orb_false_iff in H as [_ H]. rewrite (IH H). reflexivity.
Qed.

Lemma canonical_key_without_dash (key name : string) :
  packaging_utils.canonicalize_name key = name ->
  PyStr.lower key = key ->
  PyStr.contains_char "-" name = false ->
  key = name.
Proof.
  unfold packaging_utils.canonicalize_name. intros Hc Hl Hd.
  rewrite <- Hc in Hd. rewrite (sub_runs_without_dash _ Hd) in Hc.
  congruence.
Qed.

(** ** importlib_metadata: legacy requirement sections *)

Section EggInfoRequirements.

Import importlib_metadata Inputs.

(** A section header [extra:markers] puts the text after the colon,
    unchanged, between the parentheses. *)
Lemma partition_colon (extra markers : string) :
  PyStr.contains_char ":" extra = false ->
  PyStr.partition ":" (extra ++ String ":" markers) = (extra, ":", markers).
Proof.
  induction extra as [|c extra IH];
    cbn [PyStr.partition PyStr.contains_char String.append]; intros H.
  - rewrite Ascii.eqb_refl. reflexivity.
  - apply orb_false_iff in H as [Hc Hrest].
    rewrite Ascii.eqb_sym in Hc. rewrite Hc, (IH Hrest). reflexivity.
Qed.

Lemma quoted_marker_keeps_marker_text (extra markers : string) :
  PyStr.contains_char ":" extra = false ->
  extra <> "" -> markers <> "" ->
  quoted_marker (Some (extra ++ String ":" markers))
  = "; (" ++ markers ++ ") and extra == " ++ dq ++ extra ++ dq.
Proof.
  intros Hcolon Hextra Hmarkers. unfold quoted_marker.
  assert (Hne : PyStr.bool_of_str (extra ++ String ":" markers) = true)
    by (destruct extra; reflexivity).
  rewrite Hne, (partition_colon _ _ Hcolon).
  destruct extra as [|c extra]; [congruence|].
  destruct markers as [|m markers]; [congruence|].
  cbn [PyStr.bool_of_str andb filter make_condition PyStr.join String.concat].
  rewrite !bool_of_str_cons_append. cbn [String.concat String.append].
  rewrite !append_assoc. cbn [String.append]. reflexivity.
Qed.

(** C6, as the claim states it, fails: with the header
    [test: sys_platform=="win32"] the conversion does not produce the
    string [foo; (sys_platform=="win32") and extra == "test"]. *)
Lemma C6_blank_after_colon_is_kept :
  _deps_from_requires_text requires_text <> [simple_req_tight].
Proof. vm_compute. discriminate. Qed.

(** C6 (amended): for the sectioned text with header
    [test: sys_platform=="win32"] and body [foo] the conversion yields
    exactly [foo; ( sys_platform=="win32") and extra == "test"]: the text
    after the colon goes between the parentheses as it stands, blank
    included, conjoined with the extra condition; with the header
    [test:sys_platform=="win32"] it yields exactly
    [foo; (sys_platform=="win32") and extra == "test"]. *)
Theorem C6_egg_info_section_to_simple_req :
  _deps_from_requires_text requires_text = [simple_req_blank]
  /\ _deps_from_requires_text requires_text_tight = [simple_req_tight].
Proof. split; vm_compute; reflexivity. Qed.

End EggInfoRequirements.

(** ** pkg_resources: resource path validation *)

Section ResourcePaths.

Import pkg_resources Inputs.

Variable ntpath_isabs : string -> bool.

Lemma valid_path_passes_silently (path : string) :
  resource_path_invalid ntpath_isabs path = false ->
  _validate_resource_path ntpath_isabs path = Ok None.
Proof. intros H. unfold _validate_resource_path. rewrite H. reflexivity. Qed.

(** C8 (amended): for a path judged invalid, validation raises
    [ValueError] exactly when the path starts with a backslash or is
    absolute for [ntpath] and is not absolute for [posixpath]; for every
    other invalid path, that is one absolute for [posixpath] or one with a
    [..] segment that is not a Windows path, it issues the deprecation
    warning and does not raise. *)
Theorem C8_invalid_path_warns_or_raises (path : string) :
  resource_path_invalid ntpath_isabs path = true ->
  let windows :=
    PyStr.startswith backslash path || ntpath_isabs path in
  (windows = true /\ posixpath_isabs path = false ->
   _validate_resource_path ntpath_isabs path
   = Raise (ValueError [resource_path_msg]))
  /\ (windows = false \/ posixpath_isabs path = true ->
      _validate_resource_path ntpath_isabs path = Ok (Some deprecation_warning)).
Proof.
  intros Hinv windows. unfold _validate_resource_path.
  rewrite Hinv. cbn [negb]. fold windows. split.
  - intros [Hw Hp]. rewrite Hw, Hp. reflexivity.
  - intros [Hw | Hp].
    + rewrite Hw. reflexivity.
    + rewrite Hp, andb_false_r. reflexivity.
Qed.

End ResourcePaths.

(** C8 at the path [..] under a directory: it is invalid, it is not a
    Windows path, and the warning is issued. *)
Lemma C8_invalid_path_warns_or_raises_witness :
  pkg_resources.resource_path_invalid Small.ntpath_isabs "../foo/bar.txt" = true
  /\ pkg_resources._validate_resource_path Small.ntpath_isabs "../foo/bar.txt"
     = Ok (Some Inputs.deprecation_warning).
Proof.
  split; [reflexivity|].
  apply (C8_invalid_path_warns_or_raises Small.ntpath_isabs "../foo/bar.txt");
    [reflexivity | left; reflexivity].
Defined.

(** C8, as the claim states it, fails: the path [\foo/bar.txt] is judged
    invalid, and validation raises [ValueError] for it instead of
    warning. *)
Lemma C8_leading_backslash_raises :
  pkg_resources.resource_path_invalid Small.ntpath_isabs Inputs.backslash_path
  = true
  /\ pkg_resources._validate_resource_path Small.ntpath_isabs
       Inputs.backslash_path
     = Raise (ValueError [pkg_resources.resource_path_msg]).
Proof. split; vm_compute; reflexivity. Qed.

(** The same path raises whatever [ntpath.isabs] answers. *)
Lemma leading_backslash_raises_always (ntpath_isabs : string -> bool) :
  pkg_resources._validate_resource_path ntpath_isabs Inputs.backslash_path
  = Raise (ValueError [pkg_resources.resource_path_msg]).
Proof.
  unfold pkg_resources._validate_resource_path,
    pkg_resources.resource_path_invalid.
  replace (PyStr.startswith pkg_resources.backslash Inputs.backslash_path)
    with true by reflexivity.
  rewrite !orb_true_r. reflexivity.
Qed.

(** ** pkg_resources: requirements and markers *)

Section Requirements.

Import pkg_resources.

Context {P : Packaging}.

(** C3: [d in r] is [True] exactly when the keys are equal and the
    specifier of [r] contains the version of [d], asked with
    [prereleases=True]. *)
Theorem C3_requirement_contains_distribution
        (r : Requirement) (d : Distribution) :
  Requirement___contains__ r d = Ok true
  <-> Distribution_key d = Requirement_key r
      /\ exists version,
           Distribution_version d = Ok version
           /\ specifier_contains (Requirement_specifier r) version true
              = Ok true.
Proof.
  unfold Requirement___contains__.
  destruct (String.eqb_spec (Distribution_key d) (Requirement_key r))
    as [Hk | Hk]; cbn [negb].
  - split.
    + intros H. split; [exact Hk|].
      destruct (Distribution_version d) as [v | e]; cbn [bind] in H;
        [|discriminate].
      exists v. split; [reflexivity|].
      destruct (specifier_contains (Requirement_specifier r) v true)
        as [b | e]; cbn [lift] in H; [|discriminate].
      congruence.
    + intros [_ [v [Hv Hc]]]. rewrite Hv. cbn [bind]. rewrite Hc.
      reflexivity.
  - split; [discriminate | intros [Hk' _]; contradiction].
Qed.

(** The extras recorded as demanding a requirement. *)
Lemma markers_pass_without_marker (self : _ReqExtras) (req : Requirement)
      (extras : option (list string)) :
  Requirement_marker req = None -> markers_pass self req extras = true.
Proof. intros H. unfold markers_pass. rewrite H. reflexivity. Qed.

(** *** Markers and the supplied extras *)

Variable find_distributions : string -> bool -> list Distribution.
Variable sys_path : list string.
Variable supported_platform : option string.
Variable PY_MAJOR : string.
Variable insert_on :
  Distribution -> list string -> option string -> bool -> list string.

Local Abbreviation resolve :=
  (WorkingSet_resolve find_distributions sys_path supported_platform
                      PY_MAJOR insert_on).
Local Abbreviation resolve_dist :=
  (WorkingSet__resolve_dist find_distributions sys_path supported_platform
                            PY_MAJOR insert_on).

Lemma existsb_false_when_absent (f : string -> bool) (l : list string) :
  (forall extra, f extra = true <-> extra = "") ->
  ~ In "" l -> existsb f l = false.
Proof.
  intros Hf Hnot. induction l as [|x l IH]; [reflexivity|].
  cbn [existsb]. rewrite IH by (intros Hin; apply Hnot; right; exact Hin).
  destruct (f x) eqn:Hx; [|reflexivity].
  apply Hf in Hx. subst x. exfalso. apply Hnot. left. reflexivity.
Qed.

(** C9 (amended): with a non-empty extras argument, a requirement
    carrying a marker is evaluated against the extras recorded as
    demanding it followed by exactly the supplied extras, the empty-string
    pseudo-extra taking their place only when none is supplied.  So a
    requirement whose marker holds for the empty extra alone is skipped by
    [resolve] under supplied extras, provided the empty string is neither
    among the supplied nor among the recorded extras, while with
    [extras=None] it passes and is handed on to be resolved. *)
Theorem C9_supplied_extras_replace_default
        (self : _ReqExtras) (req : Requirement) (m : Marker)
        (supplied : list string) :
  Requirement_marker req = Some m ->
  supplied <> [] ->
  markers_pass self req (Some supplied)
  = existsb (marker_evaluate m) (_ReqExtras_get self req ++ supplied)%list
  /\ markers_pass self req None
     = existsb (marker_evaluate m) (_ReqExtras_get self req ++ [""])%list
  /\ ((forall extra, marker_evaluate m extra = true <-> extra = "") ->
      ~ In "" supplied ->
      (~ In "" (_ReqExtras_get self req) ->
       markers_pass self req (Some supplied) = false)
      /\ markers_pass self req None = true
      /\ forall fuel ws env installer replace_conflicting,
          resolve (S fuel) ws [req] env installer replace_conflicting
                  (Some supplied)
          = Some (Ok [])
          /\ forall e,
              resolve_dist ws req [] replace_conflicting env installer [] []
              = Raise e ->
              resolve (S fuel) ws [req] env installer replace_conflicting
                      None
              = Some (Raise e)).
Proof.
  intros Hm Hne.
  assert (Hsome : markers_pass self req (Some supplied)
                  = existsb (marker_evaluate m)
                            (_ReqExtras_get self req ++ supplied)%list).
  { unfold markers_pass. rewrite Hm.
    destruct supplied; [congruence | reflexivity]. }
  assert (Hnone : markers_pass self req None
                  = existsb (marker_evaluate m)
                            (_ReqExtras_get self req ++ [""])%list).
  { unfold markers_pass. rewrite Hm. reflexivity. }
  split; [exact Hsome|]. split; [exact Hnone|].
  intros Honly Hsup. split; [|split].
  - intros Hrec. rewrite Hsome.
    apply existsb_false_when_absent; [exact Honly|].
    intros Hin. apply in_app_or in Hin. tauto.
  - rewrite Hnone. rewrite existsb_app.
    cbn [existsb]. replace (marker_evaluate m "") with true
      by (symmetry; apply Honly; reflexivity).
    rewrite orb_true_r. reflexivity.
  - intros fuel ws env installer rc.
    assert (Hroot_some : markers_pass [] req (Some supplied) = false).
    { unfold markers_pass. rewrite Hm.
      destruct supplied as [|s0 rest]; [congruence|].
      cbn [_ReqExtras_get PyDict.get extras_or_default app].
      apply existsb_false_when_absent; assumption. }
    assert (Hroot_none : markers_pass [] req None = true).
    { unfold markers_pass. rewrite Hm.
      cbn [_ReqExtras_get PyDict.get extras_or_default app existsb].
      replace (marker_evaluate m "") with true
        by (symmetry; apply Honly; reflexivity).
      reflexivity. }
    split.
    + unfold WorkingSet_resolve. cbn [List.rev app resolve_loop
        rs_requirements rs_processed rs_req_extras req_in existsb].
      rewrite Hroot_some. cbn [negb]. destruct fuel; reflexivity.
    + intros e He. unfold WorkingSet_resolve. cbn [List.rev app resolve_loop
        rs_requirements rs_processed rs_req_extras rs_best rs_required_by
        rs_to_activate req_in existsb].
      rewrite Hroot_none. cbn [negb]. rewrite He. reflexivity.
Qed.

End Requirements.

(** C9 on the small instance: the marker asks for the empty extra, [x] is
    supplied, and the root requirement is skipped. *)
Lemma C9_supplied_extras_replace_default_witness :
  pkg_resources.markers_pass [] Inputs.pkg_only_without_extra (Some ["x"])
  = false
  /\ pkg_resources.markers_pass [] Inputs.pkg_only_without_extra None = true
  /\ Inputs.resolve 1 Inputs.empty_working_set [Inputs.pkg_only_without_extra]
       (Some Inputs.empty_environment) None false (Some ["x"])
     = Some (Ok []).
Proof.
  destruct (@C9_supplied_extras_replace_default
              Small.packaging Inputs.no_distributions [] None "3.12"
              Inputs.keep_path [] Inputs.pkg_only_without_extra "" ["x"]
              eq_refl ltac:(discriminate)) as (_ & _ & H).
  destruct H as (H1 & H2 & H3).
  - intros extra. apply String.eqb_eq.
  - intros [H | []]. discriminate.
  - split; [apply H1; intros []|]. split; [exact H2|].
    apply (H3 0%nat Inputs.empty_working_set (Some Inputs.empty_environment)
              None false).
Defined.

(** C9, as the claim states it, fails: the extras argument [("",)] is not
    empty, yet a requirement whose marker holds for the empty extra alone
    passes the marker test and is resolved (here no distribution is found
    for it) instead of being skipped. *)
Lemma C9_empty_string_among_supplied_extras :
  pkg_resources.Requirement_marker Inputs.pkg_only_without_extra = Some ""
  /\ pkg_resources.markers_pass [] Inputs.pkg_only_without_extra (Some [""])
     = true
  /\ Inputs.resolve 1 Inputs.empty_working_set [Inputs.pkg_only_without_extra]
       (Some Inputs.empty_environment) None false (Some [""])
     = Some (Raise (pkg_resources.DistributionNotFound
                      Inputs.pkg_only_without_extra None)).
Proof. repeat split; reflexivity. Qed.

(** ** Entry points *)

Section EntryPoints.

Import pkg_resources.

Context {P : Packaging}.

Lemma entry_point_pattern_groups :
  Re.match_ EntryPoint_pattern Inputs.entry_point_text
  = Some ("", [("extras", "[x,y]"); ("attr", "attr");
               ("module", "pkg.mod"); ("name", "foo")]).
Proof. vm_compute. reflexivity. Qed.

Lemma module_name_is_valid : Re.match_ MODULE "pkg.mod" = Some ("", []).
Proof. vm_compute. reflexivity. Qed.

(** C7 (amended): [EntryPoint.parse("foo = pkg.mod:attr [x,y]")] of
    [pkg_resources] yields the name [foo], the module [pkg.mod], the
    attribute path [("attr",)] and the extras [("x","y")], the
    requirement parser reporting the extras of [x[x,y]] as [x], [y] with
    no version clause.  An [importlib_metadata] entry point is immutable
    after construction: every attribute assignment raises
    [AttributeError].  A [pkg_resources] entry point has no such guard:
    every attribute assignment succeeds. *)
Theorem C7_entry_point_parse_and_mutation
        (p : PackagingRequirement SpecifierSet Marker)
        (dist : option Distribution) :
  requirement_lines "x[x,y]" = ["x[x,y]"] ->
  packaging_Requirement "x[x,y]" = Some p ->
  pr_extras p = ["x"; "y"] ->
  specifier_specs (pr_specifier p) = [] ->
  EntryPoint_parse Inputs.entry_point_text dist
  = Ok {| EntryPoint_name := "foo";
          EntryPoint_module_name := "pkg.mod";
          EntryPoint_attrs := ["attr"];
          EntryPoint_extras := ["x"; "y"];
          EntryPoint_dist := dist |}
  /\ (forall (Dist V : Type) (ep : importlib_metadata.EntryPoint Dist)
             (name : string) (value : V),
         importlib_metadata.EntryPoint___setattr__ ep name value
         = Raise (AttributeError "EntryPoint objects are immutable."))
  /\ (forall (ep : EntryPoint) (vars : list (string * pyvalue))
             (name : string) (value : pyvalue),
         exists ep' vars',
           EntryPoint_setattr (ep, vars) name value = Ok (ep', vars')).
Proof.
  intros Hlines Hparse Hextras Hspecs. split; [|split].
  - unfold EntryPoint_parse. rewrite entry_point_pattern_groups.
    cbn [Re.group String.eqb Ascii.eqb Bool.eqb].
    unfold EntryPoint__parse_extras.
    cbn [PyStr.bool_of_str negb String.append].
    unfold Requirement_parse, parse_requirements.
    rewrite Hlines. cbn [map_result]. unfold Requirement___init__.
    rewrite Hparse. cbn [bind lift Requirement_specs Requirement_extras].
    rewrite Hspecs, Hextras.
    unfold EntryPoint___init__, group_text.
    cbn [Re.group String.eqb Ascii.eqb Bool.eqb or_empty].
    rewrite module_name_is_valid. reflexivity.
  - reflexivity.
  - intros ep vars name value. unfold EntryPoint_setattr.
    repeat match goal with
           | |- context [match ?x with _ => _ end] => destruct x
           end; eauto.
Qed.

End EntryPoints.

(** C7 on the small instance, whose requirement parser reads [x[x,y]]. *)
Lemma C7_entry_point_parse_and_mutation_witness :
  pkg_resources.EntryPoint_parse (P := Small.packaging)
    Inputs.entry_point_text None
  = Ok (Inputs.parsed_entry_point None).
Proof.
  apply (@C7_entry_point_parse_and_mutation Small.packaging
           (mkPackagingRequirement "x" None ["x"; "y"] [] None) None);
    reflexivity.
Defined.

(** C7, as the claim states it, fails: the entry point that
    [pkg_resources.EntryPoint.parse] returns can be given a new name. *)
Lemma C7_parsed_entry_point_is_mutable :
  pkg_resources.EntryPoint_parse (P := Small.packaging)
    Inputs.entry_point_text None
  = Ok (Inputs.parsed_entry_point None)
  /\ pkg_resources.EntryPoint_setattr
       (Inputs.parsed_entry_point None, []) "name" (pkg_resources.PyText "bar")
     = Ok (pkg_resources.mkEntryPoint "bar" "pkg.mod" ["attr"] ["x"; "y"] None,
           []).
Proof. split; reflexivity. Qed.

(** ** Orders *)

Section TotalOrders.

Lemma TotalCmp_of_spec {A : Type} (cmp : A -> A -> comparison) :
  (forall x y, CompSpec eq (fun a b => cmp a b = Lt) x y (cmp x y)) ->
  (forall x, cmp x x <> Lt) ->
  (forall x y z, cmp x y = Lt -> cmp y z = Lt -> cmp x z = Lt) ->
  TotalCmp cmp.
Proof.
  intros Hspec Hirr Htr.
  assert (Hcases : forall x y,
             (cmp x y = Eq /\ x = y) \/ (cmp x y = Lt)
             \/ (cmp x y = Gt /\ cmp y x = Lt)).
  { intros x y. destruct (Hspec x y) as [E | E | E]; cbv beta in *; auto. }
  assert (Hrefl : forall x, cmp x x = Eq).
  { intros x. destruct (Hcases x x) as [[E _] | [E | [_ E]]]; auto;
      exfalso; exact (Hirr x E). }
  assert (Hanti : forall a b, cmp b a = CompOpp (cmp a b)).
  { intros a b. destruct (Hcases a b) as [[E ->] | [E | [E E']]].
    - rewrite Hrefl. reflexivity.
    - rewrite E. cbn [CompOpp].
      destruct (Hcases b a) as [[_ ->] | [E' | [E' _]]]; auto.
      + exfalso. exact (Hirr a E).
      + exfalso. exact (Hirr a (Htr _ _ _ E E')).
    - rewrite E. exact E'. }
  assert (Heq : forall a b, cmp a b = Eq -> a = b).
  { intros a b H. destruct (Hcases a b) as [[_ E] | [E | [E _]]]; auto;
      congruence. }
  constructor.
  - exact Hanti.
  - intros o a b c Hab Hbc. destruct o.
    + apply Heq in Hab. subst. exact Hbc.
    + eapply Htr; eassumption.
    + rewrite Hanti in Hab. rewrite Hanti in Hbc. rewrite Hanti.
      destruct (cmp b a) eqn:Hba; try discriminate.
      destruct (cmp c b) eqn:Hcb; try discriminate.
      rewrite (Htr _ _ _ Hcb Hba). reflexivity.
  - intros a b c Hab. apply Heq in Hab. subst. reflexivity.
Qed.

Lemma TotalCmp_Z : TotalCmp Z.compare.
Proof.
  apply TotalCmp_of_spec.
  - intros x y. destruct (Z.compare_spec x y) as [E | E | E];
      constructor; auto.
  - intros x. rewrite Z.compare_refl. discriminate.
  - intros x y z H1 H2. rewrite Z.compare_lt_iff in *. lia.
Qed.

Lemma TotalCmp_string : TotalCmp String_as_OT.compare.
Proof.
  apply TotalCmp_of_spec.
  - exact String_as_OT.compare_spec.
  - intros x H. destruct String_as_OT.lt_strorder as [Hirr _].
    exact (Hirr x H).
  - intros x y z. destruct String_as_OT.lt_strorder as [_ Htr].
    exact (Htr x y z).
Qed.

Lemma TotalCmp_nat : TotalCmp Nat.compare.
Proof.
  apply TotalCmp_of_spec.
  - intros x y. destruct (Nat.compare_spec x y) as [E | E | E];
      constructor; auto; apply Nat.compare_lt_iff; exact E.
  - intros x. rewrite Nat.compare_refl. discriminate.
  - intros x y z H1 H2. rewrite Nat.compare_lt_iff in *. lia.
Qed.

Lemma TotalCmp_refl {A} (cmp : A -> A -> comparison) (H : TotalCmp cmp) a :
  cmp a a = Eq.
Proof.
  pose proof (cmp_antisym H a a) as E. destruct (cmp a a); try reflexivity;
    discriminate.
Qed.

(** Not being below is transitive. *)
Lemma TotalCmp_ge_trans {A} (cmp : A -> A -> comparison) (H : TotalCmp cmp)
      a b c :
  cmp a b <> Lt -> cmp b c <> Lt -> cmp a c <> Lt.
Proof.
  intros Hab Hbc Hac.
  destruct (cmp a b) eqn:E1; [| congruence |].
  - rewrite (cmp_eq_l H a b c E1) in Hac. congruence.
  - destruct (cmp b c) eqn:E2; [| congruence |].
    + pose proof (cmp_antisym H b c) as E3. rewrite E2 in E3. cbn in E3.
      pose proof (cmp_eq_l H c b a E3) as E4.
      rewrite (cmp_antisym H a c), (cmp_antisym H a b), E1 in E4.
      rewrite Hac in E4. discriminate.
    + rewrite (cmp_trans H a b c E1 E2) in Hac. discriminate.
Qed.

Lemma cmp_eq_r {A} (cmp : A -> A -> comparison) (H : TotalCmp cmp) a b c :
  cmp b c = Eq -> cmp a b = cmp a c.
Proof.
  intros E. rewrite (cmp_antisym H b a), (cmp_antisym H c a).
  f_equal. apply (cmp_eq_l H). exact E.
Qed.

Lemma TotalCmp_lex {A B} (c1 : A -> A -> comparison)
      (c2 : B -> B -> comparison) :
  TotalCmp c1 -> TotalCmp c2 -> TotalCmp (Order.lex c1 c2).
Proof.
  intros H1 H2. constructor.
  - intros [a1 a2] [b1 b2]. unfold Order.lex. cbn [fst snd].
    rewrite (cmp_antisym H1 a1 b1).
    destruct (c1 a1 b1); cbn [CompOpp]; try reflexivity.
    apply (cmp_antisym H2).
  - intros o [a1 a2] [b1 b2] [d1 d2]. unfold Order.lex. cbn [fst snd].
    destruct (c1 a1 b1) eqn:E1.
    + rewrite (cmp_eq_l H1 a1 b1 d1 E1).
      destruct (c1 b1 d1); intros Ha Hb; try exact Hb.
      exact (cmp_trans H2 _ _ _ Ha Hb).
    + intros <-. destruct (c1 b1 d1) eqn:E2; intros Hb.
      * rewrite <- (cmp_eq_r H1 a1 b1 d1 E2), E1. reflexivity.
      * rewrite (cmp_trans H1 a1 b1 d1 E1 E2). reflexivity.
      * discriminate.
    + intros <-. destruct (c1 b1 d1) eqn:E2; intros Hb.
      * rewrite <- (cmp_eq_r H1 a1 b1 d1 E2), E1. reflexivity.
      * discriminate.
      * rewrite (cmp_trans H1 a1 b1 d1 E1 E2). reflexivity.
  - intros [a1 a2] [b1 b2] [d1 d2]. unfold Order.lex. cbn [fst snd].
    destruct (c1 a1 b1) eqn:E1; try discriminate. intros E2.
    rewrite (cmp_eq_l H1 a1 b1 d1 E1).
    destruct (c1 b1 d1); try reflexivity. apply (cmp_eq_l H2 _ _ _ E2).
Qed.

Lemma TotalCmp_option {A} (c : A -> A -> comparison) :
  TotalCmp c -> TotalCmp (Order.option_compare c).
Proof.
  intros H. constructor.
  - intros [a|] [b|]; cbn; try reflexivity. apply (cmp_antisym H).
  - intros o [a|] [b|] [c'|]; cbn; intros; subst; try congruence.
    eapply (cmp_trans H); eauto.
  - intros [a|] [b|] [c'|]; cbn; intros; try congruence.
    apply (cmp_eq_l H); assumption.
Qed.

End TotalOrders.

(** ** The order of distributions *)

Section HashCmpOrder.

Import pkg_resources.

Context {P : Packaging}.
Hypothesis version_order : TotalCmp version_compare.

Lemma Z_eqb_compare (a b : Z) :
  Z.eqb a b = match Z.compare a b with Eq => true | _ => false end.
Proof.
  destruct (Z.eqb_spec a b) as [-> | Hne].
  - rewrite Z.compare_refl. reflexivity.
  - destruct (Z.compare_spec a b); congruence.
Qed.

Lemma string_eqb_compare (a b : string) :
  String.eqb a b
  = match String_as_OT.compare a b with Eq => true | _ => false end.
Proof.
  destruct (String.eqb_spec a b) as [-> | Hne].
  - rewrite (TotalCmp_refl TotalCmp_string). reflexivity.
  - destruct (String_as_OT.compare_spec a b); congruence.
Qed.

Lemma option_eqb_compare (a b : option string) :
  option_eqb String.eqb a b
  = match Order.option_compare String_as_OT.compare a b with
    | Eq => true
    | _ => false
    end.
Proof.
  destruct a, b; cbn; try reflexivity. apply string_eqb_compare.
Qed.

Lemma TotalCmp_prefix : TotalCmp prefix_compare.
Proof.
  unfold prefix_compare.
  repeat apply TotalCmp_lex; auto using TotalCmp_Z, TotalCmp_string.
Qed.

Lemma TotalCmp_HashCmp : TotalCmp HashCmp_compare.
Proof.
  unfold HashCmp_compare.
  repeat apply TotalCmp_lex;
    auto using TotalCmp_Z, TotalCmp_string, TotalCmp_option.
Qed.

(** The [<] of tuples, component by component, is the total comparison
    wherever Python can order the two tuples. *)
Lemma HashCmp_lt_spec (a b : HashCmp) :
  HashCmp_lt a b
  = if HashCmp_comparable a b
    then Ok (Order.is_lt (HashCmp_compare a b))
    else Raise type_error.
Proof.
  destruct a as [[[[[v1 p1] k1] l1] y1] f1].
  destruct b as [[[[[v2 p2] k2] l2] y2] f2].
  unfold HashCmp_lt, HashCmp_comparable, HashCmp_compare, prefix_compare,
    HashCmp_prefix, HashCmp_location, Order.lex, version_eqb, version_ltb,
    str_ltb, type_error.
  cbn [fst snd]. unfold Z.ltb.
  rewrite Z_eqb_compare, !string_eqb_compare, option_eqb_compare.
  destruct (version_compare v1 v2); cbn [negb Order.is_lt]; try reflexivity.
  destruct (Z.compare p1 p2); cbn [negb Order.is_lt]; try reflexivity.
  destruct (String_as_OT.compare k1 k2); cbn [negb Order.is_lt];
    try reflexivity.
  destruct l1 as [x|], l2 as [y|]; cbn [Order.option_compare same_kind negb];
    try reflexivity.
  - destruct (String_as_OT.compare x y); cbn [negb Order.is_lt];
      try reflexivity.
    destruct (String_as_OT.compare y1 y2); cbn [negb Order.is_lt];
      try reflexivity.
    destruct (String_as_OT.compare f1 f2); reflexivity.
  - destruct (String_as_OT.compare y1 y2); cbn [negb Order.is_lt];
      try reflexivity.
    destruct (String_as_OT.compare f1 f2); reflexivity.
Qed.

Lemma HashCmp_eqb_spec (a b : HashCmp) :
  HashCmp_eqb a b
  = match HashCmp_compare a b with Eq => true | _ => false end.
Proof.
  destruct a as [[[[[v1 p1] k1] l1] y1] f1].
  destruct b as [[[[[v2 p2] k2] l2] y2] f2].
  unfold HashCmp_eqb, HashCmp_compare, Order.lex, version_eqb.
  cbn [fst snd].
  rewrite Z_eqb_compare, !string_eqb_compare, option_eqb_compare.
  destruct (version_compare v1 v2), (Z.compare p1 p2),
    (String_as_OT.compare k1 k2),
    (Order.option_compare String_as_OT.compare l1 l2),
    (String_as_OT.compare y1 y2), (String_as_OT.compare f1 f2);
    reflexivity.
Qed.

Lemma HashCmp_eqb_sym (a b : HashCmp) : HashCmp_eqb a b = HashCmp_eqb b a.
Proof.
  rewrite !HashCmp_eqb_spec, (cmp_antisym TotalCmp_HashCmp a b).
  destruct (HashCmp_compare a b); reflexivity.
Qed.

Lemma same_kind_sym x y : same_kind x y = same_kind y x.
Proof. destruct x, y; reflexivity. Qed.

Lemma same_kind_trans x y z :
  same_kind x y = true -> same_kind y z = true -> same_kind x z = true.
Proof. destruct x, y, z; cbn; congruence. Qed.

Lemma HashCmp_comparable_sym (a b : HashCmp) :
  HashCmp_comparable a b = HashCmp_comparable b a.
Proof.
  unfold HashCmp_comparable.
  rewrite (cmp_antisym TotalCmp_prefix (HashCmp_prefix a) (HashCmp_prefix b)).
  destruct (prefix_compare (HashCmp_prefix a) (HashCmp_prefix b));
    cbn [CompOpp]; try reflexivity.
  apply same_kind_sym.
Qed.

(** The whole tuples are ordered as their prefixes, where these differ. *)
Lemma prefix_of_compare (a b : HashCmp) :
  match prefix_compare (HashCmp_prefix a) (HashCmp_prefix b) with
  | Eq => True
  | o => HashCmp_compare a b = o
  end.
Proof.
  destruct a as [[[[[v1 p1] k1] l1] y1] f1].
  destruct b as [[[[[v2 p2] k2] l2] y2] f2].
  unfold HashCmp_compare, prefix_compare, HashCmp_prefix, Order.lex.
  cbn [fst snd].
  destruct (version_compare v1 v2), (Z.compare p1 p2),
    (String_as_OT.compare k1 k2); try reflexivity; exact I.
Qed.

Lemma HashCmp_lt_asym (a b : HashCmp) :
  HashCmp_lt a b = Ok true -> HashCmp_lt b a = Ok false.
Proof.
  rewrite !HashCmp_lt_spec, (HashCmp_comparable_sym b a),
    (cmp_antisym TotalCmp_HashCmp a b).
  destruct (HashCmp_comparable a b); [|discriminate].
  destruct (HashCmp_compare a b); cbn; congruence.
Qed.

Lemma HashCmp_lt_total (a b : HashCmp) :
  HashCmp_lt a b = Ok false -> HashCmp_eqb a b = false ->
  HashCmp_lt b a = Ok true.
Proof.
  rewrite !HashCmp_lt_spec, (HashCmp_comparable_sym b a), HashCmp_eqb_spec,
    (cmp_antisym TotalCmp_HashCmp a b).
  destruct (HashCmp_comparable a b); [|discriminate].
  destruct (HashCmp_compare a b); cbn; congruence.
Qed.

(** Not being below is transitive, and so is being comparable along a
    descending chain. *)
Lemma HashCmp_ge_trans (a b c : HashCmp) :
  HashCmp_lt a b = Ok false -> HashCmp_lt b c = Ok false ->
  HashCmp_lt a c = Ok false.
Proof.
  rewrite !HashCmp_lt_spec.
  destruct (HashCmp_comparable a b) eqn:Cab; [|discriminate].
  destruct (HashCmp_comparable b c) eqn:Cbc; [|discriminate].
  intros Hab Hbc.
  assert (Gab : HashCmp_compare a b <> Lt)
    by (destruct (HashCmp_compare a b); cbn in Hab; congruence).
  assert (Gbc : HashCmp_compare b c <> Lt)
    by (destruct (HashCmp_compare b c); cbn in Hbc; congruence).
  pose proof (TotalCmp_ge_trans TotalCmp_HashCmp a b c Gab Gbc) as Gac.
  assert (Cac : HashCmp_comparable a c = true).
  { unfold HashCmp_comparable in *.
    destruct (prefix_compare (HashCmp_prefix a) (HashCmp_prefix c)) eqn:Pac;
      try reflexivity.
    pose proof (prefix_of_compare a b) as Qab.
    pose proof (prefix_of_compare b c) as Qbc.
    destruct (prefix_compare (HashCmp_prefix a) (HashCmp_prefix b)) eqn:Pab;
      [| congruence |].
    - pose proof (cmp_eq_l TotalCmp_prefix _ _ (HashCmp_prefix c) Pab) as E.
      rewrite Pac in E. rewrite <- E in Cbc.
      eapply same_kind_trans; eassumption.
    - exfalso.
      destruct (prefix_compare (HashCmp_prefix b) (HashCmp_prefix c)) eqn:Pbc;
        [| congruence |].
      + pose proof (cmp_eq_r TotalCmp_prefix (HashCmp_prefix a) _ _ Pbc)
          as E.
        congruence.
      + pose proof (cmp_trans TotalCmp_prefix _ _ _ Pab Pbc) as E.
        congruence. }
  rewrite Cac. destruct (HashCmp_compare a c); cbn; congruence.
Qed.

End HashCmpOrder.

(** ** Sorting by key *)

Section SortByKey.

Import pkg_resources.

Context {P : Packaging}.
Variables K A : Type.
Variable lt : K -> K -> Res bool.

Local Abbreviation key_not_below := (key_not_below lt).

Hypothesis lt_asym : forall a b, lt a b = Ok true -> lt b a = Ok false.
Hypothesis ge_trans :
  forall a b c, lt a b = Ok false -> lt b c = Ok false -> lt a c = Ok false.

Lemma insert_desc_perm (x : K * A) (l r : list (K * A)) :
  insert_desc lt x l = Ok r -> Permutation r (x :: l).
Proof.
  revert r. induction l as [|y l IH]; cbn [insert_desc]; intros r H.
  - injection H as <-. apply Permutation_refl.
  - destruct (lt (fst x) (fst y)) as [[|] | e]; cbn [bind] in H;
      try discriminate.
    + destruct (insert_desc lt x l) as [r' | e]; cbn [bind] in H;
        try discriminate.
      injection H as <-.
      apply Permutation_trans with (y :: x :: l).
      * apply perm_skip. apply IH. reflexivity.
      * apply perm_swap.
    + injection H as <-. apply Permutation_refl.
Qed.

Lemma sort_keyed_desc_perm (l r : list (K * A)) :
  sort_keyed_desc lt l = Ok r -> Permutation r l.
Proof.
  revert r. induction l as [|x l IH]; cbn [sort_keyed_desc]; intros r H.
  - injection H as <-. apply perm_nil.
  - destruct (sort_keyed_desc lt l) as [s | e]; cbn [bind] in H;
      try discriminate.
    apply Permutation_trans with (x :: s).
    + apply insert_desc_perm. exact H.
    + apply perm_skip. apply IH. reflexivity.
Qed.



Lemma insert_desc_sorted (x : K * A) (l r : list (K * A)) :
  StronglySorted key_not_below l ->
  insert_desc lt x l = Ok r ->
  StronglySorted key_not_below r.
Proof.
  revert r. induction l as [|y l IH]; cbn [insert_desc]; intros r Hs H.
  - injection H as <-. constructor; constructor.
  - apply StronglySorted_inv in Hs as [Hs Hy].
    destruct (lt (fst x) (fst y)) as [[|] | e] eqn:Hxy; cbn [bind] in H;
      try discriminate.
    + destruct (insert_desc lt x l) as [r' | e] eqn:Hins; cbn [bind] in H;
        try discriminate.
      injection H as <-. constructor.
      * apply IH; [exact Hs | reflexivity].
      * apply Forall_forall. intros z Hz.
        apply (Permutation_in _ (insert_desc_perm _ _ Hins)) in Hz.
        destruct Hz as [<- | Hz].
        -- apply lt_asym. exact Hxy.
        -- rewrite Forall_forall in Hy. apply Hy. exact Hz.
    + injection H as <-. constructor.
      * constructor; assumption.
      * constructor; [exact Hxy|].
        apply Forall_forall. intros z Hz.
        rewrite Forall_forall in Hy.
        apply (ge_trans Hxy). apply Hy. exact Hz.
Qed.

Lemma sort_keyed_desc_sorted (l r : list (K * A)) :
  sort_keyed_desc lt l = Ok r -> StronglySorted key_not_below r.
Proof.
  revert r. induction l as [|x l IH]; cbn [sort_keyed_desc]; intros r H.
  - injection H as <-. constructor.
  - destruct (sort_keyed_desc lt l) as [s | e]; cbn [bind] in H;
      try discriminate.
    apply (insert_desc_sorted x (l := s)); [|exact H].
    apply IH. reflexivity.
Qed.

Variable key : A -> Res K.

Lemma keyed_spec (l : list A) (keyed : list (K * A)) :
  map_result (fun a => k <- key a ;; Ok (k, a)) l = Ok keyed ->
  map snd keyed = l /\ Forall (fun ka => key (snd ka) = Ok (fst ka)) keyed.
Proof.
  revert keyed. induction l as [|a l IH]; cbn [map_result]; intros keyed H.
  - injection H as <-. split; constructor.
  - destruct (key a) as [k | e] eqn:Hk; cbn [bind] in H; try discriminate.
    destruct (map_result (fun a => k <- key a ;; Ok (k, a)) l)
      as [rest | e]; cbn [bind] in H; try discriminate.
    injection H as <-. destruct (IH rest eq_refl) as [Hm Hf].
    split; [cbn; congruence|]. constructor; [exact Hk | exact Hf].
Qed.

(** What [list.sort(key=..., reverse=True)] returns: the same elements,
    none of them below a later one. *)
Lemma sort_desc_by_spec (l r : list A) :
  sort_desc_by lt key l = Ok r ->
  Permutation r l
  /\ StronglySorted
       (fun a b => (ka <- key a ;; kb <- key b ;; lt ka kb) = Ok false) r.
Proof.
  unfold sort_desc_by. intros H.
  destruct (map_result (fun a => k <- key a ;; Ok (k, a)) l)
    as [keyed | e] eqn:Hkeyed; cbn [bind] in H; try discriminate.
  destruct (sort_keyed_desc lt keyed) as [sorted | e] eqn:Hsort;
    cbn [bind] in H; try discriminate.
  injection H as <-.
  destruct (keyed_spec _ Hkeyed) as [Hm Hf].
  pose proof (sort_keyed_desc_perm _ Hsort) as Hperm.
  pose proof (sort_keyed_desc_sorted _ Hsort) as Hss.
  split.
  - rewrite <- Hm. apply Permutation_map. exact Hperm.
  - assert (Hf' : Forall (fun ka => key (snd ka) = Ok (fst ka)) sorted).
    { apply Forall_forall. intros z Hz. rewrite Forall_forall in Hf.
      apply Hf. apply (Permutation_in _ Hperm). exact Hz. }
    clear -Hss Hf'. induction Hss as [|x s Hs IH Hx]; cbn [map].
    + constructor.
    + apply Forall_cons_iff in Hf' as [Hkx Hfs]. constructor.
      * apply IH. exact Hfs.
      * apply Forall_forall. intros b Hb. apply in_map_iff in Hb.
        destruct Hb as [z [<- Hz]].
        rewrite Forall_forall in Hx, Hfs.
        rewrite Hkx, (Hfs z Hz). cbn [bind]. apply Hx. exact Hz.
Qed.



End SortByKey.

(** ** Dictionaries *)

Section DictFacts.

Variables K V : Type.
Variable eqb : K -> K -> bool.
Hypothesis eqb_spec : forall a b, reflect (a = b) (eqb a b).

Lemma get_set_same (k : K) (v : V) (d : PyDict.dict K V) :
  PyDict.get eqb k (PyDict.set eqb k v d) = Some v.
Proof.
  induction d as [|[k' v'] d IH]; cbn [PyDict.set PyDict.get].
  - destruct (eqb_spec k k); congruence.
  - destruct (eqb_spec k' k) as [-> | Hne]; cbn [PyDict.get].
    + destruct (eqb_spec k k); congruence.
    + destruct (eqb_spec k' k); [contradiction | exact IH].
Qed.

Lemma get_set_other (k k0 : K) (v : V) (d : PyDict.dict K V) :
  k <> k0 ->
  PyDict.get eqb k (PyDict.set eqb k0 v d) = PyDict.get eqb k d.
Proof.
  intros Hne. induction d as [|[k' v'] d IH]; cbn [PyDict.set PyDict.get].
  - destruct (eqb_spec k0 k); congruence.
  - destruct (eqb_spec k' k0) as [-> | Hne']; cbn [PyDict.get].
    + destruct (eqb_spec k0 k); congruence.
    + destruct (eqb_spec k' k); [reflexivity | exact IH].
Qed.

Lemma setdefault_spec (k : K) (v x : V) (d d' : PyDict.dict K V) :
  PyDict.setdefault eqb k v d = (x, d') ->
  PyDict.get eqb k d' = Some x
  /\ (forall k', k' <> k -> PyDict.get eqb k' d' = PyDict.get eqb k' d)
  /\ (PyDict.get eqb k d = Some x \/ (PyDict.get eqb k d = None /\ x = v)).
Proof.
  unfold PyDict.setdefault.
  destruct (PyDict.get eqb k d) as [y|] eqn:Hget; intros H;
    injection H as <- <-.
  - auto.
  - split; [apply get_set_same|]. split; [|auto].
    intros k' Hne. apply get_set_other. exact Hne.
Qed.

End DictFacts.

(** ** The invariant of environments *)

Section EnvironmentInvariant.

Import pkg_resources.

Context {P : Packaging}.
Hypothesis version_order : TotalCmp version_compare.

Lemma class_eqb_spec (c1 c2 : DistributionType) :
  class_eqb c1 c2 = true <-> c1 = c2.
Proof. destruct c1, c2; cbn; split; congruence. Qed.

Lemma class_eqb_sym (c1 c2 : DistributionType) :
  class_eqb c1 c2 = class_eqb c2 c1.
Proof. destruct c1, c2; reflexivity. Qed.

(** [a == b] holds for distributions of one class with equal [hashcmp]
    tuples, and for no others: between a class and a subclass of it the
    method of the subclass answers, and finds the other operand to be no
    instance of its class. *)
Lemma Distribution_eq_spec (a b : Distribution) :
  Distribution_eq a b
  = if class_eqb (Distribution___class__ a) (Distribution___class__ b)
    then ha <- Distribution_hashcmp a ;;
         hb <- Distribution_hashcmp b ;;
         Ok (HashCmp_eqb ha hb)
    else Ok false.
Proof.
  unfold Distribution_eq, reflected_first, Distribution___eq__, isinstance,
    issubclass.
  destruct (Distribution___class__ a), (Distribution___class__ b);
    reflexivity.
Qed.

Lemma never_equal_sym (a b : Distribution) :
  never_equal a b -> never_equal b a.
Proof.
  unfold never_equal. rewrite !Distribution_eq_spec.
  rewrite (class_eqb_sym (Distribution___class__ b)).
  destruct (class_eqb _ _); [|auto].
  destruct (Distribution_hashcmp a) as [ha | e]; cbn [bind];
    [|discriminate].
  destruct (Distribution_hashcmp b) as [hb | e]; cbn [bind];
    [|discriminate].
  rewrite (@HashCmp_eqb_sym _ version_order hb ha). auto.
Qed.

Lemma list_contains_false (d : Distribution) (l : list Distribution) :
  list_contains d l = Ok false -> Forall (fun x => never_equal x d) l.
Proof.
  induction l as [|x l IH]; cbn [list_contains]; intros H.
  - constructor.
  - destruct (Distribution_eq x d) as [[|] | e] eqn:Hx; cbn [bind] in H;
      try discriminate.
    constructor; [exact Hx | apply IH; exact H].
Qed.


Lemma StronglySorted_snoc {A} (R : A -> A -> Prop) (l : list A) (x : A) :
  StronglySorted R l -> Forall (fun y => R y x) l ->
  StronglySorted R (l ++ [x]).
Proof.
  induction 1 as [|a l Hs IH Ha]; intros Hx; cbn [app].
  - constructor; constructor.
  - apply Forall_cons_iff in Hx as [Hax Hx]. constructor.
    + apply IH. exact Hx.
    + apply Forall_app. split; [exact Ha | constructor; [exact Hax|constructor]].
Qed.

Lemma StronglySorted_perm {A} (R : A -> A -> Prop) (l l' : list A) :
  (forall a b, R a b -> R b a) ->
  Permutation l l' -> StronglySorted R l -> StronglySorted R l'.
Proof.
  intros Hsym Hp. induction Hp as [| x l l' Hp IH | x y l | l l' l'' H1 IH1 H2 IH2];
    intros Hs.
  - constructor.
  - apply StronglySorted_inv in Hs as [Hs Hx]. constructor.
    + apply IH. exact Hs.
    + apply Forall_forall. intros z Hz. rewrite Forall_forall in Hx.
      apply Hx. apply (Permutation_in _ (Permutation_sym Hp)). exact Hz.
  - apply StronglySorted_inv in Hs as [Hs Hy].
    apply StronglySorted_inv in Hs as [Hs Hx].
    apply Forall_cons_iff in Hy as [Hyx Hy].
    constructor; [constructor; assumption|].
    constructor; [apply Hsym; exact Hyx | exact Hx].
  - auto.
Qed.


Lemma Environment_add_invariant (env env' : Environment)
      (dist : Distribution) :
  Environment_invariant env ->
  Environment_add env dist = Ok env' ->
  Environment_invariant env'.
Proof.
  intros Hinv. unfold Environment_add.
  destruct (Environment_can_add env dist && Distribution_has_version dist)
    eqn:Hguard; [|intros H; injection H as <-; exact Hinv].
  apply andb_true_iff in Hguard as [Hcan Hver].
  destruct (PyDict.setdefault String.eqb (Distribution_key dist) []
                              (Environment__distmap env))
    as [dists dm] eqn:Hsd.
  destruct (@setdefault_spec _ _ _ String.eqb_spec _ _ _ _ _ Hsd)
    as (Hget & Hother & Hold).
  assert (Hdists :
           Forall (fun d => Environment_can_add env d = true
                            /\ Distribution_has_version d = true
                            /\ Distribution_key d = Distribution_key dist)
                  dists
           /\ StronglySorted never_equal dists
           /\ StronglySorted not_below dists).
  { destruct Hold as [Hold | [_ ->]].
    - exact (Hinv _ _ Hold).
    - repeat split; constructor. }
  destruct Hdists as (Hall & Hneq & Hsorted).
  destruct (list_contains dist dists) as [[|] | e] eqn:Hin; cbn [bind negb];
    try discriminate.
  - (* already present *)
    intros H. injection H as <-. intros key l Hl.
    cbn [with_distmap Environment__distmap] in Hl.
    change (Environment_can_add (with_distmap env dm))
      with (Environment_can_add env).
    destruct (String.eqb_spec key (Distribution_key dist)) as [-> | Hne].
    + rewrite Hget in Hl. injection Hl as <-. auto.
    + rewrite (Hother _ Hne) in Hl. exact (Hinv _ _ Hl).
  - (* appended and sorted *)
    destruct (sort_desc_by HashCmp_lt Distribution_hashcmp (dists ++ [dist]))
      as [sorted | e] eqn:Hsort; cbn [bind]; try discriminate.
    intros H. injection H as <-. intros key l Hl.
    cbn [with_distmap Environment__distmap] in Hl.
    change (Environment_can_add
              (with_distmap env
                 (PyDict.set String.eqb (Distribution_key dist) sorted dm)))
      with (Environment_can_add env).
    destruct (String.eqb_spec key (Distribution_key dist)) as [-> | Hne].
    + rewrite (@get_set_same _ _ _ String.eqb_spec) in Hl. injection Hl as <-.
      destruct (@sort_desc_by_spec _ _ _ _
                  (@HashCmp_lt_asym _ version_order)
                  (@HashCmp_ge_trans _ version_order)
                  Distribution_hashcmp _ _ Hsort) as [Hperm Hss].
      split; [|split].
      * apply Forall_forall. intros d Hd.
        apply (Permutation_in _ Hperm) in Hd. apply in_app_or in Hd.
        destruct Hd as [Hd | [<- | []]]; [|auto].
        rewrite Forall_forall in Hall. apply Hall. exact Hd.
      * apply (StronglySorted_perm never_equal_sym (Permutation_sym Hperm)).
        apply StronglySorted_snoc; [exact Hneq|].
        apply list_contains_false. exact Hin.
      * exact Hss.
    + rewrite (@get_set_other _ _ _ String.eqb_spec _ _ _ _ Hne), (Hother _ Hne) in Hl.
      exact (Hinv _ _ Hl).
Qed.



End EnvironmentInvariant.

(** ** Sums of environments *)

Section EnvironmentSum.

Import pkg_resources.

Context {P : Packaging}.
Hypothesis version_order : TotalCmp version_compare.

Variable find_distributions : string -> bool -> list Distribution.
Variable sys_path : list string.

Lemma getitem_of_key (env : Environment) (d : Distribution) :
  Environment___getitem__ env (Distribution_key d)
  = match PyDict.get String.eqb (Distribution_key d)
                     (Environment__distmap env) with
    | Some dists => dists
    | None => []
    end.
Proof.
  unfold Environment___getitem__, Distribution_key.
  rewrite lower_idempotent. reflexivity.
Qed.

Lemma sort_desc_by_keys_defined {K A} (lt : K -> K -> Res bool)
      (key : A -> Res K) (l r : list A) :
  sort_desc_by lt key l = Ok r ->
  Forall (fun a => exists k, key a = Ok k) l.
Proof.
  unfold sort_desc_by. intros H.
  destruct (map_result (fun a => k <- key a ;; Ok (k, a)) l)
    as [keyed | e] eqn:Hkeyed; cbn [bind] in H; try discriminate.
  clear H. revert keyed Hkeyed.
  induction l as [|a l IH]; cbn [map_result]; intros keyed H.
  - constructor.
  - destruct (key a) as [k | e] eqn:Hk; cbn [bind] in H; try discriminate.
    destruct (map_result (fun a => k <- key a ;; Ok (k, a)) l)
      as [rest | e]; cbn [bind] in H; try discriminate.
    constructor; [eauto | eapply IH; reflexivity].
Qed.

Lemma Distribution_eq_refl (d : Distribution) (h : HashCmp) :
  Distribution_hashcmp d = Ok h -> Distribution_eq d d = Ok true.
Proof.
  intros H. rewrite (@Distribution_eq_spec _ d d).
  rewrite (proj2 (class_eqb_spec _ _) eq_refl), H. cbn [bind].
  rewrite (@HashCmp_eqb_spec _ h h),
    (TotalCmp_refl (@TotalCmp_HashCmp _ version_order)).
  reflexivity.
Qed.





(** *** When a sum of environments returns *)







End EnvironmentSum.

(** ** The small instance is an instance *)

Section SmallVersions.

Lemma TotalCmp_on {A B} (f : A -> B) (cmp : B -> B -> comparison) :
  TotalCmp cmp -> TotalCmp (fun a b => cmp (f a) (f b)).
Proof.
  intros H. constructor.
  - intros a b. apply (cmp_antisym H).
  - intros o a b c. apply (cmp_trans H).
  - intros a b c. apply (cmp_eq_l H).
Qed.

Lemma list_compare_antisym (a b : list nat) :
  Small.list_compare b a = CompOpp (Small.list_compare a b).
Proof.
  revert b. induction a as [|x a IH]; intros [|y b]; cbn; try reflexivity.
  rewrite (cmp_antisym TotalCmp_nat x y).
  destruct (Nat.compare x y); cbn; auto.
Qed.

Lemma list_compare_eq (a b : list nat) :
  Small.list_compare a b = Eq -> a = b.
Proof.
  revert b. induction a as [|x a IH]; intros [|y b]; cbn; try discriminate;
    [reflexivity|].
  destruct (Nat.compare x y) eqn:E; try discriminate.
  apply Nat.compare_eq in E. intros H. f_equal; auto.
Qed.

Lemma list_compare_lt_trans (a b c : list nat) :
  Small.list_compare a b = Lt -> Small.list_compare b c = Lt ->
  Small.list_compare a c = Lt.
Proof.
  revert b c. induction a as [|x a IH]; intros [|y b] [|z c]; cbn;
    try discriminate; try reflexivity.
  destruct (Nat.compare x y) eqn:E1; try discriminate;
    destruct (Nat.compare y z) eqn:E2; try discriminate; intros H1 H2.
  - apply Nat.compare_eq in E1, E2. subst.
    rewrite Nat.compare_refl. eapply IH; eauto.
  - apply Nat.compare_eq in E1. subst. rewrite E2. reflexivity.
  - apply Nat.compare_eq in E2. subst. rewrite E1. reflexivity.
  - rewrite (cmp_trans TotalCmp_nat x y z E1 E2). reflexivity.
Qed.

Lemma TotalCmp_list_compare : TotalCmp Small.list_compare.
Proof.
  assert (Hrefl : forall a, Small.list_compare a a = Eq).
  { induction a as [|x a IH]; cbn; [reflexivity|].
    rewrite Nat.compare_refl. exact IH. }
  constructor.
  - exact list_compare_antisym.
  - intros o a b c. destruct o; intros H1 H2.
    + apply list_compare_eq in H1. subst. exact H2.
    + eapply list_compare_lt_trans; eauto.
    + rewrite list_compare_antisym in H1, H2 |- *.
      destruct (Small.list_compare b a) eqn:E1; try discriminate.
      destruct (Small.list_compare c b) eqn:E2; try discriminate.
      rewrite (list_compare_lt_trans _ _ _ E2 E1). reflexivity.
  - intros a b c H. apply list_compare_eq in H. subst. reflexivity.
Qed.

Lemma small_version_order :
  TotalCmp (@version_compare Small.packaging).
Proof.
  exact (TotalCmp_on Small.strip_zeros TotalCmp_list_compare).
Qed.

End SmallVersions.



(** ** Working sets and resolution *)

Section Resolution.

Import pkg_resources.

Context {P : Packaging}.

Variable find_distributions : string -> bool -> list Distribution.
Variable sys_path : list string.
Variable supported_platform : option string.
Variable PY_MAJOR : string.
Variable insert_on :
  Distribution -> list string -> option string -> bool -> list string.

Local Abbreviation resolve :=
  (WorkingSet_resolve find_distributions sys_path supported_platform
                      PY_MAJOR insert_on).
Local Abbreviation ws_add := (WorkingSet_add insert_on).
Local Abbreviation ws_init :=
  (WorkingSet___init__ find_distributions sys_path insert_on).

(** [add] keeps the working set well formed, and a new working set is. *)
Lemma WorkingSet_add_wf (ws : WorkingSet) (dist : Distribution)
      (entry : option string) (insert replace : bool) :
  WorkingSet_wf ws -> WorkingSet_wf (ws_add ws dist entry insert replace).
Proof.
  intros Hwf. unfold WorkingSet_add.
  destruct (negb replace && _); [exact Hwf|].
  intros name key. cbn [WorkingSet_normalized_to_canonical_keys].
  destruct (String.eqb_spec name
              (packaging_utils.canonicalize_name (Distribution_key dist)))
    as [-> | Hne].
  - rewrite (@get_set_same _ _ _ String.eqb_spec). intros H.
    injection H as <-. split; [reflexivity|].
    apply lower_idempotent.
  - rewrite (@get_set_other _ _ _ String.eqb_spec _ _ _ _ Hne).
    apply Hwf.
Qed.

Lemma fold_add_wf (entry : string) (dists : list Distribution)
      (ws : WorkingSet) :
  WorkingSet_wf ws ->
  WorkingSet_wf
    (fold_left (fun ws dist => ws_add ws dist (Some entry) false false)
               dists ws).
Proof.
  revert ws. induction dists as [|d dists IH]; cbn [fold_left]; intros ws H.
  - exact H.
  - apply IH. apply WorkingSet_add_wf. exact H.
Qed.

Lemma WorkingSet_init_wf (entries : option (list string)) :
  WorkingSet_wf (ws_init entries).
Proof.
  unfold WorkingSet___init__.
  set (es := match entries with Some es => es | None => sys_path end).
  assert (H0 : WorkingSet_wf
                 {| WorkingSet_entries := [];
                    WorkingSet_entry_keys := [];
                    WorkingSet_by_key := [];
                    WorkingSet_normalized_to_canonical_keys := [] |})
    by (intros name key H; discriminate).
  revert H0. generalize (mkWorkingSet (P:=P) [] [] [] []).
  induction es as [|e es IH]; cbn [fold_left]; intros ws H.
  - exact H.
  - apply IH. unfold WorkingSet_add_entry. apply fold_add_wf. exact H.
Qed.

(** In a well-formed working set with nothing active under [pkg], [find]
    finds nothing for a requirement on [pkg]. *)
Lemma find_nothing_for_pkg (ws : WorkingSet) (req : Requirement) :
  WorkingSet_wf ws ->
  PyDict.get String.eqb "pkg" (WorkingSet_by_key ws) = None ->
  Requirement_key req = "pkg" ->
  WorkingSet_find ws req = (req, Ok None).
Proof.
  intros Hwf Hnone Hkey. unfold WorkingSet_find, find_candidates.
  rewrite Hkey.
  assert (Hs : replace_char "." "-" (safe_name "pkg") = "pkg")
    by reflexivity.
  rewrite Hs.
  destruct (PyDict.get String.eqb "pkg"
                       (WorkingSet_normalized_to_canonical_keys ws))
    as [k|] eqn:Hk.
  - destruct (Hwf _ _ Hk) as [Hc Hl].
    rewrite (canonical_key_without_dash Hc Hl eq_refl).
    cbn [app filter PyStr.bool_of_str find_candidate].
    rewrite Hnone. reflexivity.
  - cbn [app filter PyStr.bool_of_str find_candidate].
    rewrite Hnone. reflexivity.
Qed.

(** C1: in a working set with no active distribution for the key [pkg],
    resolving the one requirement [pkg>=1.0], which has no marker and
    whose specifier does not contain 0.9, against an environment whose
    only candidate for the key is [pkg 0.9], with no installer, raises
    [DistributionNotFound] for the requirement, with no requirers, and
    not a version conflict. *)
Theorem C1_resolve_raises_distribution_not_found
        (fuel : nat) (ws : WorkingSet) (env : Environment)
        (req : Requirement) (d : Distribution)
        (replace_conflicting : bool) (extras : option (list string)) :
  WorkingSet_wf ws ->
  PyDict.get String.eqb "pkg" (WorkingSet_by_key ws) = None ->
  Requirement_key req = "pkg" ->
  Requirement_marker req = None ->
  specifier_contains (Requirement_specifier req) "0.9" true = Ok false ->
  Environment___getitem__ env "pkg" = [d] ->
  Distribution_key d = "pkg" ->
  Distribution__version d = Some "0.9" ->
  resolve (S fuel) ws [req] (Some env) None replace_conflicting extras
  = Some (Raise (DistributionNotFound req None)).
Proof.
  intros Hwf Hnone Hkey Hmarker Hspec Henv Hdkey Hdver.
  assert (Hin : Requirement___contains__ req d = Ok false).
  { unfold Requirement___contains__, Distribution_version.
    rewrite Hdkey, Hkey, Hdver. cbn. rewrite Hspec. reflexivity. }
  unfold WorkingSet_resolve.
  cbn [List.rev app resolve_loop rs_requirements rs_processed rs_req_extras
       rs_best rs_required_by rs_to_activate req_in existsb].
  rewrite (@markers_pass_without_marker _ _ _ _ Hmarker). cbn [negb].
  unfold WorkingSet__resolve_dist.
  rewrite Hkey. cbn [PyDict.get]. rewrite Hnone.
  unfold Environment_best_match.
  cbn [bind]. rewrite (@find_nothing_for_pkg _ _ Hwf Hnone Hkey).
  rewrite Hkey, Henv. cbn [first_match]. rewrite Hin.
  cbn [bind Environment_obtain PyDict.get]. reflexivity.
Qed.

(** C2: in a working set where [pkg 0.5] is active under the key [pkg],
    resolving the requirement [pkg>=1.0], which has no marker and whose
    specifier does not contain 0.5, with [replace_conflicting=False]
    raises the [VersionConflict] that carries the active distribution and
    the requirement. *)
Theorem C2_resolve_raises_version_conflict
        (fuel : nat) (ws : WorkingSet) (env : option Environment)
        (installer : option (Requirement -> option Distribution))
        (req : Requirement) (d : Distribution)
        (extras : option (list string)) :
  PyDict.get String.eqb "pkg" (WorkingSet_by_key ws) = Some d ->
  Distribution_key d = "pkg" ->
  Distribution__version d = Some "0.5" ->
  Requirement_key req = "pkg" ->
  Requirement_marker req = None ->
  specifier_contains (Requirement_specifier req) "0.5" true = Ok false ->
  resolve (S fuel) ws [req] env installer false extras
  = Some (Raise (VersionConflict d req)).
Proof.
  intros Hactive Hdkey Hdver Hkey Hmarker Hspec.
  assert (Hin : Requirement___contains__ req d = Ok false).
  { unfold Requirement___contains__, Distribution_version.
    rewrite Hdkey, Hkey, Hdver. cbn. rewrite Hspec. reflexivity. }
  unfold WorkingSet_resolve.
  cbn [List.rev app resolve_loop rs_requirements rs_processed rs_req_extras
       rs_best rs_required_by rs_to_activate req_in existsb].
  rewrite (@markers_pass_without_marker _ _ _ _ Hmarker). cbn [negb].
  unfold WorkingSet__resolve_dist.
  rewrite Hkey. cbn [PyDict.get]. rewrite Hactive, Hin.
  cbn [bind negb andb]. rewrite Hin.
  cbn [bind negb required_by_get PyDict.get with_context]. reflexivity.
Qed.

End Resolution.

(** ** Extraction of zipped resources *)

Section ZipExtraction.

Import pkg_resources.

Variable os_name : string.
Variable os_sep : ascii.
Variable os_path_join : string -> list string -> string.
Variable os_path_split : string -> string * string.
Variable time_mktime : list Z -> Z.
Variable WRITE_SUPPORT : bool.
Variable default_cache : string.
Variable mkstemp_name : FileSystem -> string -> string -> string.
Variable _warn_unsafe_extraction_path :
  FileSystem -> string -> result builtin_exn unit.

Local Abbreviation ensure_directory :=
  (_bypass_ensure_directory os_path_split WRITE_SUPPORT).
Local Abbreviation cache_path :=
  (get_cache_path os_path_join os_path_split WRITE_SUPPORT default_cache
                  _warn_unsafe_extraction_path).
Local Abbreviation destination := (target_path os_path_join default_cache).
Local Abbreviation current := (_is_current time_mktime).
Local Abbreviation member :=
  (extract_member os_name os_sep os_path_join os_path_split time_mktime
                  WRITE_SUPPORT default_cache mkstemp_name
                  _warn_unsafe_extraction_path).
Local Abbreviation each :=
  (extract_each os_path_join os_path_split).
Local Abbreviation extract :=
  (_extract_resource os_name os_sep os_path_join os_path_split time_mktime
                     WRITE_SUPPORT default_cache mkstemp_name
                     _warn_unsafe_extraction_path).
Local Abbreviation parts := (_parts os_sep).
Local Abbreviation index := (_index os_sep).

Lemma ensure_directory_keeps_files (fuel : nat) (fs fs' : FileSystem)
      (path : string) :
  ensure_directory fuel fs path = Ok fs' -> fs_files fs' = fs_files fs.
Proof.
  revert fs fs' path. induction fuel as [|fuel IH]; intros fs fs' path;
    cbn [_bypass_ensure_directory];
    destruct (negb WRITE_SUPPORT); try discriminate;
    destruct (os_path_split path) as [dirname filename];
    destruct (PyStr.bool_of_str dirname && PyStr.bool_of_str filename
              && negb (isdir fs dirname));
    try discriminate; try (intros H; injection H as <-; reflexivity).
  destruct (_bypass_ensure_directory os_path_split WRITE_SUPPORT fuel fs
                                     dirname) as [fs1 | e] eqn:H1;
    cbn [bind]; try discriminate.
  pose proof (IH _ _ _ H1) as Hfiles.
  unfold mkdir. destruct (isdir fs1 dirname || isfile fs1 dirname).
  - intros H. injection H as <-. exact Hfiles.
  - intros H. injection H as <-. exact Hfiles.
Qed.

Lemma destination_depends_on_extraction_path (m m' : ResourceManager)
      (archive_name : string) (names : list string) :
  ResourceManager_extraction_path m = ResourceManager_extraction_path m' ->
  destination m archive_name names = destination m' archive_name names.
Proof. unfold target_path. intros ->. reflexivity. Qed.

(** [get_cache_path] touches no file and leaves the extraction path of
    the manager as it is; when it returns, it returns the destination. *)
Lemma cache_path_spec (w w' : World) (archive_name : string)
      (names : list string) (r : result zip_exn string) :
  cache_path w archive_name names = (r, w') ->
  fs_files (fst w') = fs_files (fst w)
  /\ ResourceManager_extraction_path (snd w')
     = ResourceManager_extraction_path (snd w)
  /\ forall p, r = Ok p -> p = destination (snd w) archive_name names.
Proof.
  destruct w as [fs mgr]. unfold get_cache_path.
  destruct (_bypass_ensure_directory _ _ _ _ _) as [fs1 | e] eqn:Hdir.
  - pose proof (ensure_directory_keeps_files _ _ _ Hdir) as Hfiles.
    destruct (_warn_unsafe_extraction_path fs1 _) as [u | e];
      intros H; injection H as <- <-; cbn [fst snd];
      repeat split; auto; try discriminate.
    intros p Hp. injection Hp as <-. reflexivity.
  - intros H. injection H as <- <-. repeat split; auto. discriminate.
Qed.

Lemma current_depends_on_files (self : ZipProvider) (fs fs' : FileSystem)
      (file_path zip_path : string) :
  fs_files fs' = fs_files fs ->
  current self fs' file_path zip_path = current self fs file_path zip_path.
Proof. intros H. unfold _is_current, files_get. rewrite H. reflexivity. Qed.

(** One member: the outcome, the extraction path, and the files when the
    cached file is current. *)
Lemma member_spec (self : ZipProvider) (w w' : World) (zip_path : string)
      (r : result zip_exn string) :
  member self w zip_path = (r, w') ->
  ResourceManager_extraction_path (snd w')
  = ResourceManager_extraction_path (snd w)
  /\ (forall p, r = Ok p ->
        exists egg_name names,
          ZipProvider_egg_name self = Some egg_name
          /\ parts self zip_path = Ok names
          /\ p = destination (snd w) egg_name names)
  /\ (forall egg_name names,
        ZipProvider_egg_name self = Some egg_name ->
        parts self zip_path = Ok names ->
        current self (fst w) (destination (snd w) egg_name names) zip_path
        = Ok true ->
        fs_files (fst w') = fs_files (fst w)).
Proof.
  unfold extract_member.
  destruct (zipinfo_get self zip_path) as [zi | e] eqn:Hzi.
  2:{ intros H. injection H as <- <-. repeat split; auto; discriminate. }
  destruct (_get_date_and_size time_mktime zi) as [timestamp size].
  destruct (negb WRITE_SUPPORT).
  { intros H. injection H as <- <-. repeat split; auto; discriminate. }
  destruct (ZipProvider_egg_name self) as [egg_name|].
  2:{ intros H. injection H as <- <-. repeat split; auto; discriminate. }
  destruct (negb (PyStr.bool_of_str egg_name)).
  { intros H. injection H as <- <-. repeat split; auto; discriminate. }
  destruct (_parts os_sep self zip_path) as [names | e].
  2:{ intros H. injection H as <- <-. repeat split; auto; discriminate. }
  destruct (get_cache_path _ _ _ _ _ w egg_name names) as [rc wc] eqn:Hc.
  destruct (cache_path_spec _ _ _ Hc) as (Hfiles & Hpath & Hdest).
  destruct rc as [real_path | e].
  2:{ intros H. injection H as <- <-. repeat split; auto; discriminate. }
  specialize (Hdest _ eq_refl). subst real_path.
  destruct wc as [fs mgr]. cbn [fst snd] in *.
  destruct (_is_current time_mktime self fs _ zip_path)
    as [[|] | e] eqn:Hcur.
  - intros H. injection H as <- <-. cbn [fst snd]. repeat split; auto.
    intros p Hp. injection Hp as <-. eauto.
  - destruct (extract_file _ _ _ _ _ _ _ _ _) as [[p | e] fs1] eqn:Hx;
      intros H; injection H as <- <-; cbn [fst snd].
    + repeat split; auto.
      * intros p' Hp. injection Hp as <-. exists egg_name, names.
        repeat split; auto.
        unfold extract_file in Hx.
        repeat match type of Hx with
               | context [match ?x with _ => _ end] =>
                   destruct x; try discriminate
               end; injection Hx as <- _; reflexivity.
      * intros egg' names' He Hn Hcur'. injection He as <-.
        injection Hn as <-.
        rewrite <- (@current_depends_on_files self _ _ _ _ Hfiles) in Hcur'.
        congruence.
    + repeat split; auto; try discriminate.
      intros egg' names' He Hn Hcur'. injection He as <-.
      injection Hn as <-.
      rewrite <- (@current_depends_on_files self _ _ _ _ Hfiles) in Hcur'.
      congruence.
  - intros H. injection H as <- <-. cbn [fst snd]. repeat split; auto;
      discriminate.
Qed.

(** The loop over a directory inherits what holds of the extraction of
    its members. *)
Lemma each_spec
      (E : World -> string -> option (result zip_exn string * World)) :
  (forall w z r w',
      E w z = Some (r, w') ->
      ResourceManager_extraction_path (snd w')
      = ResourceManager_extraction_path (snd w)) ->
  (forall w w0 z p p0 w' w0',
      ResourceManager_extraction_path (snd w)
      = ResourceManager_extraction_path (snd w0) ->
      E w z = Some (Ok p, w') -> E w0 z = Some (Ok p0, w0') -> p = p0) ->
  forall zip_path names last,
    (forall w r w',
        each E zip_path names last w = Some (r, w') ->
        ResourceManager_extraction_path (snd w')
        = ResourceManager_extraction_path (snd w))
    /\ (forall w w0 p p0 w' w0',
           ResourceManager_extraction_path (snd w)
           = ResourceManager_extraction_path (snd w0) ->
           each E zip_path names last w = Some (Ok p, w') ->
           each E zip_path names last w0 = Some (Ok p0, w0') -> p = p0).
Proof.
  intros HE1 HE2 zip_path names.
  induction names as [|name rest IH]; intros last; cbn [extract_each].
  - split.
    + intros w r w' H. destruct last; injection H as <- <-; reflexivity.
    + intros w w0 p p0 w' w0' _ H H0.
      destruct last; [|discriminate].
      injection H as <- _. injection H0 as <- _. reflexivity.
  - split.
    + intros w r w' H.
      destruct (E w (os_path_join zip_path [name])) as [[[l | e] w1]|] eqn:H1;
        try discriminate.
      * destruct (IH (Some l)) as [IH1 _].
        rewrite (IH1 _ _ _ H). exact (HE1 _ _ _ _ H1).
      * injection H as <- <-. exact (HE1 _ _ _ _ H1).
    + intros w w0 p p0 w' w0' Hext H H0.
      destruct (E w (os_path_join zip_path [name])) as [[[l | e] w1]|] eqn:H1;
        try discriminate.
      destruct (E w0 (os_path_join zip_path [name]))
        as [[[l0 | e0] w01]|] eqn:H01; try discriminate.
      pose proof (HE2 _ _ _ _ _ _ _ Hext H1 H01) as <-.
      destruct (IH (Some l)) as [_ IH2].
      apply (IH2 w1 w01 p p0 w' w0'); auto.
      rewrite (HE1 _ _ _ _ H1), (HE1 _ _ _ _ H01). exact Hext.
Qed.

(** An extraction leaves the extraction path of the manager as it is,
    and the path it returns depends on nothing else in the world. *)
Lemma extract_spec (self : ZipProvider) (fuel : nat) :
  (forall w z r w',
      extract fuel self w z = Some (r, w') ->
      ResourceManager_extraction_path (snd w')
      = ResourceManager_extraction_path (snd w))
  /\ (forall w w0 z p p0 w' w0',
         ResourceManager_extraction_path (snd w)
         = ResourceManager_extraction_path (snd w0) ->
         extract fuel self w z = Some (Ok p, w') ->
         extract fuel self w0 z = Some (Ok p0, w0') -> p = p0).
Proof.
  induction fuel as [|fuel [IH1 IH2]]; cbn [_extract_resource].
  - split; intros; discriminate.
  - split.
    + intros w z r w' H.
      destruct (PyDict.get String.eqb z (index self)) as [names|].
      * destruct (each_spec _ IH1 IH2 z names None) as [H1 _].
        exact (H1 _ _ _ H).
      * injection H as H. destruct (member_spec _ _ _ H) as (Hp & _).
        exact Hp.
    + intros w w0 z p p0 w' w0' Hext H H0.
      destruct (PyDict.get String.eqb z (index self)) as [names|].
      * destruct (each_spec _ IH1 IH2 z names None) as [_ H2].
        exact (H2 _ _ _ _ _ _ Hext H H0).
      * injection H as H. injection H0 as H0.
        destruct (member_spec _ _ _ H) as (_ & Hd & _).
        destruct (member_spec _ _ _ H0) as (_ & Hd0 & _).
        destruct (Hd _ eq_refl) as (egg & names & He & Hn & ->).
        destruct (Hd0 _ eq_refl) as (egg0 & names0 & He0 & Hn0 & ->).
        rewrite He in He0. injection He0 as <-.
        rewrite Hn in Hn0. injection Hn0 as <-.
        apply destination_depends_on_extraction_path. exact Hext.
Qed.

(** C5 (amended): extracting the same resource twice returns the same
    cache path; and when the resource is a file of the archive and the
    file already at that path is current, the second extraction leaves
    every file as it is.  Current means what [_is_current] checks: the
    file exists, its size and modification time are those recorded for
    the archive member, and its contents are the member's data. *)
Theorem C5_second_extraction_reuses_current_file
        (self : ZipProvider) (fuel : nat) (w1 w2 w3 : World)
        (zip_path p1 p2 : string) :
  extract fuel self w1 zip_path = Some (Ok p1, w2) ->
  extract fuel self w2 zip_path = Some (Ok p2, w3) ->
  p1 = p2
  /\ (PyDict.get String.eqb zip_path (index self) = None ->
      current self (fst w2) p1 zip_path = Ok true ->
      fs_files (fst w3) = fs_files (fst w2)).
Proof.
  intros H1 H2. destruct (extract_spec self fuel) as [Hext Hdet].
  pose proof (Hext _ _ _ _ H1) as Hpath.
  split; [exact (Hdet _ _ _ _ _ _ _ (eq_sym Hpath) H1 H2)|].
  intros Hfile Hcur. destruct fuel as [|fuel]; [discriminate|].
  cbn [_extract_resource] in H1, H2. rewrite Hfile in H1, H2.
  injection H1 as H1. injection H2 as H2.
  destruct (member_spec _ _ _ H1) as (_ & Hd & _).
  destruct (Hd _ eq_refl) as (egg & names & He & Hn & Hp).
  destruct (member_spec _ _ _ H2) as (_ & _ & Hkeep).
  apply (Hkeep egg names He Hn).
  rewrite (destination_depends_on_extraction_path _ _ _ _ Hpath), <- Hp.
  exact Hcur.
Qed.

End ZipExtraction.

(** C5 on the small instance: the cache holds a stale file; the first
    extraction refreshes it, the second returns the same path and changes
    no file. *)
Lemma C5_second_extraction_reuses_current_file_witness :
  Inputs.extract 2 Inputs.egg (Inputs.stale_fs, Inputs.manager) "data/x.txt"
  = Some (Ok Inputs.cached_path, Inputs.refreshed)
  /\ Inputs.extract 2 Inputs.egg Inputs.refreshed "data/x.txt"
     = Some (Ok Inputs.cached_path, Inputs.refreshed)
  /\ pkg_resources.fs_files (fst Inputs.refreshed)
     = pkg_resources.fs_files (fst Inputs.refreshed).
Proof.
  split; [reflexivity|]. split; [reflexivity|].
  apply (@C5_second_extraction_reuses_current_file
           "posix" "/" Small.posix_join Small.posix_split Inputs.mktime true
           "/cache" Inputs.temp_name (fun _ _ => Ok tt)
           Inputs.egg 2 (Inputs.stale_fs, Inputs.manager) Inputs.refreshed
           Inputs.refreshed "data/x.txt" Inputs.cached_path Inputs.cached_path);
    reflexivity.
Defined.

(** C5, as the claim states it, fails: the file in the cache has the size
    and the modification time recorded for the member, so it is current in
    the claim's sense, yet its contents differ and the extraction rewrites
    it. *)
Lemma C5_same_size_and_time_is_rewritten :
  pkg_resources.size_and_time_match Inputs.mktime Inputs.egg Inputs.stale_fs
    Inputs.cached_path "data/x.txt" = true
  /\ Inputs.extract 2 Inputs.egg (Inputs.stale_fs, Inputs.manager) "data/x.txt"
     = Some (Ok Inputs.cached_path, Inputs.refreshed)
  /\ pkg_resources.fs_files (fst Inputs.refreshed)
     <> pkg_resources.fs_files Inputs.stale_fs.
Proof.
  split; [reflexivity|]. split; [reflexivity|].
  cbn. intros H. discriminate.
Qed.

(** C1 on the small instance: nothing is active, the environment holds
    [pkg 0.9] only, and [pkg>=1.0] is what the parser reads. *)
Lemma C1_resolve_raises_distribution_not_found_witness :
  pkg_resources.Requirement_parse (P := Small.packaging) "pkg>=1.0"
  = Ok Inputs.pkg_ge_1_0
  /\ Inputs.resolve 1 Inputs.empty_working_set [Inputs.pkg_ge_1_0]
       (Some Inputs.env_with_0_9) None false None
     = Some (Raise (pkg_resources.DistributionNotFound Inputs.pkg_ge_1_0 None)).
Proof.
  split; [reflexivity|].
  apply (@C1_resolve_raises_distribution_not_found
           Small.packaging Inputs.no_distributions [] None "3.12"
           Inputs.keep_path 0 Inputs.empty_working_set Inputs.env_with_0_9
           Inputs.pkg_ge_1_0 Inputs.pkg_0_9 false None);
    try reflexivity.
  intros name key H. discriminate.
Defined.

(** C2 on the small instance: [pkg 0.5] has been added to the working
    set. *)
Lemma C2_resolve_raises_version_conflict_witness :
  Inputs.resolve 1 Inputs.working_set_with_0_5 [Inputs.pkg_ge_1_0]
    (Some Inputs.env_with_both) None false None
  = Some (Raise (pkg_resources.VersionConflict Inputs.pkg_0_5
                                               Inputs.pkg_ge_1_0)).
Proof.
  apply (@C2_resolve_raises_version_conflict
           Small.packaging Inputs.no_distributions [] None "3.12"
           Inputs.keep_path 0 Inputs.working_set_with_0_5
           (Some Inputs.env_with_both) None Inputs.pkg_ge_1_0 Inputs.pkg_0_5
           None); reflexivity.
Defined.

(* ================================================================== *)
(** * Part III: further properties of the two modules *)
(* ================================================================== *)

(** ** Names, extras and hashes as text *)

Section RunsOfCharacters.

Import packaging_utils.

Variable p : ascii -> bool.
Variable r : ascii.
Hypothesis p_r : p r = true.

Local Abbreviation repl := (String r EmptyString).

(** Replacing runs a second time changes nothing: what the first pass
    leaves of the class are single replacement characters. *)
Lemma sub_runs_twice (s : string) :
  (forall b, sub_runs p repl b (sub_runs p repl true s)
             = sub_runs p repl true s)
  /\ sub_runs p repl false (sub_runs p repl false s)
     = sub_runs p repl false s.
Proof.
  induction s as [|c s [IHt IHf]]; cbn [sub_runs].
  - split; reflexivity.
  - destruct (p c) eqn:Hc.
    + split; [exact IHt|].
      cbn [String.append sub_runs]. rewrite p_r, (IHt true). reflexivity.
    + cbn [sub_runs]. rewrite Hc, IHf. split; reflexivity.
Qed.

Lemma sub_runs_chars (c : ascii) (b : bool) (s : string) :
  PyStr.contains_char c (sub_runs p repl b s) = true ->
  c = r \/ (p c = false /\ PyStr.contains_char c s = true).
Proof.
  revert b. induction s as [|d s IH]; intros b; cbn [sub_runs].
  - discriminate.
  - cbn [PyStr.contains_char].
    destruct (p d) eqn:Hd; [destruct b|].
    + intros H. destruct (IH _ H) as [-> | [Hp Hc]]; [auto|].
      right. rewrite Hc, orb_true_r. auto.
    + cbn [String.append PyStr.contains_char]. intros H.
      apply orb_true_iff in H as [H | H].
      * left. apply Ascii.eqb_eq. exact H.
      * destruct (IH _ H) as [-> | [Hp Hc]]; [auto|].
        right. rewrite Hc, orb_true_r. auto.
    + cbn [PyStr.contains_char]. intros H.
      apply orb_true_iff in H as [H | H].
      * apply Ascii.eqb_eq in H. subst d. right.
        rewrite Ascii.eqb_refl. auto.
      * destruct (IH _ H) as [-> | [Hp Hc]]; [auto|].
        right. rewrite Hc, orb_true_r. auto.
Qed.

(** A text without characters of the class is left as it is. *)
Lemma sub_runs_clean (b : bool) (s : string) :
  (forall c, PyStr.contains_char c s = true -> p c = false) ->
  sub_runs p repl b s = s.
Proof.
  revert b. induction s as [|d s IH]; intros b H; cbn [sub_runs].
  - reflexivity.
  - rewrite (H d) by (cbn; rewrite Ascii.eqb_refl; reflexivity).
    rewrite IH; [reflexivity|].
    intros c Hc. apply H. cbn. rewrite Hc, orb_true_r. reflexivity.
Qed.

Hypothesis p_lower : forall c, p (PyStr.lower_char c) = p c.
Hypothesis r_lower : PyStr.lower_char r = r.

Lemma sub_runs_lower (b : bool) (s : string) :
  sub_runs p repl b (PyStr.lower s) = PyStr.lower (sub_runs p repl b s).
Proof.
  revert b. induction s as [|c s IH]; intros b; cbn [sub_runs PyStr.lower].
  - reflexivity.
  - rewrite p_lower. destruct (p c); [destruct b|].
    + apply IH.
    + cbn [String.append PyStr.lower]. rewrite r_lower, IH. reflexivity.
    + cbn [PyStr.lower]. rewrite IH. reflexivity.
Qed.

End RunsOfCharacters.

Section SafeNames.

Import packaging_utils pkg_resources.

Lemma contains_char_lower (c : ascii) (s : string) :
  PyStr.contains_char c (PyStr.lower s) = true ->
  exists d, PyStr.contains_char d s = true /\ c = PyStr.lower_char d.
Proof.
  induction s as [|e s IH]; cbn [PyStr.lower PyStr.contains_char].
  - discriminate.
  - intros H. apply orb_true_iff in H as [H | H].
    + apply Ascii.eqb_eq in H. exists e.
      rewrite Ascii.eqb_refl. auto.
    + destruct (IH H) as [d [Hd ->]]. exists d.
      rewrite Hd, orb_true_r. auto.
Qed.


(** [safe_name] yields a normal form: only letters, digits, dots and
    dashes are left, a second application changes nothing, and a name
    made of letters, digits and dots is returned as it is. *)
Theorem safe_name_normal_form (name : string) :
  safe_name (safe_name name) = safe_name name
  /\ (forall c, PyStr.contains_char c (safe_name name) = true ->
                Re.ascii_alnum c || Ascii.eqb c "." || Ascii.eqb c "-" = true)
  /\ ((forall c, PyStr.contains_char c name = true ->
                 Re.ascii_alnum c || Ascii.eqb c "." = true) ->
      safe_name name = name).
Proof.
  unfold safe_name. split; [|split].
  - apply (@sub_runs_twice not_alnum_dot "-" eq_refl).
  - intros c H. apply sub_runs_chars in H. destruct H as [-> | [Hp _]].
    + reflexivity.
    + unfold not_alnum_dot in Hp. apply negb_false_iff in Hp.
      rewrite Hp. reflexivity.
  - intros H. apply sub_runs_clean. intros c Hc.
    unfold not_alnum_dot. rewrite (H c Hc). reflexivity.
Qed.

Lemma not_alnum_dot_dash_lower (c : ascii) :
  not_alnum_dot_dash (PyStr.lower_char c) = not_alnum_dot_dash c.
Proof. destruct c as [[|] [|] [|] [|] [|] [|] [|] [|]]; reflexivity. Qed.

(** The characters [safe_extra] can return. *)
Lemma extra_char_lower (d : ascii) :
  Ascii.eqb d "_" || negb (not_alnum_dot_dash d) = true ->
  (Re.digit (PyStr.lower_char d) || PyStr.between 97 122 (PyStr.lower_char d)
   || Ascii.eqb (PyStr.lower_char d) "."
   || Ascii.eqb (PyStr.lower_char d) "-"
   || Ascii.eqb (PyStr.lower_char d) "_") = true.
Proof. destruct d as [[|] [|] [|] [|] [|] [|] [|] [|]]; cbn; auto. Qed.

Lemma safe_extra_idempotent (extra : string) :
  safe_extra (safe_extra extra) = safe_extra extra.
Proof.
  unfold safe_extra.
  rewrite (@sub_runs_lower not_alnum_dot_dash "_" not_alnum_dot_dash_lower
             eq_refl).
  rewrite lower_idempotent.
  destruct (@sub_runs_twice not_alnum_dot_dash "_" eq_refl extra) as [_ ->].
  reflexivity.
Qed.

(** [safe_extra] yields a normal form in lower case: only the letters
    [a-z], digits, dots, dashes and underscores are left, and a second
    application changes nothing. *)
Theorem safe_extra_normal_form (extra : string) :
  safe_extra (safe_extra extra) = safe_extra extra
  /\ PyStr.lower (safe_extra extra) = safe_extra extra
  /\ forall c, PyStr.contains_char c (safe_extra extra) = true ->
               (Re.digit c || PyStr.between 97 122 c
                || Ascii.eqb c "." || Ascii.eqb c "-" || Ascii.eqb c "_")
               = true.
Proof.
  split; [apply safe_extra_idempotent|]. unfold safe_extra. split.
  - apply lower_idempotent.
  - intros c H. apply contains_char_lower in H. destruct H as [d [Hd ->]].
    apply extra_char_lower. apply sub_runs_chars in Hd.
    destruct Hd as [-> | [Hp _]]; [reflexivity|].
    rewrite Hp. apply orb_true_r.
Qed.

End SafeNames.

Section PreparedNames.

Import packaging_utils pkg_resources.



Lemma lower_replace_dash (s : string) :
  PyStr.lower (replace_char "-" "_" s) = replace_char "-" "_" (PyStr.lower s).
Proof.
  induction s as [|c s IH]; cbn [replace_char PyStr.lower]; [reflexivity|].
  rewrite IH. f_equal.
  destruct c as [[|] [|] [|] [|] [|] [|] [|] [|]]; reflexivity.
Qed.



End PreparedNames.

(** ** importlib_metadata: file hashes and sectioned texts *)

Section Partition.

Lemma partition_at_first (sep : ascii) (a b : string) :
  PyStr.contains_char sep a = false ->
  PyStr.partition sep (a ++ String sep b)
  = (a, String sep EmptyString, b)
  /\ PyStr.partition sep a = (a, EmptyString, EmptyString).
Proof.
  induction a as [|c a IH];
    cbn [PyStr.partition PyStr.contains_char String.append]; intros H.
  - rewrite Ascii.eqb_refl. auto.
  - apply orb_false_iff in H as [Hc Hrest].
    rewrite Ascii.eqb_sym in Hc. rewrite Hc.
    destruct (IH Hrest) as [-> ->]. auto.
Qed.

(** [FileHash(spec)] cuts the text at its first equals sign: a hash
    written as mode, equals sign, value is read back as that mode and that
    value, equals signs of the value included; a text without an equals
    sign is all mode, with an empty value. *)
Theorem FileHash_cuts_at_first_equals (mode value : string) :
  PyStr.contains_char "=" mode = false ->
  FileHash.__init__ (mode ++ "=" ++ value)
  = FileHash.mkFileHash mode value
  /\ FileHash.__init__ mode = FileHash.mkFileHash mode "".
Proof.
  intros H. unfold FileHash.__init__.
  destruct (partition_at_first "=" mode value H) as [H1 H2].
  cbn [String.append]. rewrite H1, H2. auto.
Qed.

End Partition.

Lemma FileHash_cuts_at_first_equals_witness :
  FileHash.__init__ "sha256=47DEQpj8HBSa-_TImW-5JCeuQeRkm5NMpJWZG3hSuFU="
  = FileHash.mkFileHash "sha256"
      "47DEQpj8HBSa-_TImW-5JCeuQeRkm5NMpJWZG3hSuFU="
  /\ FileHash.__init__ "sha256" = FileHash.mkFileHash "sha256" "".
Proof.
  apply (@FileHash_cuts_at_first_equals "sha256"
           "47DEQpj8HBSa-_TImW-5JCeuQeRkm5NMpJWZG3hSuFU=").
  reflexivity.
Defined.

Section SectionedTexts.

Import importlib_metadata.

Lemma Sectioned_read_loop_spec (lines : list string) (n : option string) :
  map value (Sectioned_read_loop n lines)
  = filter (fun l => negb (Sectioned_is_header l)) lines
  /\ (forall p, In p (Sectioned_read_loop n lines) ->
                name p = n
                \/ exists h, In h lines /\ Sectioned_is_header h = true
                             /\ name p = Some (PyStr.strip_chars "[]" h))
  /\ ((forall h, In h lines -> Sectioned_is_header h = false) ->
      Sectioned_read_loop n lines = map (mkPair n) lines).
Proof.
  revert n. induction lines as [|l lines IH]; intros n;
    cbn [Sectioned_read_loop filter map].
  - repeat split; auto. intros p [].
  - fold (Sectioned_is_header l).
    destruct (Sectioned_is_header l) eqn:Hl; cbn [negb].
    + destruct (IH (Some (PyStr.strip_chars "[]" l))) as (Hv & Hn & _).
      split; [exact Hv|]. split.
      * intros p Hp. right. destruct (Hn p Hp) as [Hp' | (h & Hh & Hhd & Hp')].
        -- exists l. split; [left; reflexivity | auto].
        -- exists h. split; [right; exact Hh | auto].
      * intros H. rewrite (H l) in Hl by (left; reflexivity). discriminate.
    + destruct (IH n) as (Hv & Hn & Hall). cbn [map value].
      split; [rewrite Hv; reflexivity|]. split.
      * intros p [<- | Hp]; [left; reflexivity|].
        destruct (Hn p Hp) as [Hp' | (h & Hh & Hhd & Hp')]; [auto|].
        right. exists h. split; [right; exact Hh | auto].
      * intros H. rewrite Hall; [reflexivity|].
        intros h Hh. apply H. right. exact Hh.
Qed.

(** [Sectioned.read] loses no line and keeps their order: the values it
    yields are the stripped lines that pass the filter and are not section
    headers.  The name of each pair is [None] or the text between the
    brackets of a header of the text, and in a text without headers it is
    [None] throughout. *)
Theorem Sectioned_read_keeps_every_line
        (text : string) (filter_ : option (string -> bool)) :
  map value (Sectioned_read text filter_)
  = filter (fun l => negb (Sectioned_is_header l))
           (Sectioned_lines text filter_)
  /\ (forall p, In p (Sectioned_read text filter_) ->
                name p = None
                \/ exists h, In h (Sectioned_lines text filter_)
                             /\ Sectioned_is_header h = true
                             /\ name p = Some (PyStr.strip_chars "[]" h))
  /\ ((forall h, In h (Sectioned_lines text filter_) ->
                 Sectioned_is_header h = false) ->
      Sectioned_read text filter_
      = map (mkPair None) (Sectioned_lines text filter_)).
Proof.
  exact (Sectioned_read_loop_spec (Sectioned_lines text filter_) None).
Qed.

Lemma quoted_marker_of_extra (extra : string) :
  PyStr.contains_char ":" extra = false -> extra <> "" ->
  quoted_marker (Some extra)
  = "; extra == " ++ PyStr.dquote ++ extra ++ PyStr.dquote.
Proof.
  intros Hcolon Hextra. unfold quoted_marker.
  destruct (partition_at_first ":" extra "" Hcolon) as [_ Hp].
  destruct extra as [|c extra]; [congruence|].
  cbn [PyStr.bool_of_str]. rewrite Hp.
  cbn [PyStr.bool_of_str andb filter make_condition PyStr.join String.concat
       String.append].
  reflexivity.
Qed.

Lemma quoted_marker_of_markers (markers : string) :
  markers <> "" ->
  quoted_marker (Some (String ":" markers)) = "; " ++ markers.
Proof.
  intros Hm. unfold quoted_marker.
  cbn [PyStr.bool_of_str PyStr.partition Ascii.eqb Bool.eqb andb].
  destruct markers as [|m markers]; [congruence|].
  cbn [PyStr.bool_of_str andb filter make_condition PyStr.join String.concat
       String.append].
  reflexivity.
Qed.

(** The conversion of legacy requirement sections yields one
    requirement per line, in order, and each is the line, a blank when the
    line has an at sign, and the marker of its section: nothing for lines
    outside sections; the condition on the extra for a section named by
    an extra; the marker text in parentheses and the condition on the
    extra for a section [extra:marker]; and the bare marker text for a
    section [:marker]. *)
Theorem egg_info_requirement_forms
        (extra markers line : string) (rest : list Pair) :
  PyStr.contains_char ":" extra = false ->
  extra <> "" -> markers <> "" ->
  let space := if PyStr.contains_char "@" line then " " else "" in
  let convert := _convert_egg_info_reqs_to_simple_reqs in
  convert (mkPair None line :: rest) = (line ++ space) :: convert rest
  /\ convert (mkPair (Some extra) line :: rest)
     = (line ++ space ++ "; extra == " ++ PyStr.dquote ++ extra
             ++ PyStr.dquote) :: convert rest
  /\ convert (mkPair (Some (extra ++ String ":" markers)) line :: rest)
     = (line ++ space ++ "; (" ++ markers ++ ") and extra == "
             ++ PyStr.dquote ++ extra ++ PyStr.dquote) :: convert rest
  /\ convert (mkPair (Some (String ":" markers)) line :: rest)
     = (line ++ space ++ "; " ++ markers) :: convert rest
  /\ List.length (convert rest) = List.length rest.
Proof.
  intros Hcolon Hextra Hmarkers space convert.
  unfold convert, _convert_egg_info_reqs_to_simple_reqs.
  cbn [map name value].
  rewrite (@quoted_marker_of_extra extra Hcolon Hextra),
    (@quoted_marker_keeps_marker_text extra markers Hcolon Hextra Hmarkers),
    (@quoted_marker_of_markers markers Hmarkers).
  unfold url_req_space. fold space. unfold Inputs.dq.
  assert (Hnil : forall s : string, s ++ "" = s)
    by (induction s; cbn; congruence).
  repeat split; try reflexivity.
  - change (quoted_marker None) with "". rewrite Hnil. reflexivity.
  - apply length_map.
Qed.

End SectionedTexts.

(** ** pkg_resources: the order of distributions *)

Section DistributionOrder.

Import pkg_resources.

Context {P : Packaging}.
Hypothesis version_order : TotalCmp version_compare.

Lemma HashCmp_order_spec (holds : comparison -> bool) (a b : HashCmp) :
  HashCmp_order holds a b
  = if HashCmp_comparable a b
    then Ok (holds (HashCmp_compare a b))
    else Raise type_error.
Proof.
  destruct a as [[[[[v1 p1] k1] l1] y1] f1].
  destruct b as [[[[[v2 p2] k2] l2] y2] f2].
  unfold HashCmp_order, HashCmp_comparable, HashCmp_compare, prefix_compare,
    HashCmp_prefix, HashCmp_location, Order.lex, version_eqb, type_error.
  cbn [fst snd].
  rewrite Z_eqb_compare, !string_eqb_compare, option_eqb_compare.
  destruct (version_compare v1 v2); cbn [negb]; try reflexivity.
  destruct (Z.compare p1 p2); cbn [negb]; try reflexivity.
  destruct (String_as_OT.compare k1 k2); cbn [negb]; try reflexivity.
  destruct l1 as [x|], l2 as [y|]; cbn [Order.option_compare same_kind negb];
    try reflexivity.
  - destruct (String_as_OT.compare x y); cbn [negb]; try reflexivity.
    destruct (String_as_OT.compare y1 y2); cbn [negb]; try reflexivity.
    destruct (String_as_OT.compare f1 f2); reflexivity.
  - destruct (String_as_OT.compare y1 y2); cbn [negb]; try reflexivity.
    destruct (String_as_OT.compare f1 f2); reflexivity.
Qed.

Lemma HashCmp_lt_trans (a b c : HashCmp) :
  HashCmp_lt a b = Ok true -> HashCmp_lt b c = Ok true ->
  HashCmp_lt a c = Ok true.
Proof.
  intros Hab Hbc.
  pose proof (@HashCmp_lt_asym _ version_order _ _ Hab) as Hba.
  pose proof (@HashCmp_lt_asym _ version_order _ _ Hbc) as Hcb.
  pose proof (@HashCmp_ge_trans _ version_order _ _ _ Hcb Hba) as Hca.
  apply (@HashCmp_lt_total _ version_order); [exact Hca|].
  rewrite (@HashCmp_eqb_spec _ c a).
  destruct (HashCmp_compare c a) eqn:E; try reflexivity.
  exfalso.
  rewrite (@HashCmp_lt_spec _ c b) in Hcb.
  rewrite (@HashCmp_lt_spec _ a b) in Hab.
  rewrite (cmp_eq_l (@TotalCmp_HashCmp _ version_order) c a b E) in Hcb.
  rewrite (@HashCmp_comparable_sym _ version_order c b) in Hcb.
  destruct (HashCmp_comparable a b), (HashCmp_comparable b c),
    (HashCmp_compare a b); cbn in *; congruence.
Qed.

(** [a < b] by the operator is [a.__lt__(b)] also when the method of
    the right operand is the one that is tried. *)
Lemma Distribution_lt_spec (a b : Distribution) (r : bool) :
  Distribution_lt a b = Ok r <-> Distribution___lt__ a b = Ok r.
Proof.
  unfold Distribution_lt.
  destruct (reflected_first a b); [|reflexivity].
  unfold Distribution___gt__, Distribution___lt__.
  destruct (Distribution_hashcmp a) as [ha | e],
    (Distribution_hashcmp b) as [hb | e']; cbn [bind];
    try (split; discriminate).
  rewrite HashCmp_order_spec, (@HashCmp_lt_spec _ ha hb),
    (@HashCmp_comparable_sym _ version_order hb ha),
    (cmp_antisym (@TotalCmp_HashCmp _ version_order) ha hb).
  destruct (HashCmp_comparable ha hb); [|reflexivity].
  destruct (HashCmp_compare ha hb); reflexivity.
Qed.

(** The six comparisons of distributions agree with one another.
    Whenever [a < b] returns, so do the others: [a == b] holds when the
    two are of one class and their [hashcmp] tuples are equal, it is
    symmetric and [a != b] is its negation; [a <= b] is [a < b] or equal
    tuples, [a > b] and [a >= b] are the negations of [a <= b] and
    [a < b]; exactly one of [a < b], equal tuples and [b < a] holds; and
    [<] is transitive.  So two distributions of different classes with
    one [hashcmp] are [<=] and [>=] each other and not [==]. *)
Theorem Distribution_comparisons_agree
        (a b : Distribution) (below : bool) :
  Distribution_lt a b = Ok below ->
  exists ha hb,
    Distribution_hashcmp a = Ok ha
    /\ Distribution_hashcmp b = Ok hb
    /\ Distribution_eq a b
       = Ok (class_eqb (Distribution___class__ a) (Distribution___class__ b)
             && HashCmp_eqb ha hb)
    /\ Distribution_eq b a = Distribution_eq a b
    /\ Distribution_ne a b
       = Ok (negb (class_eqb (Distribution___class__ a)
                             (Distribution___class__ b)
                   && HashCmp_eqb ha hb))
    /\ Distribution_le a b = Ok (below || HashCmp_eqb ha hb)
    /\ Distribution_gt a b = Ok (negb (below || HashCmp_eqb ha hb))
    /\ Distribution_ge a b = Ok (negb below)
    /\ Distribution_lt b a = Ok (negb (below || HashCmp_eqb ha hb))
    /\ below && HashCmp_eqb ha hb = false
    /\ forall c, below = true -> Distribution_lt b c = Ok true ->
                 Distribution_lt a c = Ok true.
Proof.
  intros Hlt.
  assert (Htrans : forall c, below = true -> Distribution_lt b c = Ok true ->
                             Distribution_lt a c = Ok true).
  { intros c Hbelow Hbc. apply Distribution_lt_spec in Hlt, Hbc.
    apply Distribution_lt_spec. revert Hlt Hbc. rewrite Hbelow.
    unfold Distribution___lt__.
    destruct (Distribution_hashcmp a) as [ha | e]; cbn [bind];
      [|discriminate].
    destruct (Distribution_hashcmp b) as [hb | e]; cbn [bind];
      [|discriminate].
    destruct (Distribution_hashcmp c) as [hc | e]; cbn [bind];
      [|discriminate].
    apply HashCmp_lt_trans. }
  apply Distribution_lt_spec in Hlt.
  assert (Hba : Distribution_lt b a = Distribution___lt__ b a
                /\ Distribution_le a b = Distribution___le__ a b
                /\ Distribution_gt a b = Distribution___gt__ a b
                /\ Distribution_ge a b = Distribution___ge__ a b).
  { revert Hlt.
    unfold Distribution_lt, Distribution_le, Distribution_gt, Distribution_ge,
      Distribution___lt__, Distribution___le__, Distribution___gt__,
      Distribution___ge__.
    destruct (Distribution_hashcmp a) as [ha | e]; cbn [bind];
      [|discriminate].
    destruct (Distribution_hashcmp b) as [hb | e]; cbn [bind];
      [|discriminate].
    intros _. rewrite ?HashCmp_order_spec, ?(@HashCmp_lt_spec _ ha hb),
      ?(@HashCmp_lt_spec _ hb ha),
      ?(@HashCmp_comparable_sym _ version_order hb ha),
      ?(cmp_antisym (@TotalCmp_HashCmp _ version_order) ha hb).
    destruct (reflected_first a b), (reflected_first b a),
      (HashCmp_comparable ha hb); repeat split;
      try reflexivity; destruct (HashCmp_compare ha hb); reflexivity. }
  destruct Hba as (-> & -> & -> & ->).
  unfold Distribution_ne, Distribution___ne__.
  rewrite !(@Distribution_eq_spec _ a b), !(@Distribution_eq_spec _ b a).
  rewrite (class_eqb_sym (Distribution___class__ b)
                         (Distribution___class__ a)).
  revert Hlt.
  unfold Distribution___lt__, Distribution___le__, Distribution___gt__,
    Distribution___ge__.
  destruct (Distribution_hashcmp a) as [ha | e]; cbn [bind]; [|discriminate].
  destruct (Distribution_hashcmp b) as [hb | e]; cbn [bind]; [|discriminate].
  intros Hlt. exists ha, hb.
  rewrite !HashCmp_order_spec.
  rewrite (@HashCmp_lt_spec _ ha hb) in Hlt.
  rewrite (@HashCmp_lt_spec _ hb ha),
    (@HashCmp_comparable_sym _ version_order hb ha),
    (@HashCmp_eqb_sym _ version_order hb ha),
    (@HashCmp_eqb_spec _ ha hb),
    (cmp_antisym (@TotalCmp_HashCmp _ version_order) ha hb).
  destruct (HashCmp_comparable ha hb); [|discriminate].
  injection Hlt as <-.
  destruct (class_eqb (Distribution___class__ a)
                      (Distribution___class__ b)),
    (reflected_first a b); cbn [bind andb negb];
    repeat split; try (destruct (HashCmp_compare ha hb); reflexivity);
    exact Htrans.
Qed.

End DistributionOrder.

(** ** pkg_resources: adding to and removing from an environment *)

Section EnvironmentRoundTrips.

Import pkg_resources.

Context {P : Packaging}.
Hypothesis version_order : TotalCmp version_compare.

Lemma eq_defined_right (x d : Distribution) :
  Distribution_eq x d = Ok true ->
  exists h, Distribution_hashcmp d = Ok h.
Proof.
  rewrite Distribution_eq_spec.
  destruct (class_eqb _ _); [|discriminate].
  destruct (Distribution_hashcmp x); cbn [bind]; [|discriminate].
  destruct (Distribution_hashcmp d); cbn [bind]; [eauto | discriminate].
Qed.

Lemma list_contains_finds (d : Distribution) (l : list Distribution) :
  Forall (fun x => exists h, Distribution_hashcmp x = Ok h) l ->
  (exists d', In d' l /\ Distribution_eq d' d = Ok true) ->
  list_contains d l = Ok true.
Proof.
  intros Hall [d' [Hin He]].
  destruct (eq_defined_right _ _ He) as [hd Hhd].
  induction Hall as [|x l [hx Hx] _ IH]; [destruct Hin|].
  cbn [list_contains]. destruct Hin as [-> | Hin].
  - rewrite He. reflexivity.
  - rewrite (@Distribution_eq_spec _ x d), Hx, Hhd. cbn [bind].
    destruct (class_eqb _ _); cbn [bind]; [|exact (IH Hin)].
    destruct (HashCmp_eqb hx hd); [reflexivity | exact (IH Hin)].
Qed.

Lemma list_contains_absent (d : Distribution) (l : list Distribution) :
  Forall (fun x => never_equal x d) l -> list_contains d l = Ok false.
Proof.
  induction 1 as [|x l Hx _ IH]; cbn [list_contains]; [reflexivity|].
  rewrite Hx. cbn [bind]. exact IH.
Qed.

Lemma with_distmap_twice (env : Environment)
      (dm dm' : list (string * list Distribution)) :
  with_distmap (with_distmap env dm) dm' = with_distmap env dm'.
Proof. reflexivity. Qed.

(** Adding a distribution a second time changes nothing: the environment
    that [add] leaves is a fixed point of adding the same distribution. *)
Theorem Environment_add_twice (env env1 : Environment) (d : Distribution) :
  Environment_add env d = Ok env1 ->
  Environment_add env1 d = Ok env1.
Proof.
  unfold Environment_add at 1.
  destruct (Environment_can_add env d && Distribution_has_version d)
    eqn:Hguard.
  2:{ intros H. injection H as <-. unfold Environment_add.
      rewrite Hguard. reflexivity. }
  destruct (PyDict.setdefault String.eqb (Distribution_key d) []
                              (Environment__distmap env))
    as [dists dm] eqn:Hsd.
  destruct (@setdefault_spec _ _ _ String.eqb_spec _ _ _ _ _ Hsd)
    as (Hget & _ & _).
  destruct (list_contains d dists) as [[|] | e] eqn:Hin; cbn [bind negb];
    try discriminate.
  - intros H. injection H as <-. unfold Environment_add.
    change (Environment_can_add (with_distmap env dm))
      with (Environment_can_add env).
    rewrite Hguard. cbn [with_distmap Environment__distmap].
    unfold PyDict.setdefault. rewrite Hget, Hin. cbn [bind negb].
    reflexivity.
  - destruct (sort_desc_by HashCmp_lt Distribution_hashcmp (dists ++ [d]))
      as [sorted | e] eqn:Hsort; cbn [bind]; try discriminate.
    intros H. injection H as <-. unfold Environment_add.
    change (Environment_can_add
              (with_distmap env
                 (PyDict.set String.eqb (Distribution_key d) sorted dm)))
      with (Environment_can_add env).
    rewrite Hguard. cbn [with_distmap Environment__distmap].
    unfold PyDict.setdefault.
    rewrite (@get_set_same _ _ _ String.eqb_spec).
    destruct (@sort_desc_by_spec _ _ _ _
                (@HashCmp_lt_asym _ version_order)
                (@HashCmp_ge_trans _ version_order)
                Distribution_hashcmp _ _ Hsort) as [Hperm _].
    pose proof (sort_desc_by_keys_defined _ _ _ Hsort) as Hdef.
    assert (Hd : In d (dists ++ [d]))
      by (apply in_or_app; right; left; reflexivity).
    rewrite (@list_contains_finds d sorted).
    + cbn [bind negb]. reflexivity.
    + apply Forall_forall. intros x Hx. rewrite Forall_forall in Hdef.
      apply Hdef. apply (Permutation_in _ Hperm). exact Hx.
    + exists d. split.
      * apply (Permutation_in _ (Permutation_sym Hperm)). exact Hd.
      * rewrite Forall_forall in Hdef. destruct (Hdef d Hd) as [h Hh].
        exact (@Distribution_eq_refl _ version_order _ _ Hh).
Qed.

(** The sort is stable: in a list in descending order to which one
    element is appended, the element is moved in front of those below it
    and nothing else moves. *)
Lemma insert_desc_head {K A} (lt : K -> K -> Res bool) (x : K * A)
      (l : list (K * A)) :
  Forall (key_not_below lt x) l -> insert_desc lt x l = Ok (x :: l).
Proof.
  intros H. destruct H as [|y l Hy _]; cbn [insert_desc]; [reflexivity|].
  unfold key_not_below in Hy. rewrite Hy. reflexivity.
Qed.

Lemma sort_keyed_desc_snoc {K A} (lt : K -> K -> Res bool)
      (l : list (K * A)) (d : K * A) (r : list (K * A)) :
  StronglySorted (key_not_below lt) l ->
  sort_keyed_desc lt (l ++ [d]) = Ok r ->
  exists before after,
    l = (before ++ after)%list /\ r = (before ++ d :: after)%list.
Proof.
  intros Hs. revert r.
  induction Hs as [|x l Hs IH Hx]; cbn [app sort_keyed_desc]; intros r H.
  - injection H as <-. exists [], []. split; reflexivity.
  - destruct (sort_keyed_desc lt (l ++ [d])) as [s | e]; cbn [bind] in H;
      [|discriminate].
    destruct (IH s eq_refl) as (before & after & -> & ->).
    destruct before as [|y before]; cbn [app insert_desc] in H, Hx |- *.
    + destruct (lt (fst x) (fst d)) as [[|] | e]; cbn [bind] in H;
        try discriminate.
      * rewrite (insert_desc_head Hx) in H. cbn [bind] in H.
        injection H as <-. exists [], (x :: after). split; reflexivity.
      * injection H as <-. exists [x], after. split; reflexivity.
    + apply Forall_cons_iff in Hx as [Hxy _].
      unfold key_not_below in Hxy. rewrite Hxy in H. cbn [bind] in H.
      injection H as <-. exists (x :: y :: before), after.
      split; reflexivity.
Qed.

Lemma sort_desc_by_snoc {K A} (lt : K -> K -> Res bool) (key : A -> Res K)
      (l : list A) (d : A) (r : list A) :
  StronglySorted
    (fun a b => (ka <- key a ;; kb <- key b ;; lt ka kb) = Ok false) l ->
  sort_desc_by lt key (l ++ [d]) = Ok r ->
  exists before after,
    l = (before ++ after)%list /\ r = (before ++ d :: after)%list.
Proof.
  intros Hs. unfold sort_desc_by.
  destruct (map_result (fun a => k <- key a ;; Ok (k, a)) (l ++ [d]))
    as [keyed | e] eqn:Hkeyed; cbn [bind]; [|discriminate].
  destruct (keyed_spec _ _ Hkeyed) as [Hm Hf].
  apply map_eq_app in Hm. destruct Hm as (kl & kd & -> & Hl & Hd).
  destruct kd as [|kd [|? ?]]; try discriminate.
  cbn [map] in Hd. injection Hd as Hd.
  apply Forall_app in Hf as [Hf _].
  assert (Hks : StronglySorted (key_not_below lt) kl).
  { subst l. clear -Hs Hf. induction kl as [|x kl IH]; [constructor|].
    cbn [map] in Hs. apply StronglySorted_inv in Hs as [Hs Hx].
    apply Forall_cons_iff in Hf as [Hkx Hf].
    constructor; [exact (IH Hs Hf)|].
    apply Forall_forall. intros y Hy.
    rewrite Forall_forall in Hx, Hf.
    specialize (Hx (snd y) (in_map snd _ _ Hy)).
    rewrite Hkx, (Hf y Hy) in Hx. exact Hx. }
  destruct (sort_keyed_desc lt (kl ++ [kd])) as [sorted | e] eqn:Hsort;
    cbn [bind]; [|discriminate].
  intros H. injection H as <-.
  destruct (sort_keyed_desc_snoc _ Hks Hsort) as (before & after & -> & ->).
  exists (map snd before), (map snd after).
  rewrite <- Hl, <- Hd, !map_app. split; reflexivity.
Qed.

Lemma remove_first_at (d : Distribution) (before after : list Distribution) :
  Forall (fun x => never_equal x d) before ->
  Distribution_eq d d = Ok true ->
  remove_first d (before ++ d :: after) = Ok (before ++ after)%list.
Proof.
  intros Hb Hd. induction Hb as [|x before Hx _ IH];
    cbn [app remove_first].
  - rewrite Hd. reflexivity.
  - rewrite Hx. cbn [bind]. rewrite IH. reflexivity.
Qed.

(** Removing a distribution right after adding it restores every list
    of the environment, provided the environment held no distribution
    equal to it by [==]: [remove] undoes [add].  The list may hold
    distributions of another class with the same [hashcmp]; the sort
    puts the new one behind them, and [remove] takes out the new one. *)
Theorem Environment_remove_undoes_add
        (env env1 : Environment) (d : Distribution) :
  Environment_invariant env ->
  Environment_can_add env d = true ->
  Distribution_has_version d = true ->
  Forall (fun x => never_equal x d)
         (Environment___getitem__ env (Distribution_key d)) ->
  Environment_add env d = Ok env1 ->
  exists env2,
    Environment_remove env1 d = Ok env2
    /\ forall project_name,
        Environment___getitem__ env2 project_name
        = Environment___getitem__ env project_name.
Proof.
  intros Hinv Hcan Hver Hfresh. unfold Environment_add.
  rewrite Hcan, Hver. cbn [andb].
  rewrite (@getitem_of_key _ env d) in Hfresh.
  destruct (PyDict.setdefault String.eqb (Distribution_key d) []
                              (Environment__distmap env))
    as [dists dm] eqn:Hsd.
  destruct (@setdefault_spec _ _ _ String.eqb_spec _ _ _ _ _ Hsd)
    as (Hget & Hother & Hold).
  assert (Hdists : Forall (fun x => never_equal x d) dists
                   /\ StronglySorted never_equal dists
                   /\ StronglySorted not_below dists
                   /\ forall name, PyStr.lower name = Distribution_key d ->
                                   Environment___getitem__ env name = dists).
  { destruct Hold as [Hold | [Hold ->]].
    - rewrite Hold in Hfresh. destruct (Hinv _ _ Hold) as (_ & H1 & H2).
      repeat split; auto. intros name Hname.
      unfold Environment___getitem__. rewrite Hname, Hold. reflexivity.
    - repeat split; try constructor. intros name Hname.
      unfold Environment___getitem__. rewrite Hname, Hold. reflexivity. }
  destruct Hdists as (Hnone & Hneq & Hsorted & Hsame).
  rewrite (list_contains_absent Hnone). cbn [bind negb].
  destruct (sort_desc_by HashCmp_lt Distribution_hashcmp (dists ++ [d]))
    as [sorted | e] eqn:Hsort; cbn [bind]; try discriminate.
  intros H. injection H as <-.
  pose proof (sort_desc_by_keys_defined _ _ _ Hsort) as Hdef.
  rewrite Forall_forall in Hdef.
  assert (Hd : In d (dists ++ [d]))
    by (apply in_or_app; right; left; reflexivity).
  destruct (Hdef d Hd) as [h Hh].
  destruct (@sort_desc_by_snoc _ _ _ _ _ _ _ Hsorted Hsort)
    as (before & after & -> & ->).
  apply Forall_app in Hnone as [Hbefore _].
  pose proof (@remove_first_at _ _ after Hbefore
                (@Distribution_eq_refl _ version_order _ _ Hh)) as Hl'.
  unfold Environment_remove. cbn [with_distmap Environment__distmap].
  rewrite (@get_set_same _ _ _ String.eqb_spec), Hl'. cbn [bind].
  eexists. split; [reflexivity|].
  intros name. unfold Environment___getitem__ at 1.
  cbn [with_distmap Environment__distmap].
  destruct (String.eqb_spec (PyStr.lower name) (Distribution_key d))
    as [Hname | Hne].
  - rewrite Hname, (@get_set_same _ _ _ String.eqb_spec).
    symmetry. apply Hsame. exact Hname.
  - rewrite !(@get_set_other _ _ _ String.eqb_spec _ _ _ _ Hne),
      (Hother _ Hne).
    reflexivity.
Qed.

Lemma remove_first_absent (d : Distribution) (l : list Distribution) :
  Forall (fun x => never_equal x d) l ->
  remove_first d l
  = Raise (Builtin (ValueError ["list.remove(x): x not in list"])).
Proof.
  induction 1 as [|x l Hx _ IH]; cbn [remove_first]; [reflexivity|].
  rewrite Hx. cbn [bind]. rewrite IH. reflexivity.
Qed.

(** Removing what is not there raises: [KeyError] with the key when no
    distribution of the project was ever added, [ValueError] when the
    project has a list that holds no distribution equal to the one given,
    as after the last distribution of a project has been removed. *)
Theorem Environment_remove_of_absent (env : Environment) (d : Distribution) :
  (PyDict.get String.eqb (Distribution_key d) (Environment__distmap env)
   = None ->
   Environment_remove env d = Raise (Builtin (KeyError (Distribution_key d))))
  /\ (forall dists,
         PyDict.get String.eqb (Distribution_key d) (Environment__distmap env)
         = Some dists ->
         Forall (fun x => never_equal x d) dists ->
         Environment_remove env d
         = Raise (Builtin (ValueError ["list.remove(x): x not in list"])))
  /\ (forall env1,
         Environment_remove env d = Ok env1 ->
         exists dists,
           PyDict.get String.eqb (Distribution_key d)
                      (Environment__distmap env1) = Some dists
           /\ (dists = [] ->
               ~ In (Distribution_key d) (Environment___iter__ env1))).
Proof.
  unfold Environment_remove. split; [|split].
  - intros ->. reflexivity.
  - intros dists -> Hnone. rewrite (remove_first_absent Hnone). reflexivity.
  - intros env1.
    destruct (PyDict.get String.eqb (Distribution_key d)
                         (Environment__distmap env)) as [dists|];
      [|discriminate].
    destruct (remove_first d dists) as [dists' | e]; cbn [bind];
      [|discriminate].
    intros H. injection H as <-. exists dists'.
    cbn [with_distmap Environment__distmap].
    split; [apply (@get_set_same _ _ _ String.eqb_spec)|].
    intros -> Hin. unfold Environment___iter__ in Hin.
    apply filter_In in Hin. destruct Hin as [_ Hin].
    rewrite (@getitem_of_key _ _ d) in Hin.
    cbn [with_distmap Environment__distmap] in Hin.
    rewrite (@get_set_same _ _ _ String.eqb_spec) in Hin. discriminate.
Qed.

End EnvironmentRoundTrips.

(** ** pkg_resources: what a working set holds *)

Section WorkingSets.

Import pkg_resources.

Context {P : Packaging}.

Variable find_distributions : string -> bool -> list Distribution.
Variable sys_path : list string.
Variable insert_on :
  Distribution -> list string -> option string -> bool -> list string.

Local Abbreviation add := (WorkingSet_add insert_on).
Local Abbreviation add_entry :=
  (WorkingSet_add_entry find_distributions insert_on).
Local Abbreviation init :=
  (WorkingSet___init__ find_distributions sys_path insert_on).

Lemma opt_str_eqb_spec (a b : option string) :
  reflect (a = b) (opt_str_eqb a b).
Proof.
  destruct a as [x|], b as [y|]; cbn; try (constructor; congruence).
  destruct (String.eqb_spec x y); constructor; congruence.
Qed.

(** Looking a requirement up after its distribution was added finds that
    distribution, or raises the conflict with it: when the key was
    free, or with [replace=True], [find] for a requirement of the key
    returns the added distribution if the requirement contains it and
    raises [VersionConflict] with it otherwise; when the key was taken
    and [replace=False], [find] answers as before the addition. *)
Theorem WorkingSet_find_after_add
        (self : WorkingSet) (dist : Distribution) (entry : option string)
        (insert replace : bool) (req : Requirement) :
  Requirement_key req = Distribution_key dist ->
  Requirement_key req <> "" ->
  (replace = true
   \/ PyDict.get String.eqb (Distribution_key dist) (WorkingSet_by_key self)
      = None ->
   WorkingSet_find (add self dist entry insert replace) req
   = (set_key req (Distribution_key dist),
      inside <- Requirement___contains__ req dist ;;
      if inside then Ok (Some dist)
      else Raise (VersionConflict dist
                    (set_key req (Distribution_key dist)))))
  /\ (replace = false ->
      PyDict.get String.eqb (Distribution_key dist) (WorkingSet_by_key self)
      <> None ->
      WorkingSet_find (add self dist entry insert replace) req
      = WorkingSet_find self req).
Proof.
  intros Hkey Hne. split.
  - intros Hfree. unfold WorkingSet_add.
    assert (Hguard :
             negb replace
             && match PyDict.get String.eqb (Distribution_key dist)
                                 (WorkingSet_by_key self) with
                | Some _ => true
                | None => false
                end = false).
    { destruct Hfree as [-> | ->]; [reflexivity | apply andb_false_r]. }
    rewrite Hguard. unfold WorkingSet_find, find_candidates.
    cbn [WorkingSet_by_key WorkingSet_normalized_to_canonical_keys app filter].
    destruct (Requirement_key req) as [|c k] eqn:Hk; [congruence|].
    cbn [PyStr.bool_of_str find_candidate]. rewrite Hkey.
    rewrite (@get_set_same _ _ _ String.eqb_spec).
    f_equal. unfold Requirement___contains__.
    cbn [set_key Requirement_key Requirement_specifier].
    rewrite Hk, Hkey.
    destruct (negb (String.eqb (Distribution_key dist) (Distribution_key dist)));
      [reflexivity|].
    destruct (Distribution_version dist); cbn [bind]; [|reflexivity].
    destruct (lift _) as [[|] | e]; reflexivity.
  - intros -> Htaken. unfold WorkingSet_add.
    destruct (PyDict.get String.eqb (Distribution_key dist)
                         (WorkingSet_by_key self)); [|congruence].
    reflexivity.
Qed.

(** *** Iteration *)

Lemma dict_set_all {K V : Type} (eqb : K -> K -> bool)
      (eqb_spec : forall a b, reflect (a = b) (eqb a b))
      (Q : V -> Prop) (k : K) (v : V) (d : PyDict.dict K V) :
  (forall k' v', PyDict.get eqb k' d = Some v' -> Q v') -> Q v ->
  forall k' v', PyDict.get eqb k' (PyDict.set eqb k v d) = Some v' -> Q v'.
Proof.
  intros Hall Hv k' v' H. destruct (eqb_spec k' k) as [-> | Hne].
  - rewrite (@get_set_same _ _ _ eqb_spec) in H. congruence.
  - rewrite (@get_set_other _ _ _ eqb_spec _ _ _ _ Hne) in H. eauto.
Qed.

Lemma dict_setdefault_all {K V : Type} (eqb : K -> K -> bool)
      (eqb_spec : forall a b, reflect (a = b) (eqb a b))
      (Q : V -> Prop) (k : K) (v : V) (d : PyDict.dict K V) :
  (forall k' v', PyDict.get eqb k' d = Some v' -> Q v') -> Q v ->
  forall k' v',
    PyDict.get eqb k' (snd (PyDict.setdefault eqb k v d)) = Some v' -> Q v'.
Proof.
  intros Hall Hv. unfold PyDict.setdefault.
  destruct (PyDict.get eqb k d); cbn [snd]; [exact Hall|].
  apply (@dict_set_all _ _ _ eqb_spec); assumption.
Qed.

Lemma in_append_if_absent (k key : string) (keys : list string) :
  In k (append_if_absent key keys) -> k = key \/ In k keys.
Proof.
  unfold append_if_absent. destruct (str_in key keys); [auto|].
  intros H. apply in_app_or in H. destruct H as [H | [H | []]]; auto.
Qed.

Lemma WorkingSet_add_consistent
      (self : WorkingSet) (dist : Distribution) (entry : option string)
      (insert replace : bool) :
  WorkingSet_consistent self ->
  WorkingSet_consistent (add self dist entry insert replace).
Proof.
  intros [H1 H2]. unfold WorkingSet_add.
  set (entry' := match entry with
                 | Some e => Some e
                 | None => Distribution_location dist
                 end).
  set (ek1 := snd (PyDict.setdefault opt_str_eqb entry' []
                                     (WorkingSet_entry_keys self))).
  set (ek2 := snd (PyDict.setdefault opt_str_eqb
                                     (Distribution_location dist) [] ek1)).
  set (active := fun (bk : list (string * Distribution)) (keys : list string) =>
                   forall key, In key keys ->
                               exists d, PyDict.get String.eqb key bk = Some d).
  assert (Hek2 : forall bk,
             (forall key d,
                 PyDict.get String.eqb key (WorkingSet_by_key self) = Some d ->
                 exists d', PyDict.get String.eqb key bk = Some d') ->
             forall e keys, PyDict.get opt_str_eqb e ek2 = Some keys ->
                            active bk keys).
  { intros bk Hbk.
    apply (@dict_setdefault_all _ _ _ opt_str_eqb_spec);
      [|intros key []].
    apply (@dict_setdefault_all _ _ _ opt_str_eqb_spec);
      [|intros key []].
    intros e keys He key Hkey. destruct (H1 e keys key He Hkey) as [d Hd].
    eauto. }
  destruct (negb replace
            && match PyDict.get String.eqb (Distribution_key dist)
                                (WorkingSet_by_key self) with
               | Some _ => true
               | None => false
               end).
  - split; cbn [WorkingSet_entry_keys WorkingSet_by_key]; [|exact H2].
    intros e keys key He. apply (Hek2 (WorkingSet_by_key self)) with (e := e);
      eauto.
  - set (bk := PyDict.set String.eqb (Distribution_key dist) dist
                          (WorkingSet_by_key self)).
    assert (Hbk : forall key d,
               PyDict.get String.eqb key (WorkingSet_by_key self) = Some d ->
               exists d', PyDict.get String.eqb key bk = Some d').
    { intros key d Hd. unfold bk.
      destruct (String.eqb_spec key (Distribution_key dist)) as [-> | Hne].
      - rewrite (@get_set_same _ _ _ String.eqb_spec). eauto.
      - rewrite (@get_set_other _ _ _ String.eqb_spec _ _ _ _ Hne). eauto. }
    assert (Hnew : exists d',
               PyDict.get String.eqb (Distribution_key dist) bk = Some d').
    { unfold bk. rewrite (@get_set_same _ _ _ String.eqb_spec). eauto. }
    split; cbn [WorkingSet_entry_keys WorkingSet_by_key].
    + intros e keys key He. revert key.
      change (active bk keys). revert e keys He.
      apply (@dict_set_all _ _ _ opt_str_eqb_spec).
      * apply (@dict_set_all _ _ _ opt_str_eqb_spec); [exact (Hek2 bk Hbk)|].
        intros key Hkey. apply in_append_if_absent in Hkey.
        destruct Hkey as [-> | Hkey]; [exact Hnew|].
        destruct (PyDict.get opt_str_eqb entry' ek2) as [l|] eqn:Hl;
          [|destruct Hkey].
        exact (Hek2 bk Hbk _ _ Hl key Hkey).
      * intros key Hkey. apply in_append_if_absent in Hkey.
        destruct Hkey as [-> | Hkey]; [exact Hnew|].
        match type of Hkey with
        | In _ match PyDict.get _ _ ?ek with _ => _ end =>
            destruct (PyDict.get opt_str_eqb (Distribution_location dist) ek)
              as [l|] eqn:Hl; [|destruct Hkey];
            revert key Hkey; change (active bk l); revert Hl;
            generalize (Distribution_location dist); revert l
        end.
        intros l e Hl. revert e l Hl.
        apply (@dict_set_all _ _ _ opt_str_eqb_spec); [exact (Hek2 bk Hbk)|].
        intros key Hkey. apply in_append_if_absent in Hkey.
        destruct Hkey as [-> | Hkey]; [exact Hnew|].
        destruct (PyDict.get opt_str_eqb entry' ek2) as [l|] eqn:Hl;
          [|destruct Hkey].
        exact (Hek2 bk Hbk _ _ Hl key Hkey).
    + intros key d. unfold bk.
      destruct (String.eqb_spec key (Distribution_key dist)) as [-> | Hne].
      * rewrite (@get_set_same _ _ _ String.eqb_spec). congruence.
      * rewrite (@get_set_other _ _ _ String.eqb_spec _ _ _ _ Hne).
        apply H2.
Qed.

Lemma fold_add_consistent (dists : list Distribution) (entry : string)
      (self : WorkingSet) :
  WorkingSet_consistent self ->
  WorkingSet_consistent
    (fold_left (fun ws dist => add ws dist (Some entry) false false)
               dists self).
Proof.
  revert self. induction dists as [|d dists IH]; intros self H;
    cbn [fold_left]; [exact H|].
  apply IH. apply WorkingSet_add_consistent. exact H.
Qed.

Lemma WorkingSet_add_entry_consistent (self : WorkingSet) (entry : string) :
  WorkingSet_consistent self ->
  WorkingSet_consistent (add_entry self entry).
Proof.
  intros [H1 H2]. unfold WorkingSet_add_entry. apply fold_add_consistent.
  split; cbn [WorkingSet_entry_keys WorkingSet_by_key]; [|exact H2].
  intros e keys key He. revert key. revert e keys He.
  apply (@dict_setdefault_all _ _ _ opt_str_eqb_spec
           (fun keys => forall key, In key keys ->
              exists d, PyDict.get String.eqb key
                                   (WorkingSet_by_key self) = Some d)).
  - intros e keys He key Hkey. exact (H1 e keys key He Hkey).
  - intros key [].
Qed.

Lemma WorkingSet_init_consistent (entries : option (list string)) :
  WorkingSet_consistent (init entries).
Proof.
  unfold WorkingSet___init__.
  generalize (match entries with Some es => es | None => sys_path end).
  intros es.
  assert (H0 : WorkingSet_consistent
                 {| WorkingSet_entries := [];
                    WorkingSet_entry_keys := [];
                    WorkingSet_by_key := [];
                    WorkingSet_normalized_to_canonical_keys := [] |})
    by (split; intros; discriminate).
  revert H0. generalize (mkWorkingSet [] [] [] []) at 1 2.
  induction es as [|e es IH]; intros ws H; cbn [fold_left]; [exact H|].
  apply IH. apply WorkingSet_add_entry_consistent. exact H.
Qed.

Lemma str_in_spec (k : string) (l : list string) :
  reflect (In k l) (str_in k l).
Proof.
  unfold str_in. induction l as [|x l IH]; cbn [existsb]; [constructor; tauto|].
  destruct (String.eqb_spec k x) as [-> | Hne]; cbn.
  - constructor. left. reflexivity.
  - destruct IH; constructor; [right; assumption | intros [E | H]; auto].
Qed.

Lemma iter_keys_spec (by_key : list (string * Distribution))
      (keys seen : list string) :
  (forall key, In key keys ->
               exists d, PyDict.get String.eqb key by_key = Some d) ->
  exists dists seen',
    iter_keys by_key keys seen = Ok (dists, seen')
    /\ (forall k, In k seen' <-> In k seen \/ In k keys)
    /\ (forall d, In d dists ->
                  exists key, In key keys /\ ~ In key seen
                              /\ PyDict.get String.eqb key by_key = Some d)
    /\ (forall key, In key keys -> ~ In key seen ->
                    exists d, In d dists
                              /\ PyDict.get String.eqb key by_key = Some d)
    /\ ((forall key d, PyDict.get String.eqb key by_key = Some d ->
                       Distribution_key d = key) ->
        NoDup (map Distribution_key dists)).
Proof.
  revert seen. induction keys as [|key keys IH]; intros seen Hall;
    cbn [iter_keys].
  - exists [], seen. split; [reflexivity|].
    split; [intros k; cbn; tauto|].
    split; [intros d []|]. split; [intros key []|]. intros _. constructor.
  - destruct (str_in_spec key seen) as [Hseen | Hnew].
    + destruct (IH seen) as (ds & seen' & -> & Hs & Hd & Hk & Hn).
      { intros k Hk. apply Hall. right. exact Hk. }
      exists ds, seen'. split; [reflexivity|].
      split; [|split; [|split; [|exact Hn]]].
      * intros k. rewrite Hs. cbn. split; [tauto|].
        intros [H | [<- | H]]; auto.
      * intros d Hin. destruct (Hd d Hin) as (k & Hk1 & Hk2 & Hk3).
        exists k. cbn. auto.
      * intros k [<- | Hin] Hns; [contradiction|]. apply Hk; assumption.
    + destruct (Hall key (or_introl eq_refl)) as [d0 Hd0]. rewrite Hd0.
      destruct (IH (key :: seen)) as (ds & seen' & -> & Hs & Hd & Hk & Hn).
      { intros k Hk. apply Hall. right. exact Hk. }
      cbn [bind]. exists (d0 :: ds), seen'. split; [reflexivity|].
      split; [|split; [|split]].
      * intros k. rewrite Hs. cbn. tauto.
      * intros d [<- | Hin]; [exists key; cbn; auto|].
        destruct (Hd d Hin) as (k & Hk1 & Hk2 & Hk3).
        exists k. cbn in *. tauto.
      * intros k [<- | Hin] Hns; [exists d0; cbn; auto|].
        destruct (String.eqb_spec k key) as [-> | Hne].
        -- exists d0. cbn. auto.
        -- destruct (Hk k Hin) as (d & Hd1 & Hd2).
           { cbn. intros [E | E]; [congruence | contradiction]. }
           exists d. cbn. auto.
      * intros Hkeys. cbn [map]. constructor; [|apply Hn; exact Hkeys].
        intros Hin. apply in_map_iff in Hin. destruct Hin as (d & Hdk & Hin).
        destruct (Hd d Hin) as (k & Hk1 & Hk2 & Hk3).
        rewrite (Hkeys _ _ Hk3) in Hdk. rewrite (Hkeys _ _ Hd0) in Hdk.
        subst k. apply Hk2. left. reflexivity.
Qed.

Lemma iter_entries_spec (self : WorkingSet) (entries seen : list string) :
  WorkingSet_consistent self ->
  exists dists,
    iter_entries self entries seen = Ok dists
    /\ NoDup (map Distribution_key dists)
    /\ (forall d, In d dists ->
                  ~ In (Distribution_key d) seen
                  /\ PyDict.get String.eqb (Distribution_key d)
                                (WorkingSet_by_key self) = Some d)
    /\ (forall item keys key,
           In item entries ->
           PyDict.get opt_str_eqb (Some item) (WorkingSet_entry_keys self)
           = Some keys ->
           In key keys -> ~ In key seen ->
           exists d, In d dists /\ Distribution_key d = key).
Proof.
  intros [H1 H2]. revert seen.
  induction entries as [|item entries IH]; intros seen; cbn [iter_entries].
  - exists []. split; [reflexivity|]. split; [constructor|].
    split; [intros d []|]. intros item keys key [].
  - destruct (PyDict.get opt_str_eqb (Some item) (WorkingSet_entry_keys self))
      as [keys|] eqn:Hkeys.
    + destruct (@iter_keys_spec (WorkingSet_by_key self) keys seen)
        as (ds & seen' & -> & Hs & Hd & Hk & Hn).
      { intros key Hkey. exact (H1 _ _ _ Hkeys Hkey). }
      cbn [bind]. destruct (IH seen') as (more & -> & Hn' & Hd' & Hk').
      cbn [bind]. exists (ds ++ more)%list. split; [reflexivity|].
      split; [|split].
      * rewrite map_app. apply NoDup_app; [exact (Hn H2) | exact Hn' |].
        intros k Hin1 Hin2.
        apply in_map_iff in Hin1. destruct Hin1 as (d & <- & Hin1).
        apply in_map_iff in Hin2. destruct Hin2 as (d' & Hdk & Hin2).
        destruct (Hd d Hin1) as (k & Hk1 & Hk2 & Hk3).
        destruct (Hd' d' Hin2) as [Hns _]. apply Hns. apply Hs.
        rewrite Hdk, (H2 _ _ Hk3). right. exact Hk1.
      * intros d H. apply in_app_or in H. destruct H as [H | H].
        -- destruct (Hd d H) as (k & Hk1 & Hk2 & Hk3).
           rewrite (H2 _ _ Hk3). auto.
        -- destruct (Hd' d H) as [Hns Hget]. split; [|exact Hget].
           intros Hin. apply Hns, Hs. auto.
      * intros item' keys' key [<- | Hin] Hget Hkey Hns.
        -- rewrite Hkeys in Hget. injection Hget as <-.
           destruct (Hk key Hkey Hns) as (d & Hd1 & Hd2).
           exists d. split; [apply in_or_app; left; exact Hd1|].
           exact (H2 _ _ Hd2).
        -- destruct (in_dec string_dec key keys) as [Hin' | Hout].
           ++ destruct (Hk key Hin' Hns) as (d & Hd1 & Hd2).
              exists d. split; [apply in_or_app; left; exact Hd1|].
              exact (H2 _ _ Hd2).
           ++ destruct (Hk' item' keys' key Hin Hget Hkey) as (d & Hd1 & Hd2).
              { intros Hseen. apply Hs in Hseen. tauto. }
              exists d. split; [apply in_or_app; right; exact Hd1 | exact Hd2].
    + destruct (IH seen) as (more & -> & Hn' & Hd' & Hk').
      exists more. split; [reflexivity|]. split; [exact Hn'|].
      split; [exact Hd'|].
      intros item' keys' key [<- | Hin] Hget Hkey Hns; [congruence|].
      exact (Hk' item' keys' key Hin Hget Hkey Hns).
Qed.

(** Iterating a working set that was built by its constructor and by
    [add] never fails with [KeyError]: it yields active distributions only,
    at most one for a project, and one for every key listed under an
    entry of the working set. *)
Theorem WorkingSet_iter_yields_each_project_once
        (entries : option (list string))
        (added : list (Distribution * option string * bool * bool)) :
  let self :=
    fold_left (fun ws '(dist, entry, insert, replace) =>
                 add ws dist entry insert replace)
              added (init entries) in
  exists dists,
    WorkingSet___iter__ self = Ok dists
    /\ NoDup (map Distribution_key dists)
    /\ (forall d, In d dists ->
                  PyDict.get String.eqb (Distribution_key d)
                             (WorkingSet_by_key self) = Some d)
    /\ (forall item keys key,
           In item (WorkingSet_entries self) ->
           PyDict.get opt_str_eqb (Some item) (WorkingSet_entry_keys self)
           = Some keys ->
           In key keys ->
           exists d, In d dists /\ Distribution_key d = key).
Proof.
  intros self.
  assert (Hc : WorkingSet_consistent self).
  { unfold self. generalize (WorkingSet_init_consistent entries).
    generalize (init entries).
    induction added as [|[[[d e] i] r] added IH]; intros ws H;
      cbn [fold_left]; [exact H|].
    apply IH. apply WorkingSet_add_consistent. exact H. }
  destruct (@iter_entries_spec self (WorkingSet_entries self) [] Hc)
    as (dists & Hit & Hn & Hd & Hk).
  exists dists. split; [exact Hit|]. split; [exact Hn|]. split.
  - intros d Hin. apply Hd. exact Hin.
  - intros item keys key Hin Hget Hkey.
    apply (Hk item keys key Hin Hget Hkey). intros [].
Qed.

End WorkingSets.

(** ** pkg_resources: what resolution returns *)

Section ResolutionSoundness.

Import pkg_resources.

Context {P : Packaging}.

Variable find_distributions : string -> bool -> list Distribution.
Variable sys_path : list string.
Variable supported_platform : option string.
Variable PY_MAJOR : string.
Variable insert_on :
  Distribution -> list string -> option string -> bool -> list string.

Local Abbreviation resolve :=
  (WorkingSet_resolve find_distributions sys_path supported_platform PY_MAJOR
                      insert_on).
Local Abbreviation resolve_loop :=
  (resolve_loop find_distributions sys_path supported_platform PY_MAJOR
                insert_on).
Local Abbreviation resolve_dist :=
  (WorkingSet__resolve_dist find_distributions sys_path supported_platform
                            PY_MAJOR insert_on).

Lemma set_key_same (req : Requirement) :
  set_key req (Requirement_key req) = req.
Proof. destruct req. reflexivity. Qed.

Lemma set_key_twice (req : Requirement) (k k' : string) :
  set_key (set_key req k) k' = set_key req k'.
Proof. reflexivity. Qed.

Lemma first_match_spec (req : Requirement) (dists : list Distribution) :
  match first_match req dists with
  | Ok (Some d) =>
      exists before after,
        dists = (before ++ d :: after)%list
        /\ Forall (fun x => Requirement___contains__ req x = Ok false) before
        /\ Requirement___contains__ req d = Ok true
  | Ok None =>
      Forall (fun x => Requirement___contains__ req x = Ok false) dists
  | Raise _ => True
  end.
Proof.
  induction dists as [|x dists IH]; cbn [first_match]; [constructor|].
  destruct (Requirement___contains__ req x) as [[|] | e] eqn:Hx; cbn [bind];
    [| |exact I].
  - exists [], dists. repeat split; [constructor | exact Hx].
  - destruct (first_match req dists) as [[d|] | e]; [| |exact I].
    + destruct IH as (before & after & -> & Hb & Hd).
      exists (x :: before), after. repeat split; [constructor; assumption|].
      exact Hd.
    + constructor; assumption.
Qed.

Lemma find_spec (self : WorkingSet) (req req' : Requirement)
      (found : Res (option Distribution)) :
  WorkingSet_find self req = (req', found) ->
  (exists k, req' = set_key req k)
  /\ (forall d, found = Ok (Some d) ->
                Requirement___contains__ req' d = Ok true).
Proof.
  unfold WorkingSet_find.
  destruct (find_candidate (WorkingSet_by_key self) (find_candidates self req))
    as [[candidate dist]|].
  - intros H. injection H as <- <-. split; [eauto|].
    intros d. destruct (Requirement___contains__ _ dist) as [[|] | e] eqn:Hc;
      cbn [bind negb]; try discriminate.
    intros H. injection H as <-. exact Hc.
  - intros H. injection H as <- <-. split; [|discriminate].
    exists (Requirement_key req). symmetry. apply set_key_same.
Qed.

Lemma best_match_req (env : Environment) (req req' : Requirement)
      (ws : WorkingSet)
      (installer : option (Requirement -> option Distribution))
      (rc : bool) (found : Res (option Distribution)) :
  Environment_best_match env req ws installer rc = (req', found) ->
  exists k, req' = set_key req k.
Proof.
  unfold Environment_best_match.
  destruct (WorkingSet_find ws req) as [req1 found1] eqn:Hfind.
  intros H. injection H as <- _.
  exact (proj1 (find_spec _ _ Hfind)).
Qed.

Lemma from_environment_spec (env : Environment) (req : Requirement) :
  let found :=
    candidate <- first_match req
                   (Environment___getitem__ env (Requirement_key req)) ;;
    match candidate with
    | Some d => Ok (Some d)
    | None => Ok None
    end in
  (forall d, found = Ok (Some d) -> Requirement___contains__ req d = Ok true)
  /\ (found = Ok None ->
      Forall (fun x => Requirement___contains__ req x = Ok false)
             (Environment___getitem__ env (Requirement_key req)))
  /\ (forall d, found = Ok (Some d) ->
        exists before after,
          Environment___getitem__ env (Requirement_key req)
          = (before ++ d :: after)%list
          /\ Forall (fun x => Requirement___contains__ req x = Ok false)
                    before).
Proof.
  intros found. subst found.
  pose proof (first_match_spec req
                (Environment___getitem__ env (Requirement_key req))) as Hfm.
  destruct (first_match req _) as [[d1|] | e]; cbn [bind].
  - destruct Hfm as (before & after & Hl & Hb & Hd). split; [|split].
    + intros d H. injection H as <-. exact Hd.
    + discriminate.
    + intros d H. injection H as <-. exists before, after.
      split; [exact Hl | exact Hb].
  - split; [discriminate|]. split; [intros _; exact Hfm|].
    intros d H. discriminate.
  - split; [discriminate|]. split; discriminate.
Qed.

(** Without an installer, [best_match] returns a distribution only if
    the requirement contains it, and returns [None] only if the
    requirement contains none of the distributions the environment has for
    the key.  When the distribution is not the active one of the working
    set, it is the first of the environment's list that fits: the
    requirement contains none of those before it in the list. *)
Theorem Environment_best_match_satisfies
        (env : Environment) (req req' : Requirement) (ws : WorkingSet)
        (rc : bool) (found : Res (option Distribution)) :
  Environment_best_match env req ws None rc = (req', found) ->
  (forall d, found = Ok (Some d) ->
             Requirement___contains__ req' d = Ok true)
  /\ (found = Ok None ->
      Forall (fun x => Requirement___contains__ req' x = Ok false)
             (Environment___getitem__ env (Requirement_key req')))
  /\ (forall d, found = Ok (Some d) ->
                snd (WorkingSet_find ws req) <> Ok (Some d) ->
                exists before after,
                  Environment___getitem__ env (Requirement_key req')
                  = (before ++ d :: after)%list
                  /\ Forall (fun x => Requirement___contains__ req' x
                                      = Ok false) before).
Proof.
  unfold Environment_best_match.
  destruct (WorkingSet_find ws req) as [req1 found1] eqn:Hfind.
  destruct (find_spec _ _ Hfind) as [_ Hsat].
  intros H. injection H as <- <-. cbn [snd].
  destruct (from_environment_spec env req1) as (He1 & He2 & He3).
  assert (Hraise : forall e : exn,
             (forall d, @Raise exn (option Distribution) e = Ok (Some d) ->
                        Requirement___contains__ req1 d = Ok true)
             /\ (@Raise exn (option Distribution) e = Ok None ->
                 Forall (fun x => Requirement___contains__ req1 x = Ok false)
                        (Environment___getitem__ env (Requirement_key req1)))
             /\ (forall d, @Raise exn (option Distribution) e = Ok (Some d) ->
                           found1 <> Ok (Some d) ->
                           exists before after,
                             Environment___getitem__
                               env (Requirement_key req1)
                             = (before ++ d :: after)%list
                             /\ Forall (fun x => Requirement___contains__
                                                   req1 x = Ok false)
                                       before))
    by (intros e; repeat split; discriminate).
  destruct found1 as [[d0|] | e]; cbn [bind Environment_obtain].
  - split; [|split].
    + intros d H. injection H as <-. apply Hsat. reflexivity.
    + discriminate.
    + intros d H Hne. congruence.
  - split; [exact He1|]. split; [exact He2|].
    intros d H _. exact (He3 d H).
  - destruct e; try apply Hraise.
    destruct rc; cbn [negb bind]; [|apply Hraise].
    split; [exact He1|]. split; [exact He2|].
    intros d0 H _. exact (He3 d0 H).
Qed.

Lemma search_spec (env_ws : Res (Environment * WorkingSet))
      (req : Requirement) (best : list (string * Distribution))
      (installer : option (Requirement -> option Distribution)) (rc : bool)
      (required_by : list (Requirement * list string))
      (ta : list Distribution)
      (d : Distribution) (b : list (string * Distribution))
      (t : list Distribution) (r : Requirement) :
  ('(env, ws) <- env_ws ;;
   let '(req, found) := Environment_best_match env req ws installer rc in
   found <- found ;;
   match found with
   | None =>
       Raise (DistributionNotFound req
                (PyDict.get Requirement___eq__ req required_by))
   | Some dist =>
       Ok (dist, PyDict.set String.eqb (Requirement_key req) dist best,
           (ta ++ [dist])%list, req)
   end) = Ok (d, b, t, r) ->
  (forall k x, PyDict.get String.eqb k best = Some x -> In x ta) ->
  In d t /\ incl ta t
  /\ (forall k x, PyDict.get String.eqb k b = Some x -> In x t)
  /\ exists k, r = set_key req k.
Proof.
  destruct env_ws as [[env ws] | e]; cbn [bind]; [|discriminate].
  destruct (Environment_best_match env req ws installer rc)
    as [req1 found] eqn:Hbm.
  destruct found as [[dist|] | e]; cbn [bind]; try discriminate.
  intros H HA. injection H as <- <- <- <-.
  split; [apply in_or_app; right; left; reflexivity|].
  split; [intros x Hx; apply in_or_app; left; exact Hx|].
  split; [|exact (best_match_req _ _ _ _ _ Hbm)].
  intros k x Hget.
  destruct (String.eqb_spec k (Requirement_key req1)) as [-> | Hne].
  - rewrite (@get_set_same _ _ _ String.eqb_spec) in Hget.
    injection Hget as <-. apply in_or_app. right. left. reflexivity.
  - rewrite (@get_set_other _ _ _ String.eqb_spec _ _ _ _ Hne) in Hget.
    apply in_or_app. left. exact (HA _ _ Hget).
Qed.

Lemma resolve_dist_spec (self : WorkingSet) (req : Requirement)
      (best : list (string * Distribution)) (rc : bool)
      (env : option Environment)
      (installer : option (Requirement -> option Distribution))
      (required_by : list (Requirement * list string))
      (ta : list Distribution)
      (dist : Distribution) (best' : list (string * Distribution))
      (ta' : list Distribution) (req' : Requirement) :
  resolve_dist self req best rc env installer required_by ta
  = Ok (dist, best', ta', req') ->
  (forall k x, PyDict.get String.eqb k best = Some x -> In x ta) ->
  Requirement___contains__ req' dist = Ok true
  /\ In dist ta' /\ incl ta ta'
  /\ (forall k x, PyDict.get String.eqb k best' = Some x -> In x ta')
  /\ exists k, req' = set_key req k.
Proof.
  unfold WorkingSet__resolve_dist. intros H HA.
  match type of H with
  | bind ?X _ = _ => destruct X as [[[[d b] t] r] | e] eqn:HX
  end; cbn [bind] in H; [|discriminate].
  destruct (Requirement___contains__ r d) as [[|] | e] eqn:Hc;
    cbn [bind negb] in H; try discriminate.
  injection H as <- <- <- <-. split; [exact Hc|].
  destruct (PyDict.get String.eqb (Requirement_key req) best) as [d0|] eqn:Hb.
  { injection HX as <- <- <- <-.
    split; [exact (HA _ _ Hb)|]. split; [intros x Hx; exact Hx|].
    split; [exact HA|]. exists (Requirement_key req). symmetry.
    apply set_key_same. }
  destruct (PyDict.get String.eqb (Requirement_key req)
                       (WorkingSet_by_key self)) as [d1|].
  2:{ exact (search_spec _ _ _ _ _ _ _ HX HA). }
  destruct (Requirement___contains__ req d1) as [inside | e]; cbn [bind] in HX;
    [|discriminate].
  destruct (negb inside && rc).
  { exact (search_spec _ _ _ _ _ _ _ HX HA). }
  injection HX as <- <- <- <-.
  split; [apply in_or_app; right; left; reflexivity|].
  split; [intros x Hx; apply in_or_app; left; exact Hx|].
  split; [|exists (Requirement_key req); symmetry; apply set_key_same].
  intros k x Hget. apply in_or_app. left. exact (HA _ _ Hget).
Qed.

Hypothesis specifier_eqb_refl : forall s : SpecifierSet, specifier_eqb s s = true.

Lemma frozenset_eqb_refl (l : list string) : frozenset_eqb l l = true.
Proof.
  unfold frozenset_eqb.
  assert (H : forallb (fun x => str_in x l) l = true).
  { apply forallb_forall. intros x Hx. unfold str_in.
    apply existsb_exists. exists x. split; [exact Hx | apply String.eqb_refl]. }
  rewrite H. reflexivity.
Qed.

Lemma Requirement_eq_refl (req : Requirement) :
  Requirement___eq__ req req = true.
Proof.
  unfold Requirement___eq__, ReqHashCmp_eqb.
  destruct (Requirement_hashCmp req) as [[[[k u] s] e] m].
  rewrite String.eqb_refl, specifier_eqb_refl, frozenset_eqb_refl.
  destruct u as [u|], m as [m|]; cbn [option_eqb];
    rewrite ?String.eqb_refl; reflexivity.
Qed.

Lemma taken_up_step (processed processed' requirements requirements' :
                       list Requirement) (req r : Requirement) :
  taken_up processed (req :: requirements) r ->
  incl processed processed' -> incl requirements requirements' ->
  (r = req -> exists r', In r' processed' /\ Requirement___eq__ r' req = true) ->
  taken_up processed' requirements' r.
Proof.
  intros [[<- | Hin] | (r' & Hr' & He)] Hp Hr Hreq.
  - right. apply Hreq. reflexivity.
  - left. apply Hr. exact Hin.
  - right. exists r'. split; [apply Hp; exact Hr' | exact He].
Qed.

Lemma met_step (processed processed' pending pending' : list Requirement)
      (ta ta' : list Distribution) (x : Requirement) :
  requirement_met processed pending ta x ->
  incl ta ta' ->
  (forall dep, Requirement_marker dep = None ->
               taken_up processed pending dep ->
               taken_up processed' pending' dep) ->
  requirement_met processed' pending' ta' x.
Proof.
  intros (dist & deps & Hd & Hc & Hdeps & Hall) Hta Hstep.
  exists dist, deps. split; [apply Hta; exact Hd|]. split; [exact Hc|].
  split; [exact Hdeps|]. intros dep Hdep Hm. apply Hstep; auto.
Qed.

Lemma resolve_loop_sound
      (self : WorkingSet) (env : option Environment)
      (installer : option (Requirement -> option Distribution))
      (rc : bool) (extras : option (list string))
      (roots : list Requirement) (fuel : nat) :
  forall (st : ResolveState) (to_activate : list Distribution),
    resolve_invariant roots st ->
    resolve_loop fuel self env installer rc extras st = Some (Ok to_activate) ->
    exists processed,
      (forall req, In req roots -> Requirement_marker req = None ->
                   exists r, In r processed /\ Requirement___eq__ r req = true)
      /\ forall req, In req processed ->
                     requirement_met processed [] to_activate req.
Proof.
  induction fuel as [|fuel IH]; intros st L (HA & HB & HC).
  - cbn [pkg_resources.resolve_loop].
    destruct (rs_requirements st) as [|req requirements] eqn:Hreqs;
      [|discriminate].
    intros H. injection H as <-. exists (rs_processed st). split.
    + intros req Hin Hm. destruct (HC req Hin Hm) as [[] | H]. exact H.
    + exact HB.
  - cbn [pkg_resources.resolve_loop].
    destruct (rs_requirements st) as [|req requirements] eqn:Hreqs.
    { intros H. injection H as <-. exists (rs_processed st). split.
      + intros req Hin Hm. destruct (HC req Hin Hm) as [[] | H]. exact H.
      + exact HB. }
    assert (Hskip :
             (forall r, Requirement_marker r = None -> r = req ->
                        exists r', In r' (rs_processed st)
                                   /\ Requirement___eq__ r' req = true) ->
             resolve_invariant roots
               {| rs_requirements := requirements;
                  rs_processed := rs_processed st;
                  rs_best := rs_best st;
                  rs_to_activate := rs_to_activate st;
                  rs_req_extras := rs_req_extras st;
                  rs_required_by := rs_required_by st |}).
    { intros Hreq.
      assert (Hstep : forall r, Requirement_marker r = None ->
                 taken_up (rs_processed st) (req :: requirements) r ->
                 taken_up (rs_processed st) requirements r).
      { intros r Hm Ht.
        apply (taken_up_step Ht); [apply incl_refl | apply incl_refl |].
        intros E. exact (Hreq r Hm E). }
      split; [exact HA|]. split; cbn [rs_processed rs_requirements
                                       rs_to_activate].
      - intros x Hx. apply (met_step (HB x Hx)); [apply incl_refl|].
        exact Hstep.
      - intros r Hr Hm. apply Hstep; [exact Hm|]. exact (HC r Hr Hm). }
    destruct (req_in req (rs_processed st)) eqn:Hseen.
    { apply IH. apply Hskip. intros r _ _.
      unfold req_in in Hseen. apply existsb_exists in Hseen. exact Hseen. }
    destruct (markers_pass (rs_req_extras st) req extras) eqn:Hmark;
      cbn [negb].
    2:{ apply IH. apply Hskip. intros r Hm ->.
        rewrite (@markers_pass_without_marker _ _ _ _ Hm) in Hmark.
        discriminate. }
    destruct (pkg_resources.WorkingSet__resolve_dist _ _ _ _ _ _ _ _ _ _ _ _ _)
      as [[[[dist best'] ta'] req'] | e] eqn:Hrd; cbn [bind];
      [|discriminate].
    destruct (Distribution_requires dist (Requirement_extras req'))
      as [deps | e] eqn:Hdeps; cbn [bind]; [|discriminate].
    destruct (register (List.rev deps) req' (rs_required_by st)
                       (rs_req_extras st)) as [required_by' req_extras'].
    apply IH.
    destruct (resolve_dist_spec _ _ _ _ _ _ _ _ Hrd HA)
      as (Hc & Hdist & Hta & HA' & k & Hk).
    set (processed' := if req_in req' (rs_processed st)
                       then rs_processed st
                       else (rs_processed st ++ [req'])%list).
    assert (Hincl : incl (rs_processed st) processed').
    { unfold processed'. destruct (req_in req' (rs_processed st));
        [apply incl_refl | apply incl_appl, incl_refl]. }
    assert (Hreq : exists r', In r' processed'
                              /\ Requirement___eq__ r' req = true).
    { unfold processed'.
      destruct (req_in req' (rs_processed st)) eqn:Hseen'.
      - unfold req_in in Hseen'. apply existsb_exists in Hseen'.
        destruct Hseen' as (r0 & Hr0 & He). exists r0. split; [exact Hr0|].
        rewrite Hk in He. exact He.
      - exists req'. split; [apply in_or_app; right; left; reflexivity|].
        rewrite Hk. exact (Requirement_eq_refl req). }
    assert (Hstep : forall r, Requirement_marker r = None ->
               taken_up (rs_processed st) (req :: requirements) r ->
               taken_up processed' (requirements ++ List.rev deps) r).
    { intros r Hm Ht.
      apply (taken_up_step Ht);
        [exact Hincl | apply incl_appl, incl_refl | intros _; exact Hreq]. }
    split; [exact HA'|].
    split; cbn [rs_processed rs_requirements rs_to_activate].
    + intros x Hx. fold processed' in Hx.
      assert (Hold : In x (rs_processed st) ->
                     requirement_met processed'
                       (requirements ++ List.rev deps) ta' x).
      { intros Hin. apply (met_step (HB x Hin)); [exact Hta | exact Hstep]. }
      unfold processed' in Hx.
      destruct (req_in req' (rs_processed st)); [exact (Hold Hx)|].
      apply in_app_or in Hx. destruct Hx as [Hx | [<- | []]];
        [exact (Hold Hx)|].
      exists dist, deps. split; [exact Hdist|]. split; [exact Hc|].
      split; [exact Hdeps|]. intros dep Hdep _. left.
      apply in_or_app. right. apply in_rev in Hdep. exact Hdep.
    + intros r Hr Hm. apply Hstep; [exact Hm|]. exact (HC r Hr Hm).
Qed.

(** What a successful [resolve] returns is sound.  There is a set of
    processed requirements such that every requirement given that has no
    marker equals one of them, each of them is satisfied by one of the
    distributions returned, and the dependencies of that distribution for
    the extras of the requirement, those without a marker, again equal
    processed requirements: the distributions returned satisfy the
    requirements and, transitively, what they depend on. *)
Theorem WorkingSet_resolve_is_sound
        (fuel : nat) (self : WorkingSet) (requirements : list Requirement)
        (env : option Environment)
        (installer : option (Requirement -> option Distribution))
        (replace_conflicting : bool) (extras : option (list string))
        (to_activate : list Distribution) :
  resolve fuel self requirements env installer replace_conflicting extras
  = Some (Ok to_activate) ->
  exists processed,
    (forall req, In req requirements -> Requirement_marker req = None ->
                 exists r, In r processed /\ Requirement___eq__ r req = true)
    /\ forall req, In req processed ->
         exists dist deps,
           In dist to_activate
           /\ Requirement___contains__ req dist = Ok true
           /\ Distribution_requires dist (Requirement_extras req) = Ok deps
           /\ forall dep, In dep deps -> Requirement_marker dep = None ->
                exists r, In r processed /\ Requirement___eq__ r dep = true.
Proof.
  unfold WorkingSet_resolve. intros H.
  apply resolve_loop_sound with (roots := requirements) in H.
  - destruct H as (processed & Hroots & Hmet). exists processed.
    split; [exact Hroots|]. intros req Hreq.
    destruct (Hmet req Hreq) as (dist & deps & Hd & Hc & Hdeps & Hall).
    exists dist, deps. repeat split; auto.
    intros dep Hdep Hm. destruct (Hall dep Hdep Hm) as [[] | Ht]. exact Ht.
  - split; [intros key dist H'; discriminate|].
    split; cbn [rs_processed rs_requirements rs_to_activate].
    + intros req [].
    + intros req Hin _. left. apply in_rev in Hin. exact Hin.
Qed.

End ResolutionSoundness.

(** ** pkg_resources: requirements of a distribution and sectioned lines *)

Section Requires.

Import pkg_resources.

Context {P : Packaging}.

Lemma requires_extras_app (dm : list (option string * list Requirement))
      (e1 e2 : list string) :
  requires_extras dm (e1 ++ e2)
  = (r1 <- requires_extras dm e1 ;;
     r2 <- requires_extras dm e2 ;; Ok (r1 ++ r2)%list).
Proof.
  induction e1 as [|ext e1 IH]; cbn [app requires_extras bind].
  - destruct (requires_extras dm e2); reflexivity.
  - destruct (PyDict.get opt_str_eqb (Some (safe_extra ext)) dm);
      [|reflexivity].
    rewrite IH. destruct (requires_extras dm e1); cbn [bind]; [|reflexivity].
    destruct (requires_extras dm e2); cbn [bind]; [|reflexivity].
    rewrite app_assoc. reflexivity.
Qed.

Lemma requires_extras_ok (dm : list (option string * list Requirement))
      (extras : list string) (more : list Requirement) :
  requires_extras dm extras = Ok more ->
  forall ext, In ext extras ->
    exists reqs, PyDict.get opt_str_eqb (Some (safe_extra ext)) dm = Some reqs
                 /\ incl reqs more.
Proof.
  revert more. induction extras as [|e extras IH]; intros more H ext Hin;
    [destruct Hin|].
  cbn [requires_extras] in H.
  destruct (PyDict.get opt_str_eqb (Some (safe_extra e)) dm) as [reqs|] eqn:He;
    [|discriminate].
  destruct (requires_extras dm extras) as [rest | err]; cbn [bind] in H;
    [|discriminate].
  injection H as <-. destruct Hin as [<- | Hin].
  - exists reqs. split; [exact He | apply incl_appl, incl_refl].
  - destruct (IH rest eq_refl ext Hin) as (reqs' & Hget & Hincl).
    exists reqs'. split; [exact Hget | apply incl_appr; exact Hincl].
Qed.

Lemma requires_extras_unknown (dm : list (option string * list Requirement))
      (before after : list string) (ext : string) :
  Forall (fun x => PyDict.get opt_str_eqb (Some (safe_extra x)) dm <> None)
         before ->
  PyDict.get opt_str_eqb (Some (safe_extra ext)) dm = None ->
  requires_extras dm (before ++ ext :: after) = Raise (UnknownExtra ext).
Proof.
  intros Hb Hnone. induction Hb as [|x before Hx _ IH];
    cbn [app requires_extras].
  - rewrite Hnone. reflexivity.
  - destruct (PyDict.get opt_str_eqb (Some (safe_extra x)) dm);
      [|congruence].
    rewrite IH. reflexivity.
Qed.

(** [requires] lists the requirements outside extras first and then, in
    the order asked, those of each extra, which is looked up by its normal
    form, so that an extra and its normal form ask for the same; asking for
    the extras of two lists is asking for them one after the other; and
    when an extra asked for is not among those of the distribution,
    [UnknownExtra] is raised for the first such extra: the one that the
    distribution lacks while it has all those asked for before it. *)
Theorem Distribution_requires_by_extra
        (d : Distribution) (extras extras' : list string) (ext : string) :
  let base := match PyDict.get opt_str_eqb None (Distribution__dep_map d) with
              | Some reqs => reqs
              | None => []
              end in
  Distribution_requires d [] = Ok base
  /\ (forall deps, Distribution_requires d extras = Ok deps ->
        (exists more, deps = (base ++ more)%list)
        /\ forall e, In e extras ->
             exists reqs,
               PyDict.get opt_str_eqb (Some (safe_extra e))
                          (Distribution__dep_map d) = Some reqs
               /\ incl reqs deps)
  /\ (forall deps, Distribution_requires d [ext] = Ok deps <->
                   Distribution_requires d [safe_extra ext] = Ok deps)
  /\ (forall deps deps',
         Distribution_requires d extras = Ok deps ->
         Distribution_requires d extras' = Ok (base ++ deps')%list ->
         Distribution_requires d (extras ++ extras') = Ok (deps ++ deps')%list)
  /\ (forall before after,
         Forall (fun x => PyDict.get opt_str_eqb (Some (safe_extra x))
                                     (Distribution__dep_map d) <> None)
                before ->
         PyDict.get opt_str_eqb (Some (safe_extra ext))
                    (Distribution__dep_map d) = None ->
         Distribution_requires d (before ++ ext :: after)
         = Raise (UnknownExtra ext)).
Proof.
  intros base. unfold Distribution_requires. fold base.
  split; [cbn; rewrite app_nil_r; reflexivity|].
  split; [|split; [|split]].
  - intros deps H.
    destruct (requires_extras (Distribution__dep_map d) extras)
      as [more | e] eqn:Hmore; cbn [bind] in H; [|discriminate].
    injection H as <-. split; [eauto|].
    intros e He. destruct (requires_extras_ok _ _ Hmore e He)
      as (reqs & Hget & Hincl).
    exists reqs. split; [exact Hget | apply incl_appr; exact Hincl].
  - intros deps. cbn [requires_extras].
    rewrite safe_extra_idempotent.
    destruct (PyDict.get opt_str_eqb (Some (safe_extra ext))
                         (Distribution__dep_map d)); cbn [bind];
      split; intros H; try discriminate; exact H.
  - intros deps deps' H H'. rewrite requires_extras_app.
    destruct (requires_extras (Distribution__dep_map d) extras)
      as [more | e]; cbn [bind] in *; [|discriminate].
    destruct (requires_extras (Distribution__dep_map d) extras')
      as [more' | e]; cbn [bind] in *; [|discriminate].
    injection H as <-. injection H' as H'. apply app_inv_head in H'.
    subst deps'. rewrite app_assoc. reflexivity.
  - intros before after Hb Hnone.
    rewrite (@requires_extras_unknown _ _ after _ Hb Hnone). reflexivity.
Qed.

End Requires.


Section SplitSections.

Import pkg_resources.

Local Abbreviation heading_ok :=
  (fun line => PyStr.startswith "[" line = true ->
               PyStr.endswith "]" line = true).

Lemma split_sections_loop_spec (lines : list string) :
  forall (section : option string) (content : list string),
    match split_sections_loop lines section content with
    | (segments, None) =>
        Forall heading_ok lines
        /\ List.concat (map snd segments)
           = (content
              ++ filter (fun l => negb (PyStr.startswith "[" l)) lines)%list
        /\ exists first rest,
            segments = first :: rest
            /\ Forall (fun s => exists n, fst s = Some n) rest
            /\ (fst first = section \/ exists n, fst first = Some n)
    | (segments, Some e) =>
        exists before line after,
          lines = (before ++ line :: after)%list
          /\ Forall heading_ok before
          /\ PyStr.startswith "[" line = true
          /\ PyStr.endswith "]" line = false
          /\ e = ValueError ["Invalid section heading"; line]
    end.
Proof.
  induction lines as [|line lines IH]; intros section content;
    cbn [split_sections_loop].
  - split; [constructor|]. split; [cbn; rewrite app_nil_r; reflexivity|].
    exists (section, content), []. split; [reflexivity|].
    split; [constructor | left; reflexivity].
  - destruct (PyStr.startswith "[" line) eqn:Hs.
    + destruct (PyStr.endswith "]" line) eqn:He.
      * specialize (IH (Some (PyStr.strip (strip_brackets line))) []).
        destruct (split_sections_loop lines _ []) as [segments [e|]].
        -- destruct IH as (before & bad & after & -> & Hb & Hbs & Hbe & ->).
           assert (Hgoal :
                    exists before0 line0 after0,
                      line :: (before ++ bad :: after)%list
                      = (before0 ++ line0 :: after0)%list
                      /\ Forall heading_ok before0
                      /\ PyStr.startswith "[" line0 = true
                      /\ PyStr.endswith "]" line0 = false
                      /\ ValueError ["Invalid section heading"; bad]
                         = ValueError ["Invalid section heading"; line0]).
           { exists (line :: before), bad, after. split; [reflexivity|].
             split; [constructor; [intros _; exact He | exact Hb]|]. auto. }
           destruct (section_truthy section
                     || match content with [] => false | _ => true end);
             exact Hgoal.
        -- destruct IH as (Hok & Hcat & first & rest & -> & Hrest & Hfirst).
           cbn [filter negb]. rewrite Hs. cbn [negb].
           assert (Hfirst' : exists n, fst first = Some n)
             by (destruct Hfirst as [H | H]; eauto).
           destruct (section_truthy section
                     || match content with [] => false | _ => true end)
             eqn:Hyield.
           ++ split; [constructor; [intros _; exact He | exact Hok]|].
              split.
              { change (List.concat
                          (map snd ((section, content) :: first :: rest)))
                  with (content
                        ++ List.concat (map snd (first :: rest)))%list.
                rewrite Hcat. reflexivity. }
              exists (section, content), (first :: rest).
              split; [reflexivity|].
              split; [constructor; assumption | left; reflexivity].
           ++ apply orb_false_iff in Hyield as [_ Hc].
              destruct content; [|discriminate].
              split; [constructor; [intros _; exact He | exact Hok]|].
              split; [exact Hcat|].
              exists first, rest. split; [reflexivity|]. auto.
      * exists [], line, lines. repeat split; auto.
    + specialize (IH section (content ++ [line])%list).
      destruct (split_sections_loop lines section (content ++ [line]))
        as [segments [e|]].
      * destruct IH as (before & bad & after & -> & Hb & Hbs & Hbe & ->).
        exists (line :: before), bad, after. split; [reflexivity|].
        split; [constructor; [rewrite Hs; discriminate | exact Hb]|]. auto.
      * destruct IH as (Hok & Hcat & Hsegs).
        split; [constructor; [rewrite Hs; discriminate | exact Hok]|].
        split; [|exact Hsegs].
        cbn [filter]. rewrite Hs. cbn [negb]. rewrite Hcat, <- app_assoc.
        reflexivity.
Qed.

(** [split_sections] loses no line: when every line that opens with a
    bracket also closes with one, the contents of the segments, put
    together, are the lines that are not headings, in order; there is
    always at least one segment, also for no lines at all, and only the
    first can be the segment outside sections.  Otherwise the generator
    ends with [ValueError] for the first line that opens with a bracket
    and does not close with one. *)
Theorem split_sections_keeps_every_line (lines : list string) :
  match split_sections lines with
  | (segments, None) =>
      Forall heading_ok lines
      /\ List.concat (map snd segments)
         = filter (fun l => negb (PyStr.startswith "[" l)) lines
      /\ exists first rest,
          segments = first :: rest
          /\ Forall (fun s => exists n, fst s = Some n) rest
  | (segments, Some e) =>
      exists before line after,
        lines = (before ++ line :: after)%list
        /\ Forall heading_ok before
        /\ PyStr.startswith "[" line = true
        /\ PyStr.endswith "]" line = false
        /\ e = ValueError ["Invalid section heading"; line]
  end.
Proof.
  unfold split_sections.
  pose proof (split_sections_loop_spec lines None []) as H.
  destruct (split_sections_loop lines None []) as [segments [e|]];
    [exact H|].
  destruct H as (Hok & Hcat & first & rest & Hseg & Hrest & _).
  split; [exact Hok|]. split; [exact Hcat|]. eauto.
Qed.

End SplitSections.

(** ** pkg_resources: zipped eggs *)

Section ZipProviders.

Import pkg_resources.

Variable os_name : string.
Variable os_sep : ascii.
Variable os_path_join : string -> list string -> string.
Variable os_path_split : string -> string * string.
Variable time_mktime : list Z -> Z.
Variable WRITE_SUPPORT : bool.
Variable default_cache : string.
Variable mkstemp_name : FileSystem -> string -> string -> string.
Variable _warn_unsafe_extraction_path :
  FileSystem -> string -> result builtin_exn unit.

Local Abbreviation cache_path :=
  (get_cache_path os_path_join os_path_split WRITE_SUPPORT default_cache
                  _warn_unsafe_extraction_path).
Local Abbreviation current := (_is_current time_mktime).
Local Abbreviation file :=
  (extract_file os_name os_path_split time_mktime mkstemp_name).
Local Abbreviation member :=
  (extract_member os_name os_sep os_path_join os_path_split time_mktime
                  WRITE_SUPPORT default_cache mkstemp_name
                  _warn_unsafe_extraction_path).
Local Abbreviation each :=
  (extract_each os_path_join os_path_split).
Local Abbreviation extract :=
  (_extract_resource os_name os_sep os_path_join os_path_split time_mktime
                     WRITE_SUPPORT default_cache mkstemp_name
                     _warn_unsafe_extraction_path).
Local Abbreviation index := (_index os_sep).
Local Abbreviation sep := (sep os_sep).

(** *** The index of directories *)

Lemma index_add_keeps (parts_rev : list string) :
  forall (ind : list (string * list string)) (k : string)
         (c : list string),
    PyDict.get String.eqb k ind = Some c ->
    exists c', PyDict.get String.eqb k (index_add os_sep parts_rev ind)
               = Some c'
               /\ incl c c'.
Proof.
  induction parts_rev as [|last init_rev IH]; intros ind k c Hk;
    cbn [index_add].
  - exists c. split; [exact Hk | apply incl_refl].
  - destruct (PyDict.get String.eqb (PyStr.join sep (List.rev init_rev)) ind)
      as [children|] eqn:Hparent.
    + destruct (String.eqb_spec k (PyStr.join sep (List.rev init_rev)))
        as [-> | Hne].
      * rewrite (@get_set_same _ _ _ String.eqb_spec).
        exists (children ++ [last])%list. split; [reflexivity|].
        rewrite Hparent in Hk. injection Hk as <-.
        apply incl_appl, incl_refl.
      * rewrite (@get_set_other _ _ _ String.eqb_spec _ _ _ _ Hne).
        exists c. split; [exact Hk | apply incl_refl].
    + apply IH.
      assert (Hne : k <> PyStr.join sep (List.rev init_rev))
        by (intros ->; congruence).
      rewrite (@get_set_other _ _ _ String.eqb_spec _ _ _ _ Hne). exact Hk.
Qed.

Lemma index_add_lists (last : string) (init_rev : list string)
      (ind : list (string * list string)) :
  exists c,
    PyDict.get String.eqb (PyStr.join sep (List.rev init_rev))
               (index_add os_sep (last :: init_rev) ind) = Some c
    /\ In last c.
Proof.
  cbn [index_add].
  destruct (PyDict.get String.eqb (PyStr.join sep (List.rev init_rev)) ind)
    as [children|] eqn:Hparent.
  - rewrite (@get_set_same _ _ _ String.eqb_spec).
    exists (children ++ [last])%list. split; [reflexivity|].
    apply in_or_app. right. left. reflexivity.
  - destruct (@index_add_keeps init_rev
                (PyDict.set String.eqb (PyStr.join sep (List.rev init_rev))
                            [last] ind)
                (PyStr.join sep (List.rev init_rev)) [last])
      as (c' & Hc' & Hincl).
    { apply (@get_set_same _ _ _ String.eqb_spec). }
    exists c'. split; [exact Hc'|]. apply Hincl. left. reflexivity.
Qed.

Lemma index_fold_keeps (paths : list string) :
  forall (ind : list (string * list string)) (k : string)
         (c : list string),
    PyDict.get String.eqb k ind = Some c ->
    exists c',
      PyDict.get String.eqb k
        (fold_left (fun ind path =>
                      index_add os_sep (List.rev (PyStr.split os_sep path)) ind)
                   paths ind) = Some c'
      /\ incl c c'.
Proof.
  induction paths as [|path paths IH]; intros ind k c Hk; cbn [fold_left].
  - exists c. split; [exact Hk | apply incl_refl].
  - destruct (index_add_keeps (List.rev (PyStr.split os_sep path)) _ _ Hk)
      as (c1 & Hc1 & Hincl1).
    destruct (IH _ _ _ Hc1) as (c2 & Hc2 & Hincl2).
    exists c2. split; [exact Hc2|].
    intros x Hx. apply Hincl2, Hincl1. exact Hx.
Qed.

(** Every member of the archive is listed in the index under its parent
    directory: the last part of its path is among the children the index
    has for the path of the parts before it. *)
Theorem index_lists_every_member
        (self : ZipProvider) (path : string) (info : ZipInfo)
        (init : list string) (last : string) :
  In (path, info) (ZipProvider_zipinfo self) ->
  PyStr.split os_sep path = (init ++ [last])%list ->
  exists children,
    PyDict.get String.eqb (PyStr.join sep init) (index self) = Some children
    /\ In last children.
Proof.
  intros Hin Hsplit. unfold _index, PyDict.keys.
  apply (in_map fst) in Hin. cbn [fst] in Hin.
  apply in_split in Hin. destruct Hin as (l1 & l2 & ->).
  rewrite fold_left_app. cbn [fold_left].
  rewrite Hsplit, rev_app_distr. cbn [List.rev app].
  match goal with
  | |- context [index_add os_sep (last :: List.rev init) ?ind] =>
      destruct (index_add_lists last (List.rev init) ind) as (c & Hc & Hlast)
  end.
  rewrite rev_involutive in Hc.
  destruct (index_fold_keeps l2 _ _ Hc) as (c' & Hc' & Hincl).
  exists c'. split; [exact Hc' | apply Hincl; exact Hlast].
Qed.

(** *** Extraction *)

Lemma get_remove_other (p q : string) (files : list (string * File)) :
  q <> p ->
  PyDict.get String.eqb q (remove_key p files) = PyDict.get String.eqb q files.
Proof.
  intros Hne. induction files as [|[k f] files IH];
    cbn [remove_key PyDict.get]; [reflexivity|].
  destruct (String.eqb_spec k p) as [-> | Hkp].
  - destruct (String.eqb_spec p q); [congruence | reflexivity].
  - cbn [PyDict.get]. destruct (String.eqb_spec k q); [reflexivity | exact IH].
Qed.

Lemma update_file_spec (fs : FileSystem) (p : string) (g : File -> File)
      (f : File) :
  files_get p fs = Some f ->
  update_file fs p g
  = Ok (with_files fs (PyDict.set String.eqb p (g f) (fs_files fs))).
Proof. intros H. unfold update_file. rewrite H. reflexivity. Qed.

Lemma files_get_set (fs : FileSystem) (p : string) (f : File)
      (files : list (string * File)) :
  files_get p (with_files fs (PyDict.set String.eqb p f files)) = Some f.
Proof.
  unfold files_get. cbn [with_files fs_files].
  apply (@get_set_same _ _ _ String.eqb_spec).
Qed.

Lemma current_of_file (self : ZipProvider) (fs : FileSystem)
      (path zip_path data : string) (zi : ZipInfo) (f : File) :
  zipinfo_get self zip_path = Ok zi ->
  ZipProvider_get_data self zip_path = Ok data ->
  Z.of_nat (String.length data) = ZipInfo_file_size zi ->
  files_get path fs = Some f ->
  File_contents f = data ->
  File_mtime f = fst (_get_date_and_size time_mktime zi) ->
  current self fs path zip_path = Ok true.
Proof.
  intros Hzi Hdata Hsize Hf Hc Hm. unfold _is_current.
  rewrite Hzi. cbn [bind]. unfold _get_date_and_size in *. cbn [fst] in Hm.
  rewrite Hf, Hc, Hm, Hsize, !Z.eqb_refl. cbn [negb orb].
  rewrite Hdata. cbn [bind]. rewrite String.eqb_refl. reflexivity.
Qed.

Lemma rename_spec (fs fs' : FileSystem) (src dst : string) (f : File) :
  files_get src fs = Some f ->
  rename os_name fs src dst = Ok fs' ->
  files_get dst fs' = Some f.
Proof.
  intros Hf. unfold rename. rewrite Hf.
  destruct (String.eqb os_name "nt" && isfile fs dst); [discriminate|].
  intros H. injection H as <-. apply files_get_set.
Qed.

Lemma extract_file_leaves_current
      (self : ZipProvider) (fs fs' : FileSystem)
      (real_path zip_path data p : string) (zi : ZipInfo) :
  zipinfo_get self zip_path = Ok zi ->
  ZipProvider_get_data self zip_path = Ok data ->
  Z.of_nat (String.length data) = ZipInfo_file_size zi ->
  mkstemp_name fs ".$extract" (os_path_dirname os_path_split real_path)
  <> real_path ->
  file self fs real_path zip_path
       (fst (_get_date_and_size time_mktime zi)) = (Ok p, fs') ->
  p = real_path /\ current self fs' real_path zip_path = Ok true.
Proof.
  intros Hzi Hdata Hsize Hfresh. unfold extract_file. rewrite Hdata.
  unfold mkstemp_write.
  set (tmp := mkstemp_name fs ".$extract"
                           (os_path_dirname os_path_split real_path)) in *.
  set (ts := fst (_get_date_and_size time_mktime zi)).
  set (f0 := {| File_contents := data; File_mtime := fs_clock fs;
                File_mode := 384 |}).
  unfold utime.
  rewrite (@update_file_spec _ tmp _ f0) by apply files_get_set.
  cbn [with_files fs_files fs_dirs fs_clock].
  match goal with
  | |- context [postprocess os_name ?fs2 tmp real_path] =>
      set (fs2' := fs2)
  end.
  assert (H2 : files_get tmp fs2'
               = Some {| File_contents := data; File_mtime := ts;
                         File_mode := 384 |})
    by apply files_get_set.
  assert (Hpost : exists fs3 f,
             postprocess os_name fs2' tmp real_path = Ok fs3
             /\ files_get tmp fs3 = Some f
             /\ File_contents f = data /\ File_mtime f = ts).
  { unfold postprocess. destruct (String.eqb os_name "posix").
    - rewrite (@update_file_spec _ _ _ _ H2). eexists. eexists.
      split; [reflexivity|]. split; [apply files_get_set|].
      split; reflexivity.
    - eexists. eexists. split; [reflexivity|]. split; [exact H2|].
      split; reflexivity. }
  destruct Hpost as (fs3 & f & -> & H3 & Hc & Hm).
  destruct (rename os_name fs3 tmp real_path) as [fs4 | e] eqn:Hren.
  - intros H. injection H as <- <-. split; [reflexivity|].
    apply (@current_of_file _ _ _ _ _ _ _ Hzi Hdata Hsize (@rename_spec _ _ _ _ _ H3 Hren));
      assumption.
  - destruct (is_OSError e && isfile fs3 real_path);
      [|intros H; discriminate].
    destruct (_is_current time_mktime self fs3 real_path zip_path)
      as [[|] | e'] eqn:Hcur; try (intros H; discriminate).
    + intros H. injection H as <- <-. split; [reflexivity | exact Hcur].
    + destruct (String.eqb os_name "nt"); [|intros H; discriminate].
      unfold unlink.
      destruct (files_get real_path fs3) as [old|];
        [|intros H; discriminate].
      match goal with
      | |- context [rename os_name ?fs5 tmp real_path] =>
          destruct (rename os_name fs5 tmp real_path) as [fs6 | e'']
            eqn:Hren2; [|intros H; discriminate];
          assert (H5 : files_get tmp fs5 = Some f)
      end.
      { unfold files_get in *. cbn [with_files fs_files].
        rewrite get_remove_other; [exact H3 | exact Hfresh]. }
      intros H. injection H as <- <-. split; [reflexivity|].
      apply (@current_of_file _ _ _ _ _ _ _ Hzi Hdata Hsize (@rename_spec _ _ _ _ _ H5 Hren2));
        assumption.
Qed.

(** After a member has been extracted, the file in the cache is
    current: it has the data of the member, the size the archive records
    when that is the size of the data, and the time of the member; so a
    later [_is_current] answers [True] and nothing is written again.  The
    temporary file is taken to have a name other than the destination. *)
Theorem extraction_leaves_a_current_file
        (self : ZipProvider) (w w' : World) (zip_path data p : string)
        (zi : ZipInfo) :
  zipinfo_get self zip_path = Ok zi ->
  ZipProvider_get_data self zip_path = Ok data ->
  Z.of_nat (String.length data) = ZipInfo_file_size zi ->
  (forall fs dir, mkstemp_name fs ".$extract" dir <> p) ->
  member self w zip_path = (Ok p, w') ->
  current self (fst w') p zip_path = Ok true.
Proof.
  intros Hzi Hdata Hsize Hfresh. unfold extract_member. rewrite Hzi.
  destruct (_get_date_and_size time_mktime zi) as [timestamp size] eqn:Hds.
  destruct (negb WRITE_SUPPORT); [discriminate|].
  destruct (ZipProvider_egg_name self) as [egg_name|]; [|discriminate].
  destruct (negb (PyStr.bool_of_str egg_name)); [discriminate|].
  destruct (_parts os_sep self zip_path) as [names | e]; [|discriminate].
  destruct (get_cache_path _ _ _ _ _ _ _ _) as [[real_path | e] [fs mgr]];
    [|discriminate].
  destruct (_is_current time_mktime self fs real_path zip_path)
    as [[|] | e] eqn:Hcur; try discriminate.
  - intros H. injection H as <- <-. exact Hcur.
  - destruct (extract_file _ _ _ _ _ _ _ _ _) as [[q | e] fs'] eqn:Hfile;
      [|discriminate].
    intros H. injection H as <- <-. cbn [fst].
    replace timestamp
      with (fst (_get_date_and_size time_mktime zi)) in Hfile
      by (rewrite Hds; reflexivity).
    assert (Hq : q = real_path).
    { revert Hfile. unfold extract_file. rewrite Hdata. unfold mkstemp_write.
      repeat match goal with
             | |- context [match ?x with _ => _ end] =>
                 destruct x; try discriminate
             end;
        intros H; injection H as <- _; reflexivity. }
    subst q.
    exact (proj2 (@extract_file_leaves_current _ _ _ _ _ _ _ _ Hzi Hdata
                    Hsize (Hfresh _ _) Hfile)).
Qed.

(** *** Permissions *)

Lemma mode_bits (m : Z) : Z.land (Z.land (Z.lor m 365) 4095) 365 = 365%Z.
Proof.
  rewrite <- Z.land_assoc. change (Z.land 4095 365) with 365%Z.
  apply Z.bits_inj'. intros n Hn.
  rewrite Z.land_spec, Z.lor_spec.
  destruct (Z.testbit 365 n);
    [rewrite orb_true_r; reflexivity | apply andb_false_r].
Qed.

(** On a POSIX system [postprocess] makes the extracted file readable
    and executable by everyone and changes neither what it holds nor its
    time nor any other file; on another system it changes nothing; and
    for a file that does not exist it raises [FileNotFoundError]. *)
Theorem postprocess_makes_the_file_executable
        (fs : FileSystem) (tempname filename : string) :
  (os_name = "posix" ->
   forall f, files_get tempname fs = Some f ->
     exists fs' f',
       postprocess os_name fs tempname filename = Ok fs'
       /\ files_get tempname fs' = Some f'
       /\ File_contents f' = File_contents f
       /\ File_mtime f' = File_mtime f
       /\ Z.land (File_mode f') 365 = 365%Z
       /\ Z.land (File_mode f') 4095 = File_mode f'
       /\ forall other, other <> tempname ->
                        files_get other fs' = files_get other fs)
  /\ (os_name = "posix" -> files_get tempname fs = None ->
      postprocess os_name fs tempname filename
      = Raise (FileNotFoundError tempname))
  /\ (String.eqb os_name "posix" = false ->
      postprocess os_name fs tempname filename = Ok fs).
Proof.
  unfold postprocess. split; [|split].
  - intros -> f Hf. cbn [String.eqb Ascii.eqb Bool.eqb andb].
    rewrite (@update_file_spec _ _ _ _ Hf). eexists. eexists.
    split; [reflexivity|]. split; [apply files_get_set|].
    cbn [File_contents File_mtime File_mode].
    split; [reflexivity|]. split; [reflexivity|].
    split; [apply mode_bits|]. split.
    + rewrite <- Z.land_assoc. reflexivity.
    + intros other Hne. unfold files_get. cbn [with_files fs_files].
      apply (@get_set_other _ _ _ String.eqb_spec). exact Hne.
  - intros -> Hf. cbn [String.eqb Ascii.eqb Bool.eqb andb].
    unfold update_file. rewrite Hf. reflexivity.
  - intros ->. reflexivity.
Qed.

End ZipProviders.

(** ** pkg_resources: more on working sets, environments and entry points *)

Section WorkingSetEntries.

Import pkg_resources.

Context {P : Packaging}.

Variable find_distributions : string -> bool -> list Distribution.
Variable sys_path : list string.
Variable insert_on :
  Distribution -> list string -> option string -> bool -> list string.

Local Abbreviation add := (WorkingSet_add insert_on).
Local Abbreviation add_entry :=
  (WorkingSet_add_entry find_distributions insert_on).
Local Abbreviation init :=
  (WorkingSet___init__ find_distributions sys_path insert_on).

(** A requirement whose key is the canonical name of a project finds
    the distribution that was added under the project's own key: when no
    distribution is active under the requirement's key itself, [find]
    goes through the canonical names, answers with the distribution added
    if the requirement contains it, raises [VersionConflict] with it
    otherwise, and sets the key of the requirement to the key of the
    distribution. *)
Theorem WorkingSet_find_by_canonical_name
        (self : WorkingSet) (dist : Distribution) (entry : option string)
        (insert replace : bool) (req : Requirement) :
  Requirement_key req = packaging_utils.canonicalize_name
                          (Distribution_key dist) ->
  Requirement_key req <> "" ->
  Requirement_key req <> Distribution_key dist ->
  PyDict.get String.eqb (Requirement_key req) (WorkingSet_by_key self)
  = None ->
  replace = true
  \/ PyDict.get String.eqb (Distribution_key dist) (WorkingSet_by_key self)
     = None ->
  WorkingSet_find (add self dist entry insert replace) req
  = (set_key req (Distribution_key dist),
     inside <- Requirement___contains__
                 (set_key req (Distribution_key dist)) dist ;;
     if inside then Ok (Some dist)
     else Raise (VersionConflict dist
                   (set_key req (Distribution_key dist)))).
Proof.
  intros Hcanon Hne Hdiff Hnone Hfree. unfold WorkingSet_add.
  assert (Hguard :
           negb replace
           && match PyDict.get String.eqb (Distribution_key dist)
                               (WorkingSet_by_key self) with
              | Some _ => true
              | None => false
              end = false).
  { destruct Hfree as [-> | ->]; [reflexivity | apply andb_false_r]. }
  rewrite Hguard. unfold WorkingSet_find, find_candidates.
  cbn [WorkingSet_by_key WorkingSet_normalized_to_canonical_keys].
  rewrite Hcanon at 2. rewrite (@get_set_same _ _ _ String.eqb_spec).
  assert (Hkd : Distribution_key dist <> "").
  { intros E. apply Hne. rewrite Hcanon, E. reflexivity. }
  destruct (Requirement_key req) as [|c k] eqn:Hk; [congruence|].
  destruct (Distribution_key dist) as [|c' k'] eqn:Hd; [congruence|].
  cbn [app filter PyStr.bool_of_str find_candidate].
  rewrite (@get_set_other _ _ _ String.eqb_spec _ _ _ _ Hdiff), Hnone.
  rewrite (@get_set_same _ _ _ String.eqb_spec).
  destruct (Requirement___contains__ _ dist) as [[|] | e]; reflexivity.
Qed.

Lemma fold_add_entries (dists : list Distribution) (entry : string)
      (self : WorkingSet) :
  WorkingSet_entries
    (fold_left (fun ws dist => add ws dist (Some entry) false false)
               dists self)
  = WorkingSet_entries self.
Proof.
  revert self. induction dists as [|d dists IH]; intros self;
    cbn [fold_left]; [reflexivity|].
  rewrite IH. unfold WorkingSet_add.
  destruct (negb false && _); reflexivity.
Qed.

(** [add_entry] always appends the entry to [entries], also when it is
    there already, and nothing else; so the entries of a working set built
    from a list of entries are that list, as for the working set of
    [sys.path]. *)
Theorem WorkingSet_entries_are_those_given
        (self : WorkingSet) (entry : string) (entries : list string) :
  WorkingSet_entries (add_entry self entry)
  = (WorkingSet_entries self ++ [entry])%list
  /\ WorkingSet_entries (init (Some entries)) = entries
  /\ WorkingSet_entries (init None) = sys_path.
Proof.
  assert (Hadd : forall ws e,
             WorkingSet_entries (add_entry ws e)
             = (WorkingSet_entries ws ++ [e])%list).
  { intros ws e. unfold WorkingSet_add_entry. rewrite fold_add_entries.
    reflexivity. }
  assert (Hfold : forall es ws,
             WorkingSet_entries (fold_left add_entry es ws)
             = (WorkingSet_entries ws ++ es)%list).
  { induction es as [|e es IH]; intros ws; cbn [fold_left].
    - rewrite app_nil_r. reflexivity.
    - rewrite IH, Hadd, <- app_assoc. reflexivity. }
  split; [apply Hadd|].
  unfold WorkingSet___init__. rewrite !Hfold. split; reflexivity.
Qed.

End WorkingSetEntries.

Section EnvironmentsBuilt.

Import pkg_resources.

Context {P : Packaging}.
Hypothesis version_order : TotalCmp version_compare.

Variable find_distributions : string -> bool -> list Distribution.
Variable sys_path : list string.



End EnvironmentsBuilt.

Section EntryPointGroups.

Import pkg_resources.

Context {P : Packaging}.

Lemma set_absent {V : Type} (k : string) (v : V) (d : list (string * V)) :
  PyDict.get String.eqb k d = None ->
  PyDict.set String.eqb k v d = (d ++ [(k, v)])%list.
Proof.
  induction d as [|[k' v'] d IH]; cbn [PyDict.get PyDict.set app];
    [reflexivity|].
  destruct (String.eqb k' k); [discriminate|].
  intros H. rewrite (IH H). reflexivity.
Qed.

Lemma get_none_not_in {V : Type} (k : string) (d : list (string * V)) :
  PyDict.get String.eqb k d = None -> ~ In k (map fst d).
Proof.
  induction d as [|[k' v'] d IH]; cbn [PyDict.get map fst]; [tauto|].
  destruct (String.eqb_spec k' k); [discriminate|].
  intros H [E | Hin]; [congruence | exact (IH H Hin)].
Qed.

Lemma parse_group_loop_spec (group : string) (dist : option Distribution)
      (lines : list string) :
  forall (done : list EntryPoint) (this : list (string * EntryPoint)),
    parse_group_loop group lines dist
                     (map (fun ep => (EntryPoint_name ep, ep)) done)
    = Ok this ->
    NoDup (map EntryPoint_name done) ->
    exists eps,
      map_result (fun line => EntryPoint_parse line dist) lines = Ok eps
      /\ this = map (fun ep => (EntryPoint_name ep, ep)) (done ++ eps)
      /\ NoDup (map EntryPoint_name (done ++ eps)).
Proof.
  induction lines as [|line lines IH]; intros done this;
    cbn [parse_group_loop map_result].
  - intros H Hn. injection H as <-. exists []. rewrite app_nil_r. auto.
  - destruct (EntryPoint_parse line dist) as [ep | e]; cbn [bind];
      [|discriminate].
    destruct (PyDict.get String.eqb (EntryPoint_name ep)
                (map (fun ep0 => (EntryPoint_name ep0, ep0)) done))
      as [old|] eqn:Hget; [discriminate|].
    rewrite (@set_absent _ _ ep _ Hget).
    change [(EntryPoint_name ep, ep)]
      with (map (fun ep0 => (EntryPoint_name ep0, ep0)) [ep]).
    rewrite <- map_app. intros H Hn.
    destruct (IH (done ++ [ep])%list this H) as (eps & Hparse & Hthis & Hnd).
    { rewrite map_app. apply NoDup_app; [exact Hn | repeat constructor; auto |].
      intros name Hin [<- | []]. apply get_none_not_in in Hget.
      apply Hget. rewrite map_map. exact Hin. }
    exists (ep :: eps). rewrite Hparse. cbn [bind].
    rewrite <- app_assoc in Hthis, Hnd. auto.
Qed.

(** What [parse_group] returns holds the entry points of the lines, in
    order, each under its name, and no two of them have the same name: a
    second line with a name already seen makes it raise [ValueError], as
    does a group name that is not a dotted name. *)
Theorem parse_group_names_are_distinct
        (group : string) (lines : list string) (dist : option Distribution)
        (this : list (string * EntryPoint)) :
  EntryPoint_parse_group group lines dist = Ok this ->
  Re.match_ MODULE group <> None
  /\ exists eps,
      map_result (fun line => EntryPoint_parse line dist) lines = Ok eps
      /\ this = map (fun ep => (EntryPoint_name ep, ep)) eps
      /\ NoDup (map EntryPoint_name eps).
Proof.
  unfold EntryPoint_parse_group.
  destruct (Re.match_ MODULE group); [|discriminate].
  intros H. split; [discriminate|].
  exact (parse_group_loop_spec group dist lines [] H (NoDup_nil _)).
Qed.

End EntryPointGroups.

Section Directories.

Import pkg_resources.

Variable os_path_split : string -> string * string.
Variable WRITE_SUPPORT : bool.

Local Abbreviation ensure_directory :=
  (_bypass_ensure_directory os_path_split WRITE_SUPPORT).

Lemma ensure_directory_grows (fuel : nat) :
  forall (fs fs' : FileSystem) (path : string),
    ensure_directory fuel fs path = Ok fs' ->
    fs_files fs' = fs_files fs /\ incl (fs_dirs fs) (fs_dirs fs').
Proof.
  induction fuel as [|fuel IH]; intros fs fs' path;
    cbn [_bypass_ensure_directory];
    destruct (negb WRITE_SUPPORT); try discriminate;
    destruct (os_path_split path) as [dirname filename];
    destruct (PyStr.bool_of_str dirname && PyStr.bool_of_str filename
              && negb (isdir fs dirname));
    try discriminate;
    try (intros H; injection H as <-; split;
         [reflexivity | apply incl_refl]).
  destruct (_bypass_ensure_directory os_path_split WRITE_SUPPORT fuel fs
                                     dirname) as [fs1 | e] eqn:H1;
    cbn [bind]; try discriminate.
  destruct (IH _ _ _ H1) as [Hfiles Hdirs].
  unfold mkdir. destruct (isdir fs1 dirname || isfile fs1 dirname).
  - intros H. injection H as <-. auto.
  - intros H. injection H as <-. cbn [fs_files fs_dirs].
    split; [exact Hfiles|]. apply incl_appl. exact Hdirs.
Qed.

(** When [_bypass_ensure_directory] returns, the directory part of the
    path exists, as a directory or, if a file of that name was in the
    way, as that file; no file has been touched and no directory removed.
    Without write support it raises [OSError]. *)
Theorem ensure_directory_makes_the_parent
        (fuel : nat) (fs fs' : FileSystem) (path dirname filename : string) :
  os_path_split path = (dirname, filename) ->
  dirname <> "" -> filename <> "" ->
  (ensure_directory fuel fs path = Ok fs' ->
   isdir fs' dirname || isfile fs' dirname = true
   /\ fs_files fs' = fs_files fs
   /\ incl (fs_dirs fs) (fs_dirs fs'))
  /\ (WRITE_SUPPORT = false ->
      exists msg, ensure_directory fuel fs path = Raise (OSError msg)).
Proof.
  intros Hsplit Hd Hf. split.
  - intros H. split; [|exact (ensure_directory_grows _ _ _ H)].
    revert H. destruct fuel as [|fuel]; cbn [_bypass_ensure_directory];
      destruct (negb WRITE_SUPPORT); try discriminate; rewrite Hsplit;
      destruct dirname as [|c dirname]; try congruence;
      destruct filename as [|c' filename]; try congruence;
      cbn [PyStr.bool_of_str andb];
      destruct (isdir fs (String c dirname)) eqn:Hdir; cbn [negb];
      try discriminate;
      try (intros H; injection H as <-; rewrite Hdir; reflexivity).
    destruct (_bypass_ensure_directory os_path_split WRITE_SUPPORT fuel fs
                                       (String c dirname)) as [fs1 | e];
      cbn [bind]; try discriminate.
    unfold mkdir.
    destruct (isdir fs1 (String c dirname) || isfile fs1 (String c dirname))
      eqn:Hex.
    + intros H. injection H as <-. exact Hex.
    + intros H. injection H as <-. apply orb_true_iff. left.
      unfold isdir. cbn [fs_dirs]. rewrite existsb_app. cbn [existsb].
      rewrite String.eqb_refl. cbn. apply orb_true_r.
  - intros ->. destruct fuel; eexists; reflexivity.
Qed.

End Directories.

(** ** The properties on the small instance *)

Lemma egg_info_requirement_forms_witness :
  importlib_metadata._convert_egg_info_reqs_to_simple_reqs
    [importlib_metadata.mkPair (Some "ssl:python_version<'3'") "pyopenssl"]
  = ["pyopenssl; (python_version<'3') and extra == " ++ PyStr.dquote
     ++ "ssl" ++ PyStr.dquote].
Proof.
  destruct (@egg_info_requirement_forms "ssl" "python_version<'3'"
              "pyopenssl" []) as (_ & _ & H & _);
    [reflexivity | discriminate | discriminate | exact H].
Defined.

Lemma Distribution_comparisons_agree_witness :
  pkg_resources.Distribution_eq Inputs.foo_egg_info Inputs.foo_dist_info
  = Ok false
  /\ pkg_resources.Distribution_ne Inputs.foo_egg_info Inputs.foo_dist_info
     = Ok true
  /\ pkg_resources.Distribution_ge Inputs.foo_egg_info Inputs.foo_dist_info
     = Ok true.
Proof.
  destruct (@Distribution_comparisons_agree Small.packaging
              small_version_order Inputs.foo_egg_info Inputs.foo_dist_info
              false eq_refl)
    as (ha & hb & _ & _ & Heq & _ & Hne & _ & _ & Hge & _).
  split; [exact Heq|]. split; [exact Hne | exact Hge].
Defined.

Lemma Environment_add_twice_witness :
  pkg_resources.Environment_add Inputs.env_with_both_infos
                                Inputs.foo_dist_info
  = Ok Inputs.env_with_both_infos.
Proof.
  apply (@Environment_add_twice Small.packaging small_version_order
           Inputs.env_with_egg_info Inputs.env_with_both_infos
           Inputs.foo_dist_info).
  reflexivity.
Defined.

Lemma env_with_egg_info_invariant :
  pkg_resources.Environment_invariant Inputs.env_with_egg_info.
Proof.
  apply (@Environment_add_invariant Small.packaging small_version_order
           Inputs.empty_environment Inputs.env_with_egg_info
           Inputs.foo_egg_info);
    [|reflexivity].
  intros key dists H. discriminate.
Qed.

Lemma Environment_remove_undoes_add_witness :
  exists env2,
    pkg_resources.Environment_remove Inputs.env_with_both_infos
                                     Inputs.foo_dist_info
    = Ok env2
    /\ forall project_name,
        pkg_resources.Environment___getitem__ env2 project_name
        = pkg_resources.Environment___getitem__ Inputs.env_with_egg_info
            project_name.
Proof.
  apply (@Environment_remove_undoes_add Small.packaging small_version_order
           Inputs.env_with_egg_info Inputs.env_with_both_infos
           Inputs.foo_dist_info).
  - exact env_with_egg_info_invariant.
  - reflexivity.
  - reflexivity.
  - constructor; [reflexivity | constructor].
  - reflexivity.
Defined.

Lemma WorkingSet_find_after_add_witness :
  pkg_resources.WorkingSet_find Inputs.working_set_with_0_5 Inputs.pkg_ge_1_0
  = (Inputs.pkg_ge_1_0,
     Raise (pkg_resources.VersionConflict Inputs.pkg_0_5 Inputs.pkg_ge_1_0)).
Proof.
  destruct (@WorkingSet_find_after_add Small.packaging Inputs.keep_path
              Inputs.empty_working_set Inputs.pkg_0_5 None true false
              Inputs.pkg_ge_1_0) as [H _];
    [reflexivity | discriminate |].
  exact (H (or_intror eq_refl)).
Defined.

Lemma WorkingSet_find_by_canonical_name_witness :
  pkg_resources.WorkingSet_find
    (pkg_resources.WorkingSet_add Inputs.keep_path Inputs.empty_working_set
       Inputs.foo_bar_1_0 None true false)
    Inputs.foo_dash_bar
  = (pkg_resources.set_key Inputs.foo_dash_bar "foo_bar",
     Ok (Some Inputs.foo_bar_1_0)).
Proof.
  apply (@WorkingSet_find_by_canonical_name Small.packaging Inputs.keep_path
           Inputs.empty_working_set Inputs.foo_bar_1_0 None true false
           Inputs.foo_dash_bar);
    [reflexivity | discriminate | discriminate | reflexivity |].
  right. reflexivity.
Defined.

Lemma Environment_best_match_satisfies_witness :
  pkg_resources.Requirement___contains__ Inputs.pkg_ge_1_0 Inputs.pkg_1_2
  = Ok true.
Proof.
  destruct (@Environment_best_match_satisfies Small.packaging
              Inputs.env_with_both Inputs.pkg_ge_1_0 Inputs.pkg_ge_1_0
              Inputs.empty_working_set false (Ok (Some Inputs.pkg_1_2))
              eq_refl) as [H _].
  exact (H Inputs.pkg_1_2 eq_refl).
Defined.

Lemma small_specifier_eqb_refl (s : list Small.Clause) :
  Small.specifier_eqb s s = true.
Proof.
  induction s as [|[op v] s IH]; cbn; [reflexivity|].
  unfold Small.clause_eqb. cbn [fst snd].
  rewrite !String.eqb_refl, IH. reflexivity.
Qed.

Lemma WorkingSet_resolve_is_sound_witness :
  exists processed,
    (forall req, In req [Inputs.pkg_ge_1_0] ->
                 pkg_resources.Requirement_marker req = None ->
                 exists r, In r processed
                           /\ pkg_resources.Requirement___eq__ r req = true)
    /\ forall req, In req processed ->
         exists dist deps,
           In dist [Inputs.pkg_1_2]
           /\ pkg_resources.Requirement___contains__ req dist = Ok true
           /\ pkg_resources.Distribution_requires
                dist (pkg_resources.Requirement_extras req) = Ok deps
           /\ forall dep, In dep deps ->
                pkg_resources.Requirement_marker dep = None ->
                exists r, In r processed
                          /\ pkg_resources.Requirement___eq__ r dep = true.
Proof.
  apply (@WorkingSet_resolve_is_sound Small.packaging Inputs.no_distributions
           [] None "3.12" Inputs.keep_path small_specifier_eqb_refl 2
           Inputs.empty_working_set [Inputs.pkg_ge_1_0]
           (Some Inputs.env_with_both) None false None [Inputs.pkg_1_2]).
  reflexivity.
Defined.

Lemma index_lists_every_member_witness :
  exists children,
    PyDict.get String.eqb "data" (pkg_resources._index "/" Inputs.egg)
    = Some children
    /\ In "x.txt" children.
Proof.
  apply (@index_lists_every_member "/" Inputs.egg "data/x.txt"
           Inputs.member_info ["data"] "x.txt");
    [left; reflexivity | reflexivity].
Defined.

Lemma extraction_leaves_a_current_file_witness :
  Inputs.is_current Inputs.egg (fst Inputs.refreshed) Inputs.cached_path
                    "data/x.txt"
  = Ok true.
Proof.
  apply (@extraction_leaves_a_current_file "posix" "/" Small.posix_join
           Small.posix_split Inputs.mktime true "/cache" Inputs.temp_outside
           (fun _ _ => Ok tt) Inputs.egg (Inputs.stale_fs, Inputs.manager)
           Inputs.refreshed "data/x.txt" "hello" Inputs.cached_path
           Inputs.member_info);
    try reflexivity.
  intros fs dir. discriminate.
Defined.


Lemma ensure_directory_makes_the_parent_witness :
  pkg_resources.isdir Inputs.stale_fs "/cache/foo.egg-tmp/data"
  || pkg_resources.isfile Inputs.stale_fs "/cache/foo.egg-tmp/data"
  = true.
Proof.
  destruct (@ensure_directory_makes_the_parent Small.posix_split true 3
              Inputs.stale_fs Inputs.stale_fs Inputs.cached_path
              "/cache/foo.egg-tmp/data" "x.txt") as [H _];
    [reflexivity | discriminate | discriminate |].
  exact (proj1 (H eq_refl)).
Defined.

Lemma parse_group_names_are_distinct_witness :
  Re.match_ pkg_resources.MODULE "console_scripts" <> None
  /\ exists eps,
      pkg_resources.map_result
        (fun line => pkg_resources.EntryPoint_parse (P := Small.packaging)
                       line None)
        [Inputs.entry_point_text] = Ok eps
      /\ [("foo", Inputs.parsed_entry_point None)]
         = map (fun ep => (pkg_resources.EntryPoint_name ep, ep)) eps
      /\ NoDup (map pkg_resources.EntryPoint_name eps).
Proof.
  apply (@parse_group_names_are_distinct Small.packaging "console_scripts"
           [Inputs.entry_point_text] None
           [("foo", Inputs.parsed_entry_point None)]).
  reflexivity.
Defined.
